(** * FitTrack model-training pipeline ([ml/train_models.py])

    A shallow embedding of the training script: the three predictor classes
    ([WorkoutSuccessPredictor], [RecoveryTimePredictor],
    [WeightProgressionPredictor]), the per-task entry points and the command
    line driver, together with the properties the specification states about
    them.

    Numbers are IEEE binary64 values ([PrimFloat.float]), as in Python and
    numpy.  pandas objects live in a store of column buffers so that views and
    copies can be told apart.  scikit-learn, joblib and the CSV reader are
    external libraries: they enter as an interface ([Sklearn]) whose functions
    may fail, and the script is embedded on top of that interface. *)

From Stdlib Require Import String Ascii DecimalString List ZArith Bool Arith Lia.
From Stdlib Require Import PrimFloat SpecFloat FloatOps FloatAxioms.
From Stdlib Require Import Sorted Permutation.
From Stdlib Require Import Reals Lra.
Import ListNotations.

Set Warnings "-inexact-float".

Local Open Scope string_scope.
Local Open Scope list_scope.

(** ** Exceptions and the state-and-exception monad *)

Inductive Exn : Type :=
| KeyError (keys : list string)
| TypeError
| ValueError
| IndexError
| NotFittedError
| FileNotFoundError (path : string)
| DanglingRef.
(* [DanglingRef] is not a Python exception: it marks a store in which a frame
   names a buffer that does not exist, which no Python state does. *)

Definition Result (A : Type) : Type := (Exn + A)%type.

(** A computation reads and updates a state of type [S]; when it raises, the
    state reached so far is kept (what was printed or written stays so). *)
Definition M (S A : Type) : Type := S -> Result A * S.

Definition ret {S A : Type} (a : A) : M S A := fun s => (inr a, s).

Definition raise {S A : Type} (e : Exn) : M S A := fun s => (inl e, s).

Definition bind {S A B : Type} (m : M S A) (k : A -> M S B) : M S B :=
  fun s =>
    match m s with
    | (inr a, s') => k a s'
    | (inl e, s') => (inl e, s')
    end.

Definition lift_result {S A : Type} (r : Result A) : M S A := fun s => (r, s).

Declare Scope monad_scope.
Delimit Scope monad_scope with monad.
Notation "x <- m ;; k" := (bind m (fun x => k))
  (at level 61, m at next level, right associativity) : monad_scope.
Notation "' pat <- m ;; k" := (bind m (fun x => match x with pat => k end))
  (at level 61, pat pattern, m at next level, right associativity) : monad_scope.
Notation "m ;;; k" := (bind m (fun _ => k))
  (at level 61, right associativity) : monad_scope.
Local Open Scope monad_scope.

Fixpoint mapM {S A B : Type} (f : A -> M S B) (l : list A) : M S (list B) :=
  match l with
  | [] => ret []
  | a :: t => b <- f a ;; bs <- mapM f t ;; ret (b :: bs)
  end.

(** ** pandas: column buffers, frames and series *)

Definition loc := nat.

(** A column buffer with its dtype.  In a [ColF64] buffer a missing value is
    the float [nan]; in an object column it is [None]. *)
Inductive Column : Type :=
| ColF64 (xs : list float)
| ColI64 (zs : list Z)
| ColBool (bs : list bool)
| ColObj (ss : list (option string)).

(** The store: buffers are only ever appended, a location is an index. *)
Definition Heap := list Column.

(** A DataFrame is its ordered column labels, each backed by a buffer; a
    Series is a buffer.  Row labels are positions (the index of a frame read
    from CSV is a RangeIndex, and every frame below derives from one). *)
Definition DataFrame := list (string * loc).
Definition Series := loc.

Definition alloc (c : Column) : M Heap loc :=
  fun h => (inr (length h), h ++ [c]).

Definition load (l : loc) : M Heap Column :=
  fun h =>
    match nth_error h l with
    | Some c => (inr c, h)
    | None => (inl DanglingRef, h)
    end.

Definition copy_column (l : loc) : M Heap loc :=
  c <- load l ;; alloc c.

(** Lookup by label, first match. *)
Fixpoint assoc {V : Type} (name : string) (l : list (string * V)) : option V :=
  match l with
  | [] => None
  | (n, v) :: rest => if String.eqb n name then Some v else assoc name rest
  end.

Definition df_lookup (name : string) (df : DataFrame) : option loc := assoc name df.

Definition missing_labels (names : list string) (df : DataFrame) : list string :=
  filter (fun n => match df_lookup n df with Some _ => false | None => true end) names.

(** [df[name]]: the Series of one column.  It is the frame's own buffer, not
    a copy. *)
Definition getitem_col (df : DataFrame) (name : string) : M Heap Series :=
  match df_lookup name df with
  | Some l => ret l
  | None => raise (KeyError [name])
  end.

Definition take_columns (df : DataFrame) (names : list string) : M Heap DataFrame :=
  mapM (fun n =>
          match df_lookup n df with
          | None => raise (KeyError [n])
          | Some l => l' <- copy_column l ;; ret (n, l')
          end) names.

(** [df[names]] with a list of labels: a new frame over copied buffers;
    [KeyError] naming the absent labels, raised before anything is copied. *)
Definition getitem_list (df : DataFrame) (names : list string) : M Heap DataFrame :=
  match missing_labels names df with
  | [] => take_columns df names
  | ms => raise (KeyError ms)
  end.

(** *** Numeric helpers *)

Definition Z2float (z : Z) : float := SF2Prim (binary_normalize prec emax z 0 false).

Definition b2float (b : bool) : float := if b then 1%float else 0%float.

(** Truncation toward zero, as numpy's float64 -> int64 cast does for values
    in range. *)
Definition float_trunc (f : float) : Z :=
  match Prim2SF f with
  | S754_finite s m e =>
      cond_Zopp s (if (0 <=? e)%Z then Zpos m * 2 ^ e else Zpos m / 2 ^ (- e))%Z
  | _ => 0%Z
  end.

Fixpoint insert_sorted (x : float) (l : list float) : list float :=
  match l with
  | [] => [x]
  | y :: t => if (x <=? y)%float then x :: l else y :: insert_sorted x t
  end.

Definition sort_floats (l : list float) : list float := fold_right insert_sorted [] l.

(** Median that skips missing values; [nan] when nothing is left. *)
Definition nanmedian (xs : list float) : float :=
  let v := sort_floats (filter (fun x => negb (is_nan x)) xs) in
  let n := length v in
  if (n =? 0)%nat then nan
  else if Nat.even n
       then ((nth (n / 2 - 1) v nan + nth (n / 2) v nan) / 2)%float
       else nth (n / 2) v nan.

(** The numeric content of a buffer; an object column has none. *)
Definition column_floats (c : Column) : option (list float) :=
  match c with
  | ColF64 xs => Some xs
  | ColI64 zs => Some (map Z2float zs)
  | ColBool bs => Some (map b2float bs)
  | ColObj _ => None
  end.

Definition column_length (c : Column) : nat :=
  match c with
  | ColF64 xs => length xs
  | ColI64 zs => length zs
  | ColBool bs => length bs
  | ColObj ss => length ss
  end.

(** [df.median()]: one float per column label ([TypeError] on an object
    column). *)
Definition df_median (df : DataFrame) : M Heap (list (string * float)) :=
  mapM (fun nl : string * loc =>
          c <- load (snd nl) ;;
          match column_floats c with
          | Some xs => ret (fst nl, nanmedian xs)
          | None => raise TypeError
          end) df.

Definition fill_cell (v x : float) : float := if is_nan x then v else x.

(** One column of [fillna]: only float columns hold missing numbers.  An
    object column with holes would become a mixed column, which this store
    does not represent; in this program [median] has raised before that. *)
Definition fillna_column (c : Column) (v : float) : Result Column :=
  match c with
  | ColF64 xs => inr (ColF64 (map (fill_cell v) xs))
  | ColI64 _ | ColBool _ => inr c
  | ColObj ss =>
      if forallb (fun o => match o with Some _ => true | None => false end) ss
      then inr c else inl TypeError
  end.

(** [df.fillna(value)] with a Series of per-label fill values: a new frame. *)
Definition fillna (df : DataFrame) (value : list (string * float)) : M Heap DataFrame :=
  mapM (fun nl : string * loc =>
          c <- load (snd nl) ;;
          c' <- lift_result (match assoc (fst nl) value with
                             | Some v => fillna_column c v
                             | None => inr c
                             end) ;;
          l' <- alloc c' ;;
          ret (fst nl, l')) df.

(** [s.astype(int)]: a new int64 Series. *)
Definition astype_int (s : Series) : M Heap Series :=
  c <- load s ;;
  match c with
  | ColF64 xs =>
      if forallb is_finite xs then alloc (ColI64 (map float_trunc xs))
      else raise ValueError
  | ColI64 zs => alloc (ColI64 zs)
  | ColBool bs => alloc (ColI64 (map Z.b2z bs))
  | ColObj _ => raise ValueError
  end.

Fixpoint insert_label (x : string) (l : list string) : list string :=
  match l with
  | [] => [x]
  | y :: t =>
      if String.eqb x y then l
      else if String.ltb x y then x :: l
      else y :: insert_label x t
  end.

(** The distinct labels present in an object column, sorted. *)
Definition categories (ss : list (option string)) : list string :=
  fold_right (fun o acc => match o with Some s => insert_label s acc | None => acc end)
             [] ss.

Definition indicator (cat : string) (ss : list (option string)) : list bool :=
  map (fun o => match o with Some s => String.eqb s cat | None => false end) ss.

(** [pd.get_dummies(s, prefix=p)] on a label column: one indicator column per
    category present in [s].  Encoding a numeric column needs number
    formatting for the labels and is left out ([TypeError]). *)
Definition get_dummies (s : Series) (prefix : string) : M Heap DataFrame :=
  c <- load s ;;
  match c with
  | ColObj ss =>
      mapM (fun cat =>
              l <- alloc (ColBool (indicator cat ss)) ;;
              ret ((prefix ++ "_" ++ cat)%string, l)) (categories ss)
  | _ => raise TypeError
  end.

(** [df.copy()], and [pd.concat(frames, axis=1)] on frames sharing their row
    index: new buffers throughout. *)
Definition df_copy (df : DataFrame) : M Heap DataFrame :=
  mapM (fun nl : string * loc =>
          l' <- copy_column (snd nl) ;; ret (fst nl, l')) df.

Definition concat_axis1 (frames : list DataFrame) : M Heap DataFrame :=
  df_copy (concat frames).

(** Elementwise comparison with [True] (which equals the number 1). *)
Definition eq_True_mask (c : Column) : list bool :=
  match c with
  | ColBool bs => bs
  | ColF64 xs => map (fun x => (x =? 1)%float) xs
  | ColI64 zs => map (fun z => (z =? 1)%Z) zs
  | ColObj ss => map (fun _ => false) ss
  end.

(** [s == True]: a new boolean Series. *)
Definition eq_True (s : Series) : M Heap Series :=
  c <- load s ;;
  alloc (ColBool (eq_True_mask c)).

Fixpoint select {A : Type} (mask : list bool) (l : list A) : list A :=
  match mask, l with
  | b :: mask', x :: l' => if b then x :: select mask' l' else select mask' l'
  | _, _ => []
  end.

Definition select_column (mask : list bool) (c : Column) : Column :=
  match c with
  | ColF64 xs => ColF64 (select mask xs)
  | ColI64 zs => ColI64 (select mask zs)
  | ColBool bs => ColBool (select mask bs)
  | ColObj ss => ColObj (select mask ss)
  end.

(** [df[mask]] with a boolean Series: the rows where the mask holds, in new
    buffers. *)
Definition getitem_mask (df : DataFrame) (mask : Series) : M Heap DataFrame :=
  m <- load mask ;;
  match m with
  | ColBool bs =>
      mapM (fun nl : string * loc =>
              c <- load (snd nl) ;;
              if (column_length c =? length bs)%nat
              then l' <- alloc (select_column bs c) ;; ret (fst nl, l')
              else raise ValueError) df
  | _ => raise (KeyError [])
  end.

(** ** numpy / scikit-learn / joblib: the library interface *)

(** A 2-d float array, row by row. *)
Definition Matrix := list (list float).

(** Constructor arguments of the random forests. *)
Record ForestParams : Type := {
  n_estimators : nat;
  max_depth : nat;
  min_samples_split : nat;
  random_state : option Z
}.

(** An estimator object: its constructor arguments and, once [fit] has run,
    its fitted trees. *)
Record Estimator (F : Type) : Type := {
  params : ForestParams;
  fitted : option F
}.
Arguments params {F} _.
Arguments fitted {F} _.

(** scikit-learn and numpy's generator.  Every function of the library that
    draws random numbers takes the generator it draws from and returns it
    advanced; every function may raise. *)
Class Sklearn : Type := {
  Rng : Type;
  RandomState : Z -> Rng;                     (* np.random.RandomState(seed) *)
  ScalerState : Type;                         (* mean_ and scale_ of a fitted StandardScaler *)
  Classifier : Type;                          (* the trees of a fitted RandomForestClassifier *)
  Regressor : Type;                           (* the trees of a fitted RandomForestRegressor *)
  (* the row positions train_test_split assigns to (train, test) *)
  shuffle_split : Rng -> nat -> float -> Result (list nat * list nat) * Rng;
  scaler_fit : Matrix -> Result ScalerState;
  scaler_transform : ScalerState -> Matrix -> Result Matrix;
  classifier_fit : ForestParams -> Rng -> Matrix -> list float -> Result Classifier * Rng;
  classifier_predict : Classifier -> Matrix -> Result (list float);
  classifier_predict_proba : Classifier -> Matrix -> Result (list (list float));
  classifier_feature_importances : Classifier -> list float;
  regressor_fit : ForestParams -> Rng -> Matrix -> list float -> Result Regressor * Rng;
  regressor_predict : Regressor -> Matrix -> Result (list float);
  accuracy_score : list float -> list float -> Result float;
  classification_report : list float -> list float -> list string -> Result string;
  mean_squared_error : list float -> list float -> Result float;
  r2_score : list float -> list float -> Result float
}.

(** A StandardScaler object: unfitted, or holding its learned state. *)
Definition StandardScaler {sk : Sklearn} : Type := option ScalerState.

(** Python values that end up in a saved bundle. *)
Inductive PyVal {sk : Sklearn} : Type :=
| VClassifier (m : Estimator Classifier)
| VRegressor (m : Estimator Regressor)
| VScaler (s : StandardScaler)
| VStrList (l : list string)
| VStr (s : string).

Definition Dict {sk : Sklearn} : Type := list (string * PyVal).

Definition dict_get {sk : Sklearn} (key : string) (d : Dict) : option PyVal :=
  assoc key d.

(** The rest of the runtime: joblib's pickler (the byte chunks it writes, in
    order), the CSV parser, number formatting and the clock's text format. *)
Class Runtime (sk : Sklearn) : Type := {
  joblib_pickle : Dict -> list (list Byte.byte);
  parse_csv : list Byte.byte -> Result (list (string * Column));
  format_float : string -> float -> string;         (* format(x, spec) *)
  frame_to_string : list (string * float) -> string; (* DataFrame.to_string(index=False) *)
  isoformat : Z -> string                            (* datetime.isoformat() *)
}.

(** ** The world the script runs in *)

(** Files by path, and the directories that exist. *)
Record FS : Type := {
  dirs : list string;
  files : list (string * list Byte.byte)
}.

Definition fs_read (path : string) (l : list (string * list Byte.byte))
  : option (list Byte.byte) := assoc path l.

Fixpoint fs_write (path : string) (content : list Byte.byte)
         (l : list (string * list Byte.byte)) : list (string * list Byte.byte) :=
  match l with
  | [] => [(path, content)]
  | (p, c) :: rest =>
      if String.eqb p path then (p, content) :: rest
      else (p, c) :: fs_write path content rest
  end.

Fixpoint has_slash (s : string) : bool :=
  match s with
  | EmptyString => false
  | String c rest => if Ascii.eqb c "/" then true else has_slash rest
  end.

(** The directory part of a path (empty for a bare file name). *)
Fixpoint dirname (s : string) : string :=
  match s with
  | EmptyString => EmptyString
  | String c rest => if has_slash rest then String c (dirname rest) else EmptyString
  end.

Definition parent_exists (path : string) (f : FS) : bool :=
  let d := dirname path in
  String.eqb d "" || existsb (String.eqb d) (dirs f).

(** What a process does to a file it writes: [open(path, 'wb')] creates or
    truncates it, each [write] appends a chunk. *)
Inductive FsOp : Type :=
| OpenTrunc (path : string)
| Append (path : string) (chunk : list Byte.byte)
| Rename (src dst : string).

Definition fs_remove (path : string) (l : list (string * list Byte.byte)) :=
  filter (fun pc : string * list Byte.byte => negb (String.eqb (fst pc) path)) l.

Definition fs_step (op : FsOp) (f : FS) : Result FS :=
  match op with
  | OpenTrunc p =>
      if parent_exists p f
      then inr {| dirs := dirs f; files := fs_write p [] (files f) |}
      else inl (FileNotFoundError p)
  | Append p chunk =>
      let old := match fs_read p (files f) with Some c => c | None => [] end in
      inr {| dirs := dirs f; files := fs_write p (old ++ chunk) (files f) |}
  | Rename src dst =>
      match fs_read src (files f) with
      | Some c =>
          if parent_exists dst f
          then inr {| dirs := dirs f; files := fs_write dst c (fs_remove src (files f)) |}
          else inl (FileNotFoundError dst)
      | None => inl (FileNotFoundError src)
      end
  end.

(** The states of the file system that another process can observe while a
    sequence of operations runs: the one before it and the one after each
    operation that succeeds. *)
Fixpoint fs_observable (ops : list FsOp) (f : FS) : list FS :=
  f :: match ops with
       | [] => []
       | op :: rest =>
           match fs_step op f with
           | inr f' => fs_observable rest f'
           | inl _ => []
           end
       end.

Record World {sk : Sklearn} : Type := {
  heap : Heap;
  fs : FS;
  clock : Z;              (* what datetime.now() reads *)
  global_rng : Rng;       (* numpy's process-wide generator, seeded from the OS *)
  stdout : list string    (* the lines printed so far *)
}.

Section WorldOps.
Context {sk : Sklearn}.

Definition set_heap (h : Heap) (w : World) : World :=
  {| heap := h; fs := fs w; clock := clock w; global_rng := global_rng w; stdout := stdout w |}.
Definition set_fs (f : FS) (w : World) : World :=
  {| heap := heap w; fs := f; clock := clock w; global_rng := global_rng w; stdout := stdout w |}.
Definition set_clock (t : Z) (w : World) : World :=
  {| heap := heap w; fs := fs w; clock := t; global_rng := global_rng w; stdout := stdout w |}.
Definition set_global_rng (g : Rng) (w : World) : World :=
  {| heap := heap w; fs := fs w; clock := clock w; global_rng := g; stdout := stdout w |}.
Definition set_stdout (o : list string) (w : World) : World :=
  {| heap := heap w; fs := fs w; clock := clock w; global_rng := global_rng w; stdout := o |}.

(** A pandas operation run in the world: it touches the store only. *)
Definition lift_heap {A : Type} (m : M Heap A) : M World A :=
  fun w => let (r, h) := m (heap w) in (r, set_heap h w).

Definition print (line : string) : M World unit :=
  fun w => (inr tt, set_stdout (stdout w ++ [line]) w).

Definition datetime_now : M World Z :=
  fun w => (inr (clock w), w).

(** sklearn's [check_random_state]: a seed gives a generator of its own,
    built from the seed and dropped after use; no seed means the
    process-wide generator, which the draw advances. *)
Definition with_random_state {A : Type} (seed : option Z)
           (draw : Rng -> Result A * Rng) : M World A :=
  fun w =>
    match seed with
    | Some s => (fst (draw (RandomState s)), w)
    | None => let (r, g) := draw (global_rng w) in (r, set_global_rng g w)
    end.

Definition fs_do (op : FsOp) : M World unit :=
  fun w =>
    match fs_step op (fs w) with
    | inr f' => (inr tt, set_fs f' w)
    | inl e => (inl e, w)
    end.

Fixpoint run_fs_ops (ops : list FsOp) : M World unit :=
  match ops with
  | [] => ret tt
  | op :: rest => fs_do op ;;; run_fs_ops rest
  end.
End WorldOps.

(** ** The library calls the script makes *)

Section Calls.
Context {sk : Sklearn} {rt : Runtime sk}.

Definition row_at (cols : list (list float)) (i : nat) : list float :=
  map (fun c => nth i c nan) cols.

(** The rows of a table given by its columns. *)
Definition rows_of (cols : list (list float)) : Matrix :=
  map (row_at cols) (seq 0 (match cols with [] => 0 | c :: _ => length c end)).

(** The float array scikit-learn makes of a frame ([ValueError] on a column
    of labels). *)
Definition to_matrix (df : DataFrame) : M Heap Matrix :=
  cols <- mapM (fun nl : string * loc =>
                  c <- load (snd nl) ;;
                  match column_floats c with
                  | Some xs => ret xs
                  | None => raise ValueError
                  end) df ;;
  ret (rows_of cols).

Definition series_floats (s : Series) : M Heap (list float) :=
  c <- load s ;;
  match column_floats c with
  | Some xs => ret xs
  | None => raise ValueError
  end.

Fixpoint take_rows {A : Type} (l : list A) (idx : list nat) : Result (list A) :=
  match idx with
  | [] => inr []
  | i :: rest =>
      match nth_error l i, take_rows l rest with
      | Some a, inr t => inr (a :: t)
      | None, _ => inl IndexError
      | _, inl e => inl e
      end
  end.

(** [train_test_split(X, y, test_size=.., random_state=..)]. *)
Definition train_test_split (X : DataFrame) (y : Series) (test_size : float)
           (seed : option Z)
  : M World (Matrix * Matrix * list float * list float) :=
  Xm <- lift_heap (to_matrix X) ;;
  yv <- lift_heap (series_floats y) ;;
  if (length Xm =? length yv)%nat then
    ' (tr, te) <- with_random_state seed
                    (fun g => shuffle_split g (length Xm) test_size) ;;
    X_train <- lift_result (take_rows Xm tr) ;;
    X_test <- lift_result (take_rows Xm te) ;;
    y_train <- lift_result (take_rows yv tr) ;;
    y_test <- lift_result (take_rows yv te) ;;
    ret (X_train, X_test, y_train, y_test)
  else raise ValueError.

(** [scaler.fit_transform(X)]: fits, then transforms with what was fitted. *)
Definition fit_transform (X : Matrix) : M World (Matrix * StandardScaler) :=
  st <- lift_result (scaler_fit X) ;;
  Xs <- lift_result (scaler_transform st X) ;;
  ret (Xs, Some st).

(** [scaler.transform(X)]. *)
Definition transform {S : Type} (scaler : StandardScaler) (X : Matrix) : M S Matrix :=
  match scaler with
  | Some st => lift_result (scaler_transform st X)
  | None => raise NotFittedError
  end.

Definition RandomForestClassifier (n depth split : nat) (seed : option Z)
  : Estimator Classifier :=
  {| params := {| n_estimators := n; max_depth := depth;
                  min_samples_split := split; random_state := seed |};
     fitted := None |}.

(** [min_samples_split] is left at its default, 2. *)
Definition RandomForestRegressor (n depth : nat) (seed : option Z)
  : Estimator Regressor :=
  {| params := {| n_estimators := n; max_depth := depth;
                  min_samples_split := 2; random_state := seed |};
     fitted := None |}.

(** [model.fit(X, y)]: the forest draws from the generator its
    [random_state] argument selects. *)
Definition fit_classifier (m : Estimator Classifier) (X : Matrix) (y : list float)
  : M World (Estimator Classifier) :=
  f <- with_random_state (random_state (params m))
         (fun g => classifier_fit (params m) g X y) ;;
  ret {| params := params m; fitted := Some f |}.

Definition fit_regressor (m : Estimator Regressor) (X : Matrix) (y : list float)
  : M World (Estimator Regressor) :=
  f <- with_random_state (random_state (params m))
         (fun g => regressor_fit (params m) g X y) ;;
  ret {| params := params m; fitted := Some f |}.

Definition predict_classes {S : Type} (m : Estimator Classifier) (X : Matrix)
  : M S (list float) :=
  match fitted m with
  | Some f => lift_result (classifier_predict f X)
  | None => raise NotFittedError
  end.

Definition predict_proba {S : Type} (m : Estimator Classifier) (X : Matrix)
  : M S (list (list float)) :=
  match fitted m with
  | Some f => lift_result (classifier_predict_proba f X)
  | None => raise NotFittedError
  end.

Definition predict_values {S : Type} (m : Estimator Regressor) (X : Matrix)
  : M S (list float) :=
  match fitted m with
  | Some f => lift_result (regressor_predict f X)
  | None => raise NotFittedError
  end.

Definition feature_importances_ {S : Type} (m : Estimator Classifier) : M S (list float) :=
  match fitted m with
  | Some f => ret (classifier_feature_importances f)
  | None => raise NotFittedError
  end.

(** Python's [seq[i]]. *)
Definition index {S A : Type} (l : list A) (i : nat) : M S A :=
  match nth_error l i with
  | Some a => ret a
  | None => raise IndexError
  end.

Fixpoint insert_desc (x : string * float) (l : list (string * float)) : list (string * float) :=
  match l with
  | [] => [x]
  | y :: t =>
      if (snd x <? snd y)%float || (is_nan (snd x) && negb (is_nan (snd y)))
      then y :: insert_desc x t else x :: l
  end.

(** [pd.DataFrame({'feature': names, 'importance': imps})
      .sort_values('importance', ascending=False)]: the two columns must
    have one length; missing importances sort last. *)
Definition importance_frame {S : Type} (names : list string) (imps : list float)
  : M S (list (string * float)) :=
  if (length names =? length imps)%nat
  then ret (fold_right insert_desc [] (combine names imps))
  else raise ValueError.

(** [joblib.dump(value, path)]: opens [path] itself for writing and lets
    the pickler write into it. *)
Definition dump_ops (value : Dict) (path : string) : list FsOp :=
  OpenTrunc path :: map (Append path) (joblib_pickle value).

Definition joblib_dump (value : Dict) (path : string) : M World unit :=
  run_fs_ops (dump_ops value path).

(** [pd.read_csv(path)]: a new frame over new buffers. *)
Definition read_csv (path : string) : M World DataFrame :=
  fun w =>
    match fs_read path (files (fs w)) with
    | None => (inl (FileNotFoundError path), w)
    | Some bytes =>
        match parse_csv bytes with
        | inl e => (inl e, w)
        | inr cols =>
            lift_heap (mapM (fun nc : string * Column =>
                               l <- alloc (snd nc) ;; ret (fst nc, l)) cols) w
        end
    end.

Definition nl : string := String (ascii_of_nat 10) EmptyString.

Fixpoint repeat_string (s : string) (n : nat) : string :=
  match n with
  | O => EmptyString
  | S k => (s ++ repeat_string s k)%string
  end.

Definition nat_to_string (n : nat) : string :=
  DecimalString.NilZero.string_of_uint (Nat.to_uint n).
End Calls.

(** The dictionaries [train] returns. *)
Inductive MetricVal : Type :=
| MFloat (x : float)
| MRecords (l : list (string * float)).

Definition Metrics := list (string * MetricVal).

(** ** 1. Workout success predictor *)

Module WorkoutSuccessPredictor.
Section Class.
Context {sk : Sklearn} {rt : Runtime sk}.

Record t : Type := {
  model : Estimator Classifier;
  scaler : StandardScaler;
  feature_names : list string
}.

Definition __init__ : t :=
  {| model := RandomForestClassifier 100 10 5 (Some 42%Z);
     scaler := None;
     feature_names :=
       ["sleep_hours"; "sleep_quality"; "calories"; "protein"; "fatigue_score";
        "days_since_rest"; "planned_volume"; "readiness_score"; "injury_risk_score"] |}.

Definition prepare_data (self : t) (df : DataFrame) : M Heap (DataFrame * Series) :=
  sel <- getitem_list df (feature_names self) ;;
  sel_m <- getitem_list df (feature_names self) ;;
  med <- df_median sel_m ;;
  X <- fillna sel med ;;
  col <- getitem_col df "workout_completed" ;;
  y <- astype_int col ;;
  ret (X, y).

Definition train (self : t) (df : DataFrame) : M World (Metrics * t) :=
  ' (X, y) <- lift_heap (prepare_data self df) ;;
  ' (X_train, X_test, y_train, y_test) <- train_test_split X y 0.2 (Some 42%Z) ;;
  ' (X_train_scaled, fitted_scaler) <- fit_transform X_train ;;
  let self := {| model := model self; scaler := fitted_scaler;
                 feature_names := feature_names self |} in
  X_test_scaled <- transform (scaler self) X_test ;;
  fitted_model <- fit_classifier (model self) X_train_scaled y_train ;;
  let self := {| model := fitted_model; scaler := scaler self;
                 feature_names := feature_names self |} in
  y_pred <- predict_classes (model self) X_test_scaled ;;
  accuracy <- lift_result (accuracy_score y_test y_pred) ;;
  print (nl ++ repeat_string "=" 50) ;;;
  print "WORKOUT SUCCESS PREDICTOR - Training Results" ;;;
  print (repeat_string "=" 50) ;;;
  print ("Accuracy: " ++ format_float ".2%" accuracy) ;;;
  print ("Training samples: " ++ nat_to_string (length X_train)) ;;;
  print ("Test samples: " ++ nat_to_string (length X_test)) ;;;
  print (nl ++ "Classification Report:") ;;;
  report <- lift_result (classification_report y_test y_pred ["Failed"; "Completed"]) ;;
  print report ;;;
  imps <- feature_importances_ (model self) ;;
  importance <- importance_frame (feature_names self) imps ;;
  print (nl ++ "Feature Importance:") ;;;
  print (frame_to_string importance) ;;;
  ret ([("accuracy", MFloat accuracy); ("feature_importance", MRecords importance)],
       self).

Record Prediction : Type := {
  will_complete : bool;
  probability : float;
  confidence : float
}.

Definition predict {S : Type} (self : t) (features : list float) : M S Prediction :=
  features_scaled <- transform (scaler self) [features] ;;
  proba <- predict_proba (model self) features_scaled ;;
  row <- index proba 0 ;;
  probability <- index row 1 ;;
  ret {| will_complete := (0.5 <? probability)%float;
         probability := probability;
         confidence := (PrimFloat.abs (probability - 0.5) * 2)%float |}.

Definition default_path : string := "models/workout_success_model.pkl".

(** The dictionary [save] hands to [joblib.dump]. *)
Definition bundle (self : t) (now : Z) : Dict :=
  [("model", VClassifier (model self));
   ("scaler", VScaler (scaler self));
   ("feature_names", VStrList (feature_names self));
   ("trained_at", VStr (isoformat now))].

Definition save (self : t) (path : string) : M World unit :=
  now <- datetime_now ;;
  joblib_dump (bundle self now) path ;;;
  print (nl ++ "✅ Model saved to " ++ path).
End Class.
End WorkoutSuccessPredictor.

(** ** 2. Recovery time predictor *)

Module RecoveryTimePredictor.
Section Class.
Context {sk : Sklearn} {rt : Runtime sk}.

Record t : Type := {
  model : Estimator Regressor;
  scaler : StandardScaler;
  feature_names : list string;
  muscle_groups : list string
}.

Definition __init__ : t :=
  {| model := RandomForestRegressor 100 10 (Some 42%Z);
     scaler := None;
     feature_names :=
       ["workout_volume"; "workout_intensity"; "sleep_quality"; "nutrition_quality"];
     muscle_groups := ["chest"; "back"; "shoulders"; "legs"; "arms"; "core"] |}.

Definition prepare_data (self : t) (df : DataFrame) : M Heap (DataFrame * Series) :=
  col <- getitem_col df "muscle_group" ;;
  muscle_dummies <- get_dummies col "muscle" ;;
  sel <- getitem_list df (feature_names self) ;;
  sel_m <- getitem_list df (feature_names self) ;;
  med <- df_median sel_m ;;
  filled <- fillna sel med ;;
  X <- concat_axis1 [filled; muscle_dummies] ;;
  y <- getitem_col df "actual_recovery_days" ;;
  ret (X, y).

Definition train (self : t) (df : DataFrame) : M World (Metrics * t) :=
  ' (X, y) <- lift_heap (prepare_data self df) ;;
  ' (X_train, X_test, y_train, y_test) <- train_test_split X y 0.2 (Some 42%Z) ;;
  ' (X_train_scaled, fitted_scaler) <- fit_transform X_train ;;
  let self := {| model := model self; scaler := fitted_scaler;
                 feature_names := feature_names self;
                 muscle_groups := muscle_groups self |} in
  X_test_scaled <- transform (scaler self) X_test ;;
  fitted_model <- fit_regressor (model self) X_train_scaled y_train ;;
  let self := {| model := fitted_model; scaler := scaler self;
                 feature_names := feature_names self;
                 muscle_groups := muscle_groups self |} in
  y_pred <- predict_values (model self) X_test_scaled ;;
  mse <- lift_result (mean_squared_error y_test y_pred) ;;
  r2 <- lift_result (r2_score y_test y_pred) ;;
  print (nl ++ repeat_string "=" 50) ;;;
  print "RECOVERY TIME PREDICTOR - Training Results" ;;;
  print (repeat_string "=" 50) ;;;
  print ("R² Score: " ++ format_float ".3f" r2) ;;;
  print ("RMSE: " ++ format_float ".2f" (PrimFloat.sqrt mse) ++ " days") ;;;
  print ("Training samples: " ++ nat_to_string (length X_train)) ;;;
  ret ([("r2_score", MFloat r2); ("rmse", MFloat (PrimFloat.sqrt mse))], self).

Record Prediction : Type := {
  recovery_days : float;
  recovery_hours : float
}.

Definition predict {S : Type} (self : t) (features : list float) : M S Prediction :=
  features_scaled <- transform (scaler self) [features] ;;
  pred <- predict_values (model self) features_scaled ;;
  days <- index pred 0 ;;
  ret {| recovery_days := days; recovery_hours := (days * 24)%float |}.

Definition default_path : string := "models/recovery_time_model.pkl".

Definition bundle (self : t) (now : Z) : Dict :=
  [("model", VRegressor (model self));
   ("scaler", VScaler (scaler self));
   ("feature_names", VStrList (feature_names self));
   ("muscle_groups", VStrList (muscle_groups self));
   ("trained_at", VStr (isoformat now))].

Definition save (self : t) (path : string) : M World unit :=
  now <- datetime_now ;;
  joblib_dump (bundle self now) path ;;;
  print (nl ++ "✅ Model saved to " ++ path).
End Class.
End RecoveryTimePredictor.

(** ** 3. Weight progression predictor *)

Module WeightProgressionPredictor.
Section Class.
Context {sk : Sklearn} {rt : Runtime sk}.

Record t : Type := {
  model : Estimator Regressor;
  scaler : StandardScaler;
  feature_names : list string
}.

Definition __init__ : t :=
  {| model := RandomForestRegressor 100 8 (Some 42%Z);
     scaler := None;
     feature_names := ["previous_weight"; "reps_achieved"; "target_reps"; "form_quality"] |}.

Definition prepare_data (self : t) (df : DataFrame) : M Heap (DataFrame * Series) :=
  (* Only use successful progressions for training *)
  col <- getitem_col df "successful" ;;
  mask <- eq_True col ;;
  kept <- getitem_mask df mask ;;
  df_success <- df_copy kept ;;
  sel <- getitem_list df_success (feature_names self) ;;
  sel_m <- getitem_list df_success (feature_names self) ;;
  med <- df_median sel_m ;;
  X <- fillna sel med ;;
  y <- getitem_col df_success "weight_increase" ;;
  ret (X, y).

Definition train (self : t) (df : DataFrame) : M World (Metrics * t) :=
  ' (X, y) <- lift_heap (prepare_data self df) ;;
  ' (X_train, X_test, y_train, y_test) <- train_test_split X y 0.2 (Some 42%Z) ;;
  ' (X_train_scaled, fitted_scaler) <- fit_transform X_train ;;
  let self := {| model := model self; scaler := fitted_scaler;
                 feature_names := feature_names self |} in
  X_test_scaled <- transform (scaler self) X_test ;;
  fitted_model <- fit_regressor (model self) X_train_scaled y_train ;;
  let self := {| model := fitted_model; scaler := scaler self;
                 feature_names := feature_names self |} in
  y_pred <- predict_values (model self) X_test_scaled ;;
  mse <- lift_result (mean_squared_error y_test y_pred) ;;
  r2 <- lift_result (r2_score y_test y_pred) ;;
  print (nl ++ repeat_string "=" 50) ;;;
  print "WEIGHT PROGRESSION PREDICTOR - Training Results" ;;;
  print (repeat_string "=" 50) ;;;
  print ("R² Score: " ++ format_float ".3f" r2) ;;;
  print ("RMSE: " ++ format_float ".2f" (PrimFloat.sqrt mse) ++ " kg") ;;;
  print ("Training samples: " ++ nat_to_string (length X_train)) ;;;
  ret ([("r2_score", MFloat r2); ("rmse", MFloat (PrimFloat.sqrt mse))], self).

Record Prediction : Type := {
  recommended_increase : float;
  new_weight : float
}.

Definition predict {S : Type} (self : t) (features : list float) : M S Prediction :=
  features_scaled <- transform (scaler self) [features] ;;
  pred <- predict_values (model self) features_scaled ;;
  increase <- index pred 0 ;;
  previous <- index features 0 ;;
  ret {| recommended_increase := increase;
         new_weight := (previous + increase)%float |}.

Definition default_path : string := "models/weight_progression_model.pkl".

Definition bundle (self : t) (now : Z) : Dict :=
  [("model", VRegressor (model self));
   ("scaler", VScaler (scaler self));
   ("feature_names", VStrList (feature_names self));
   ("trained_at", VStr (isoformat now))].

Definition save (self : t) (path : string) : M World unit :=
  now <- datetime_now ;;
  joblib_dump (bundle self now) path ;;;
  print (nl ++ "✅ Model saved to " ++ path).
End Class.
End WeightProgressionPredictor.

(** ** Main training script *)

Section Script.
Context {sk : Sklearn} {rt : Runtime sk}.

Definition load_data_from_csv (filepath : string) : M World DataFrame :=
  read_csv filepath.

Definition train_workout_success_model (data_path : string)
  : M World (WorkoutSuccessPredictor.t * Metrics) :=
  print (nl ++ "🤖 Training Workout Success Predictor...") ;;;
  df <- load_data_from_csv data_path ;;
  let predictor := WorkoutSuccessPredictor.__init__ in
  ' (metrics, predictor) <- WorkoutSuccessPredictor.train predictor df ;;
  WorkoutSuccessPredictor.save predictor WorkoutSuccessPredictor.default_path ;;;
  ret (predictor, metrics).

Definition train_recovery_model (data_path : string)
  : M World (RecoveryTimePredictor.t * Metrics) :=
  print (nl ++ "🤖 Training Recovery Time Predictor...") ;;;
  df <- load_data_from_csv data_path ;;
  let predictor := RecoveryTimePredictor.__init__ in
  ' (metrics, predictor) <- RecoveryTimePredictor.train predictor df ;;
  RecoveryTimePredictor.save predictor RecoveryTimePredictor.default_path ;;;
  ret (predictor, metrics).

Definition train_progression_model (data_path : string)
  : M World (WeightProgressionPredictor.t * Metrics) :=
  print (nl ++ "🤖 Training Weight Progression Predictor...") ;;;
  df <- load_data_from_csv data_path ;;
  let predictor := WeightProgressionPredictor.__init__ in
  ' (metrics, predictor) <- WeightProgressionPredictor.train predictor df ;;
  WeightProgressionPredictor.save predictor WeightProgressionPredictor.default_path ;;;
  ret (predictor, metrics).

(** The values [--model] admits ([choices=...]). *)
Inductive ModelChoice : Type :=
| workout_success
| recovery_time
| weight_progression
| all.

Definition choice_eqb (a b : ModelChoice) : bool :=
  match a, b with
  | workout_success, workout_success
  | recovery_time, recovery_time
  | weight_progression, weight_progression
  | all, all => true
  | _, _ => false
  end.

Record Args : Type := {
  args_model : ModelChoice;
  args_data : string
}.

(** The body under [if __name__ == "__main__"], after argument parsing.  An
    exception that leaves it ends the process. *)
Definition main (args : Args) : M World unit :=
  print (nl ++ repeat_string "=" 60) ;;;
  print "FitTrack ML Model Training Pipeline" ;;;
  print (repeat_string "=" 60) ;;;
  (if choice_eqb (args_model args) workout_success || choice_eqb (args_model args) all
   then train_workout_success_model (args_data args) ;;; ret tt
   else ret tt) ;;;
  (if choice_eqb (args_model args) recovery_time || choice_eqb (args_model args) all
   then train_recovery_model (args_data args) ;;; ret tt
   else ret tt) ;;;
  (if choice_eqb (args_model args) weight_progression || choice_eqb (args_model args) all
   then train_progression_model (args_data args) ;;; ret tt
   else ret tt) ;;;
  print (nl ++ repeat_string "=" 60) ;;;
  print "✅ Training Complete!" ;;;
  print (repeat_string "=" 60 ++ nl).
End Script.

(** ** A small concrete library

    Enough of an implementation of the interface to run the script on
    examples: a rotating split, a standard scaler, estimators that predict
    the training mean, and a reader for CSV files of integers, booleans and
    labels. *)

Module Toy.
Definition fsum (l : list float) : float := fold_left PrimFloat.add l 0%float.

Definition fmean (l : list float) : float :=
  (fsum l / Z2float (Z.of_nat (length l)))%float.

Definition columns_of (X : Matrix) : list (list float) :=
  map (fun j => map (fun r => nth j r nan) X)
      (seq 0 (match X with [] => 0 | r :: _ => length r end)).

Definition rotate_split (g : Z) (n : nat) (test_size : float)
  : Result (list nat * list nat) * Z :=
  let n_test := (n + 4) / 5 in
  if (n_test =? 0)%nat || (n <=? n_test)%nat then (inl ValueError, g)
  else
    let off := Z.to_nat (g mod Z.of_nat n) in
    (inr (map (fun i => (off + n_test + i) mod n) (seq 0 (n - n_test)),
          map (fun i => (off + i) mod n) (seq 0 n_test)),
     (g + 1)%Z).

Definition scale_of (c : list float) : float :=
  let m := fmean c in
  let s := PrimFloat.sqrt (fmean (map (fun x => ((x - m) * (x - m))%float) c)) in
  if (s =? 0)%float then 1%float else s.

Definition fit_scaler (X : Matrix) : Result (list float * list float) :=
  match X with
  | [] => inl ValueError
  | _ => inr (map fmean (columns_of X), map scale_of (columns_of X))
  end.

Definition scale_row (st : list float * list float) (row : list float) : list float :=
  map (fun xms : float * (float * float) =>
         ((fst xms - fst (snd xms)) / snd (snd xms))%float)
      (combine row (combine (fst st) (snd st))).

Definition apply_scaler (st : list float * list float) (X : Matrix) : Result Matrix :=
  if forallb (fun row => (length row =? length (fst st))%nat) X
  then inr (map (scale_row st) X)
  else inl ValueError.

Definition estimator_fit (p : ForestParams) (g : Z) (X : Matrix) (y : list float)
  : Result (float * nat) * Z :=
  match X with
  | [] => (inl ValueError, g)
  | r :: _ => (inr (fmean y, length r), (g + 1)%Z)
  end.

Definition check_width {A : Type} (m : float * nat) (X : Matrix) (a : A) : Result A :=
  if forallb (fun row => (length row =? snd m)%nat) X then inr a else inl ValueError.

Definition agreement (a b : list float) : float :=
  fmean (map (fun xy : float * float => b2float (fst xy =? snd xy)%float) (combine a b)).

Definition squared_error (a b : list float) : float :=
  fmean (map (fun xy : float * float =>
                ((fst xy - snd xy) * (fst xy - snd xy))%float) (combine a b)).

Definition same_length {A : Type} (a b : list float) (r : A) : Result A :=
  if (length a =? length b)%nat then inr r else inl ValueError.

#[export] Instance sklearn : Sklearn := {|
  Rng := Z;
  RandomState := fun seed => seed;
  ScalerState := (list float * list float)%type;
  Classifier := (float * nat)%type;
  Regressor := (float * nat)%type;
  shuffle_split := rotate_split;
  scaler_fit := fit_scaler;
  scaler_transform := apply_scaler;
  classifier_fit := estimator_fit;
  classifier_predict := fun m X =>
    check_width m X (map (fun _ => b2float (0.5 <? fst m)%float) X);
  classifier_predict_proba := fun m X =>
    check_width m X (map (fun _ => [(1 - fst m)%float; fst m]) X);
  classifier_feature_importances := fun m =>
    repeat (1 / Z2float (Z.of_nat (snd m)))%float (snd m);
  regressor_fit := estimator_fit;
  regressor_predict := fun m X => check_width m X (map (fun _ => fst m) X);
  accuracy_score := fun a b => same_length a b (agreement a b);
  classification_report := fun a b names => same_length a b "report";
  mean_squared_error := fun a b => same_length a b (squared_error a b);
  r2_score := fun a b =>
    same_length a b
      (1 - squared_error a b / squared_error a (map (fun _ => fmean a) a))%float
|}.

(** *** Reading CSV *)

Fixpoint split_on (sep : ascii) (s : string) : list string :=
  match s with
  | EmptyString => [EmptyString]
  | String c rest =>
      if Ascii.eqb c sep then EmptyString :: split_on sep rest
      else match split_on sep rest with
           | [] => [String c EmptyString]
           | f :: fs => String c f :: fs
           end
  end.

Definition parse_nat (s : string) : option Z :=
  option_map (fun u => Z.of_nat (Nat.of_uint u)) (NilZero.uint_of_string s).

Definition parse_bool (s : string) : option bool :=
  if String.eqb s "True" then Some true
  else if String.eqb s "False" then Some false else None.

Fixpoint all_some {A : Type} (l : list (option A)) : option (list A) :=
  match l with
  | [] => Some []
  | Some a :: t => option_map (cons a) (all_some t)
  | None :: _ => None
  end.

Definition parse_cell_float (s : string) : option float :=
  if String.eqb s "" then Some nan else option_map Z2float (parse_nat s).

Definition infer_column (cells : list string) : Column :=
  match all_some (map parse_nat cells) with
  | Some zs => ColI64 zs
  | None =>
      match all_some (map parse_bool cells) with
      | Some bs => ColBool bs
      | None =>
          match all_some (map parse_cell_float cells) with
          | Some xs => ColF64 xs
          | None =>
              ColObj (map (fun s => if String.eqb s "" then None else Some s) cells)
          end
      end
  end.

Definition read_table (bytes : list Byte.byte) : Result (list (string * Column)) :=
  match filter (fun l => negb (String.eqb l ""))
               (split_on (ascii_of_nat 10) (string_of_list_byte bytes)) with
  | [] => inl ValueError
  | header :: lines =>
      let names := split_on "," header in
      let rows := map (split_on ",") lines in
      inr (map (fun jn : nat * string =>
                  (snd jn, infer_column (map (fun r => nth (fst jn) r "") rows)))
               (combine (seq 0 (length names)) names))
  end.

Definition pickle_value (v : PyVal) : string :=
  match v with
  | VClassifier _ | VRegressor _ => "estimator"
  | VScaler _ => "scaler"
  | VStrList l => String.concat "," l
  | VStr s => s
  end.

#[export] Instance runtime : Runtime sklearn := {|
  joblib_pickle := fun d =>
    map (fun kv : string * PyVal =>
           list_byte_of_string (fst kv ++ "=" ++ pickle_value (snd kv) ++ ";")%string) d;
  parse_csv := read_table;
  format_float := fun spec x => ("{:" ++ spec ++ "}")%string;
  frame_to_string := fun l => String.concat " " (map fst l);
  isoformat := fun t => NilZero.string_of_int (Z.to_int t)
|}.

Definition world0 (f : FS) : World :=
  {| heap := []; fs := f; clock := 0; global_rng := 7%Z; stdout := [] |}.
End Toy.

(** ** The scaler of the specification *)

(** Modelled from the spec: the StandardScaler that [train] fits and applies.
    It is scikit-learn's and its code is not part of the repository; section
    4.3 of the specification gives its contract, per-column standardization
    [scaled = (x - mean) / std] with the [std] of a constant column treated
    as 1.  The contract is stated over the real numbers, which is what the
    "within floating tolerance" of the specification abstracts to. *)
Module ScalerSpec.
Local Open Scope R_scope.

Definition RMatrix := list (list R).

Definition total (l : list R) : R := fold_right Rplus 0 l.

Definition mean (l : list R) : R := total l / INR (length l).

Definition variance (l : list R) : R :=
  mean (map (fun x => (x - mean l) * (x - mean l)) l).

Definition std (l : list R) : R := sqrt (variance l).

Definition width (X : RMatrix) : nat :=
  match X with [] => 0%nat | r :: _ => length r end.

Definition column (j : nat) (X : RMatrix) : list R := map (fun row => nth j row 0) X.

Record State : Type := { mean_ : list R; scale_ : list R }.

Definition scale_of (c : list R) : R :=
  if Req_dec_T (std c) 0 then 1 else std c.

Definition fit (X : RMatrix) : State :=
  {| mean_ := map (fun j => mean (column j X)) (seq 0 (width X));
     scale_ := map (fun j => scale_of (column j X)) (seq 0 (width X)) |}.

Definition transform_row (st : State) (row : list R) : list R :=
  map (fun xms : R * (R * R) => (fst xms - fst (snd xms)) / snd (snd xms))
      (combine row (combine (mean_ st) (scale_ st))).

Definition transform (st : State) (X : RMatrix) : RMatrix :=
  map (transform_row st) X.

Definition fit_transform (X : RMatrix) : RMatrix := transform (fit X) X.

(** All rows have the width of the first. *)
Definition rectangular (X : RMatrix) : Prop :=
  Forall (fun row => length row = width X) X.
End ScalerSpec.

(** * Specifications and examples *)

(** ** Predicates used in the statements *)

Definition extends (h h' : Heap) : Prop := exists new, h' = h ++ new.

(** [grows m]: whatever [m] returns or raises, every buffer that existed
    before is still there, unchanged. *)
Definition grows {A : Type} (m : M Heap A) : Prop :=
  forall h, extends h (snd (m h)).

(** A frame made by [df[names]]: its labels are [names], its buffers are new
    and hold what the buffers of [df] hold. *)
Definition copied_from (df : DataFrame) (h0 h1 : Heap) (n : string) (l' : loc) : Prop :=
  length h0 <= l' /\
  exists l c, df_lookup n df = Some l /\ nth_error h1 l = Some c /\ nth_error h1 l' = Some c.

(** [imputed h h' frame X name]: column [name] of [X] (read in [h']) is
    column [name] of [frame] (read in [h]) with its missing values replaced
    by the median of that column of [frame]. *)
Definition imputed (h h' : Heap) (frame X : DataFrame) (name : string) : Prop :=
  forall l c,
    df_lookup name frame = Some l -> nth_error h l = Some c ->
    exists l' xs c',
      df_lookup name X = Some l' /\ nth_error h' l' = Some c' /\
      column_floats c = Some xs /\ fillna_column c (nanmedian xs) = inr c'.

Definition fresh_frame (h h' : Heap) (X : DataFrame) : Prop :=
  Forall (fun nl => length h <= snd nl < length h') X.

(** For the progression task the frame that is imputed is [df_success]: the
    rows of [df] whose "successful" cell equals [True]. *)
Definition imputed_on_retained (h h' : Heap) (df X : DataFrame) (mask : list bool)
           (name : string) : Prop :=
  forall l c,
    df_lookup name df = Some l -> nth_error h l = Some c ->
    exists l' xs c',
      df_lookup name X = Some l' /\ nth_error h' l' = Some c' /\
      column_floats (select_column mask c) = Some xs /\
      fillna_column (select_column mask c) (nanmedian xs) = inr c'.

(** Two worlds with the same store, the same directories and the same
    content of the data file; they may differ in the clock, in the state of
    the process-wide generator, in what has been printed and in the other
    files (an artifact left by an earlier run, say). *)
Definition same_inputs {sk : Sklearn} (data_path : string) (w1 w2 : World) : Prop :=
  heap w1 = heap w2 /\
  dirs (fs w1) = dirs (fs w2) /\
  fs_read data_path (files (fs w1)) = fs_read data_path (files (fs w2)).

(** [oblivious m]: from worlds with the same inputs, [m] gives the same
    result (value or exception) and again worlds with the same inputs. *)
Definition oblivious {sk : Sklearn} (data_path : string) {A : Type} (m : M World A)
  : Prop :=
  forall w1 w2, same_inputs data_path w1 w2 ->
                fst (m w1) = fst (m w2) /\ same_inputs data_path (snd (m w1)) (snd (m w2)).

Definition same_result {sk : Sklearn} (data_path : string) {A : Type} (m : M World A)
  : Prop :=
  forall w1 w2, same_inputs data_path w1 w2 -> fst (m w1) = fst (m w2).

(** A sequence of file operations writes [complete] to [path] atomically
    when a reader of [path] sees, in every state it can observe, either what
    was there before or the complete content. *)
Definition atomic_write (ops : list FsOp) (path : string) (complete : list Byte.byte)
           (f : FS) : Prop :=
  forall f', In f' (fs_observable ops f) ->
             fs_read path (files f') = fs_read path (files f) \/
             fs_read path (files f') = Some complete.

Definition targets (path : string) (op : FsOp) : Prop :=
  match op with
  | OpenTrunc p => p = path
  | Append p _ => p = path
  | Rename _ _ => False
  end.

Definition succeeded {A : Type} (r : Result A) : bool :=
  match r with
  | inr _ => true
  | inl _ => false
  end.

Definition raised {A : Type} (r : Result A) : option Exn :=
  match r with
  | inr _ => None
  | inl e => Some e
  end.

Definition returned {A : Type} (r : Result A) : option A :=
  match r with
  | inr a => Some a
  | inl _ => None
  end.

(** The fields of a recovery predictor, as plain data. *)
Definition recovery_fields {sk : Sklearn} (p : RecoveryTimePredictor.t) :=
  (params (RecoveryTimePredictor.model p), fitted (RecoveryTimePredictor.model p),
   RecoveryTimePredictor.scaler p, RecoveryTimePredictor.feature_names p,
   RecoveryTimePredictor.muscle_groups p).

(** ** Example data *)

(** A progression log of four sets, two of them successful; the first
    successful row lacks its previous weight. *)
Definition progression_heap : Heap :=
  [ColF64 [nan; 10; 100; 200]%float;      (* previous_weight *)
   ColI64 [8; 8; 5; 4]%Z;                 (* reps_achieved *)
   ColI64 [8; 8; 8; 8]%Z;                 (* target_reps *)
   ColI64 [4; 5; 2; 2]%Z;                 (* form_quality *)
   ColBool [true; true; false; false];    (* successful *)
   ColF64 [2.5; 2.5; 0; 0]%float].        (* weight_increase *)

Definition progression_frame : DataFrame :=
  [("previous_weight", 0); ("reps_achieved", 1); ("target_reps", 2);
   ("form_quality", 3); ("successful", 4); ("weight_increase", 5)].

(** A recovery log of three sessions over two muscle groups. *)
Definition recovery_heap : Heap :=
  [ColI64 [100; 120; 90]%Z;                            (* workout_volume *)
   ColI64 [7; 8; 6]%Z;                                 (* workout_intensity *)
   ColF64 [3; nan; 5]%float;                           (* sleep_quality *)
   ColI64 [4; 4; 3]%Z;                                 (* nutrition_quality *)
   ColObj [Some "legs"; Some "chest"; Some "legs"];    (* muscle_group *)
   ColF64 [2; 1.5; 2.5]%float].                        (* actual_recovery_days *)

Definition recovery_frame : DataFrame :=
  [("workout_volume", 0); ("workout_intensity", 1); ("sleep_quality", 2);
   ("nutrition_quality", 3); ("muscle_group", 4); ("actual_recovery_days", 5)].

Definition fitted_workout_predictor : WorkoutSuccessPredictor.t (sk := Toy.sklearn) :=
  {| WorkoutSuccessPredictor.model :=
       {| params := params (RandomForestClassifier (sk := Toy.sklearn) 100 10 5 (Some 42%Z));
          fitted := Some ((0.75%float, 2) : Classifier (Sklearn := Toy.sklearn)) |};
     WorkoutSuccessPredictor.scaler := Some ([0; 0]%float, [1; 1]%float);
     WorkoutSuccessPredictor.feature_names := ["sleep_hours"; "sleep_quality"] |}.

(** A workout log of five days, as the CSV file holds it. *)
Definition workout_csv : list Byte.byte :=
  list_byte_of_string
    ("sleep_hours,sleep_quality,calories,protein,fatigue_score,days_since_rest,"
     ++ "planned_volume,readiness_score,injury_risk_score,workout_completed" ++ nl
     ++ "7,3,2000,100,2,1,50,8,1,1" ++ nl
     ++ "6,,2100,90,3,2,40,7,2,0" ++ nl
     ++ "8,4,2200,110,1,0,60,9,1,1" ++ nl
     ++ "5,2,1800,80,5,3,30,5,3,0" ++ nl
     ++ "7,3,2000,100,2,1,50,8,1,1" ++ nl)%string.

Definition workout_fs : FS :=
  {| dirs := ["models"]; files := [("workouts.csv", workout_csv)] |}.

(** The world of a later run: the clock has advanced, the generator is in
    another state, and the artifact of the earlier run is on disk. *)
Definition later_world : World :=
  @Build_World Toy.sklearn []
    {| dirs := ["models"];
       files := [("workouts.csv", workout_csv);
                 ("models/workout_success_model.pkl", [Byte.x80; Byte.x04])] |}
    86400 99%Z ["earlier output"].

(** A file system with the models directory and an artifact of an earlier
    run at the destination. *)
Definition fs_with_old_artifact : FS :=
  {| dirs := ["models"];
     files := [("models/workout_success_model.pkl",
                list_byte_of_string "model=old;")] |}.

Definition all_args (data : string) : Args :=
  {| args_model := all; args_data := data |}.

(** The world in which the recovery log has been loaded. *)
Definition recovery_world : World :=
  @Build_World Toy.sklearn recovery_heap workout_fs 0 7%Z [].

(** The predictor that training on the recovery log leaves, with the toy
    library: a scaler and an estimator over six columns (four numeric
    features, "muscle_chest" and "muscle_legs"). *)
Definition trained_recovery_predictor : RecoveryTimePredictor.t (sk := Toy.sklearn) :=
  {| RecoveryTimePredictor.model :=
       {| params := params (RandomForestRegressor (sk := Toy.sklearn) 100 10 (Some 42%Z));
          fitted := Some ((2%float, 6) : Regressor (Sklearn := Toy.sklearn)) |};
     RecoveryTimePredictor.scaler :=
       Some ([105; 7; 4.5; 3.5; 0.5; 0.5]%float, [15; 1; 0.5; 0.5; 0.5; 0.5]%float);
     RecoveryTimePredictor.feature_names :=
       ["workout_volume"; "workout_intensity"; "sleep_quality"; "nutrition_quality"];
     RecoveryTimePredictor.muscle_groups :=
       ["chest"; "back"; "shoulders"; "legs"; "arms"; "core"] |}.

Definition recovery_metrics : Metrics :=
  [("r2_score", MFloat nan); ("rmse", MFloat 0)].

(** One session to predict for, on a muscle group the training data lacks. *)
Definition arms_session_heap : Heap :=
  [ColI64 [100]%Z; ColI64 [7]%Z; ColF64 [3]%float; ColI64 [4]%Z;
   ColObj [Some "arms"]; ColF64 [0]%float].

(** A world whose destination already holds an artifact. *)
Definition world_with_old_artifact : World :=
  @Build_World Toy.sklearn [] fs_with_old_artifact 1730000000 7%Z [].

(** ** Further predicates *)

(** A classifier fitted on a log in which every workout was completed knows
    one class only: its probability rows have a single entry. *)
Definition single_class_proba (proba : list (list float)) : Prop :=
  exists row, nth_error proba 0 = Some row /\ length row <= 1.

(** [store_and_output_only m]: whatever [m] returns or raises, it leaves the
    file system, the clock and the process-wide generator as they were; it
    only adds buffers to the store and lines to the output. *)
Definition store_and_output_only {sk : Sklearn} {A : Type} (m : M World A) : Prop :=
  forall w,
    fs (snd (m w)) = fs w /\
    clock (snd (m w)) = clock w /\
    global_rng (snd (m w)) = global_rng w /\
    extends (heap w) (heap (snd (m w))) /\
    exists lines, stdout (snd (m w)) = stdout w ++ lines.

(** [writes_within paths m]: [m] creates no directory and leaves every file
    whose path is not in [paths] as it was. *)
Definition writes_within {sk : Sklearn} (paths : list string) {A : Type}
           (m : M World A) : Prop :=
  forall w,
    dirs (fs (snd (m w))) = dirs (fs w) /\
    forall p, ~ In p paths ->
              fs_read p (files (fs (snd (m w)))) = fs_read p (files (fs w)).

(** The artifacts of the tasks a [--model] value selects. *)
Definition artifacts_of (c : ModelChoice) : list string :=
  match c with
  | workout_success => [WorkoutSuccessPredictor.default_path]
  | recovery_time => [RecoveryTimePredictor.default_path]
  | weight_progression => [WeightProgressionPredictor.default_path]
  | all => [WorkoutSuccessPredictor.default_path; RecoveryTimePredictor.default_path;
            WeightProgressionPredictor.default_path]
  end.

(** The body shared by the three [save] methods. *)
Definition stamped_dump {sk : Sklearn} {rt : Runtime sk} (mk : Z -> Dict) (path line : string) : M World unit :=
  now <- datetime_now ;; joblib_dump (mk now) path ;;; print line.

(** [ranks_below a b]: in a listing by descending importance [a] comes after
    [b]: it is smaller, or it is missing and [b] is not. *)
Definition ranks_below (a b : float) : bool :=
  (a <? b)%float || (is_nan a && negb (is_nan b)).

(** [partition_of X y h seed test_size X_train X_test y_train y_test]: the
    four parts are the rows of the matrix of [X] and the entries of [y]
    (read in store [h]) at the positions the splitter, drawing from a
    generator made of [seed], deals to the training and to the test side. *)
Definition partition_of {sk : Sklearn} (X : DataFrame) (y : Series) (h : Heap)
           (seed : Z) (test_size : float)
           (X_train X_test : Matrix) (y_train y_test : list float) : Prop :=
  exists Xm yv tr te,
    to_matrix X h = (inr Xm, h) /\ series_floats y h = (inr yv, h) /\
    fst (shuffle_split (RandomState seed) (length Xm) test_size) = inr (tr, te) /\
    take_rows Xm tr = inr X_train /\ take_rows Xm te = inr X_test /\
    take_rows yv tr = inr y_train /\ take_rows yv te = inr y_test.

(** [numeric_in h df name]: the frame has a column [name], backed by a
    buffer of numbers (floats, integers or booleans). *)
Definition numeric_in (h : Heap) (df : DataFrame) (name : string) : Prop :=
  exists l c xs,
    df_lookup name df = Some l /\ nth_error h l = Some c /\ column_floats c = Some xs.

(** The buffers [astype(int)] converts: integers, booleans, and floats none
    of which is missing or infinite. *)
Definition castable (c : Column) : bool :=
  match c with
  | ColF64 xs => forallb is_finite xs
  | ColI64 _ | ColBool _ => true
  | ColObj _ => false
  end.

(** [rows_in h df n]: every column of the frame is backed by a buffer of [n]
    cells. *)
Definition rows_in (h : Heap) (df : DataFrame) (n : nat) : Prop :=
  Forall (fun nl : string * loc =>
            exists c, nth_error h (snd nl) = Some c /\ column_length c = n) df.

(** ** Further example data *)

(** A fitted progression predictor of the toy library: it predicts an
    increase of 2.5 whatever the (four) features. *)
Definition fitted_progression_predictor : WeightProgressionPredictor.t (sk := Toy.sklearn) :=
  {| WeightProgressionPredictor.model :=
       {| params := params (RandomForestRegressor (sk := Toy.sklearn) 100 8 (Some 42%Z));
          fitted := Some ((2.5%float, 4) : Regressor (Sklearn := Toy.sklearn)) |};
     WeightProgressionPredictor.scaler :=
       Some ([50; 8; 8; 3]%float, [10; 1; 1; 1]%float);
     WeightProgressionPredictor.feature_names :=
       ["previous_weight"; "reps_achieved"; "target_reps"; "form_quality"] |}.

(** A world whose directory holds the data file but no [models] directory. *)
Definition world_without_models : World :=
  @Build_World Toy.sklearn []
    {| dirs := []; files := [("workouts.csv", workout_csv)] |} 0 7%Z [].

(** The library of a classifier fitted on one class: as [Toy.sklearn], but
    each probability row has the single entry 1. *)
Definition one_class_sklearn : Sklearn :=
  {| Rng := Z;
     RandomState := fun seed => seed;
     ScalerState := (list float * list float)%type;
     Classifier := (float * nat)%type;
     Regressor := (float * nat)%type;
     shuffle_split := Toy.rotate_split;
     scaler_fit := Toy.fit_scaler;
     scaler_transform := Toy.apply_scaler;
     classifier_fit := Toy.estimator_fit;
     classifier_predict := fun m X => Toy.check_width m X (map (fun _ => 1%float) X);
     classifier_predict_proba := fun m X =>
       Toy.check_width m X (map (fun _ => [1%float]) X);
     classifier_feature_importances := fun m =>
       repeat (1 / Z2float (Z.of_nat (snd m)))%float (snd m);
     regressor_fit := Toy.estimator_fit;
     regressor_predict := fun m X => Toy.check_width m X (map (fun _ => fst m) X);
     accuracy_score := fun a b => Toy.same_length a b (Toy.agreement a b);
     classification_report := fun a b names => Toy.same_length a b "report";
     mean_squared_error := fun a b => Toy.same_length a b (Toy.squared_error a b);
     r2_score := fun a b => Toy.same_length a b 1%float |}.

Definition one_class_predictor : WorkoutSuccessPredictor.t (sk := one_class_sklearn) :=
  {| WorkoutSuccessPredictor.model :=
       {| params := params (RandomForestClassifier (sk := one_class_sklearn)
                                                   100 10 5 (Some 42%Z));
          fitted := Some ((1%float, 2) : Classifier (Sklearn := one_class_sklearn)) |};
     WorkoutSuccessPredictor.scaler := Some ([0; 0]%float, [1; 1]%float);
     WorkoutSuccessPredictor.feature_names := ["sleep_hours"; "sleep_quality"] |}.

(** A workout log of five days, loaded: the columns of [workout_csv]. *)
Definition workout_heap : Heap :=
  [ColI64 [7; 6; 8; 5; 7]%Z;                     (* sleep_hours *)
   ColF64 [3; nan; 4; 2; 3]%float;               (* sleep_quality *)
   ColI64 [2000; 2100; 2200; 1800; 2000]%Z;      (* calories *)
   ColI64 [100; 90; 110; 80; 100]%Z;             (* protein *)
   ColI64 [2; 3; 1; 5; 2]%Z;                     (* fatigue_score *)
   ColI64 [1; 2; 0; 3; 1]%Z;                     (* days_since_rest *)
   ColI64 [50; 40; 60; 30; 50]%Z;                (* planned_volume *)
   ColI64 [8; 7; 9; 5; 8]%Z;                     (* readiness_score *)
   ColI64 [1; 2; 1; 3; 1]%Z;                     (* injury_risk_score *)
   ColI64 [1; 0; 1; 0; 1]%Z].                    (* workout_completed *)

Definition workout_frame : DataFrame :=
  [("sleep_hours", 0); ("sleep_quality", 1); ("calories", 2); ("protein", 3);
   ("fatigue_score", 4); ("days_since_rest", 5); ("planned_volume", 6);
   ("readiness_score", 7); ("injury_risk_score", 8); ("workout_completed", 9)].

Definition workout_world : World :=
  @Build_World Toy.sklearn workout_heap workout_fs 0 7%Z [].

Definition progression_world : World :=
  @Build_World Toy.sklearn progression_heap workout_fs 0 7%Z [].

(** The workout log with the outcome of the second day not recorded. *)
Definition workout_heap_missing_outcome : Heap :=
  [ColI64 [7; 6; 8; 5; 7]%Z;
   ColF64 [3; nan; 4; 2; 3]%float;
   ColI64 [2000; 2100; 2200; 1800; 2000]%Z;
   ColI64 [100; 90; 110; 80; 100]%Z;
   ColI64 [2; 3; 1; 5; 2]%Z;
   ColI64 [1; 2; 0; 3; 1]%Z;
   ColI64 [50; 40; 60; 30; 50]%Z;
   ColI64 [8; 7; 9; 5; 8]%Z;
   ColI64 [1; 2; 1; 3; 1]%Z;
   ColF64 [1; nan; 1; 0; 1]%float].

(** A recovery log in which sleep quality was never recorded. *)
Definition recovery_heap_no_sleep : Heap :=
  [ColI64 [100; 120; 90]%Z;
   ColI64 [7; 8; 6]%Z;
   ColF64 [nan; nan; nan]%float;
   ColI64 [4; 4; 3]%Z;
   ColObj [Some "legs"; Some "chest"; Some "legs"];
   ColF64 [2; 1.5; 2.5]%float].

(** * Properties *)

(** ** The monad *)

Lemma bind_inr {S A B : Type} (m : M S A) (k : A -> M S B) s b s' :
  bind m k s = (inr b, s') ->
  exists a s1, m s = (inr a, s1) /\ k a s1 = (inr b, s').
Proof.
  unfold bind. destruct (m s) as [[e | a] s1]; intros H.
  - discriminate.
  - exists a, s1. split; [reflexivity | exact H].
Qed.

Lemma bind_inl {S A B : Type} (m : M S A) (k : A -> M S B) s e s' :
  m s = (inl e, s') -> bind m k s = (inl e, s').
Proof. unfold bind. intros ->. reflexivity. Qed.

Lemma bind_step {S A B : Type} (m : M S A) (k : A -> M S B) s a s1 :
  m s = (inr a, s1) -> bind m k s = k a s1.
Proof. unfold bind. intros ->. reflexivity. Qed.

Lemma ret_inr {S A : Type} (a b : A) (s s' : S) :
  ret a s = (inr b, s') -> a = b /\ s = s'.
Proof. unfold ret. intros H. inversion H. auto. Qed.

(** ** The store only grows *)

Lemma extends_refl h : extends h h.
Proof. exists []. now rewrite app_nil_r. Qed.

Lemma extends_trans h1 h2 h3 : extends h1 h2 -> extends h2 h3 -> extends h1 h3.
Proof. intros [a ->] [b ->]. exists (a ++ b). now rewrite app_assoc. Qed.

Lemma extends_length h h' : extends h h' -> length h <= length h'.
Proof. intros [a ->]. rewrite length_app. lia. Qed.

Lemma extends_nth h h' l c :
  extends h h' -> nth_error h l = Some c -> nth_error h' l = Some c.
Proof.
  intros [a ->] H. rewrite nth_error_app1; [exact H|].
  apply nth_error_Some. congruence.
Qed.

Lemma extends_nth_inv h h' l :
  extends h h' -> l < length h -> nth_error h' l = nth_error h l.
Proof. intros [a ->] H. now apply nth_error_app1. Qed.

Lemma grows_ret {A : Type} (a : A) : grows (ret a).
Proof. intros h. apply extends_refl. Qed.

Lemma grows_raise {A : Type} (e : Exn) : grows (@raise Heap A e).
Proof. intros h. apply extends_refl. Qed.

Lemma grows_lift_result {A : Type} (r : Result A) : grows (lift_result r).
Proof. intros h. apply extends_refl. Qed.

Lemma grows_bind {A B : Type} (m : M Heap A) (k : A -> M Heap B) :
  grows m -> (forall a, grows (k a)) -> grows (bind m k).
Proof.
  intros Hm Hk h. unfold bind. specialize (Hm h).
  destruct (m h) as [[e | a] h1]; simpl in *.
  - exact Hm.
  - eapply extends_trans; [exact Hm | apply Hk].
Qed.

Lemma grows_alloc c : grows (alloc c).
Proof. intros h. exists [c]. reflexivity. Qed.

Lemma grows_load l : grows (load l).
Proof.
  intros h. unfold load. destruct (nth_error h l); apply extends_refl.
Qed.

Lemma grows_mapM {A B : Type} (f : A -> M Heap B) (l : list A) :
  (forall a, grows (f a)) -> grows (mapM f l).
Proof.
  intros Hf. induction l as [| a t IH]; simpl.
  - apply grows_ret.
  - apply grows_bind; [apply Hf | intros b].
    apply grows_bind; [exact IH | intros bs; apply grows_ret].
Qed.

Create HintDb grows.
#[export] Hint Resolve grows_ret grows_raise grows_lift_result grows_alloc grows_load : grows.

Ltac grows_step :=
  match goal with
  | |- grows (bind _ _) => apply grows_bind; [| intros ?]
  | |- grows (mapM _ _) => apply grows_mapM; intros ?
  | |- grows (match ?x with _ => _ end) => destruct x
  | |- grows (if ?x then _ else _) => destruct x
  | |- grows _ => solve [auto with grows]
  end.

Ltac grows_tac := cbv beta; repeat grows_step.

Lemma grows_copy_column l : grows (copy_column l).
Proof. unfold copy_column. grows_tac. Qed.

Lemma grows_getitem_col df name : grows (getitem_col df name).
Proof. unfold getitem_col. grows_tac. Qed.

Lemma grows_take_columns df names : grows (take_columns df names).
Proof. unfold take_columns. grows_tac. apply grows_copy_column. Qed.

Lemma grows_getitem_list df names : grows (getitem_list df names).
Proof. unfold getitem_list. grows_tac; apply grows_take_columns. Qed.

Lemma grows_df_median df : grows (df_median df).
Proof. unfold df_median. grows_tac. Qed.

Lemma grows_fillna df value : grows (fillna df value).
Proof. unfold fillna. grows_tac. Qed.

Lemma grows_astype_int s : grows (astype_int s).
Proof. unfold astype_int. grows_tac. Qed.

Lemma grows_get_dummies s prefix : grows (get_dummies s prefix).
Proof. unfold get_dummies. grows_tac. Qed.

Lemma grows_df_copy df : grows (df_copy df).
Proof. unfold df_copy. grows_tac. apply grows_copy_column. Qed.

Lemma grows_concat_axis1 frames : grows (concat_axis1 frames).
Proof. apply grows_df_copy. Qed.

Lemma grows_eq_True s : grows (eq_True s).
Proof. unfold eq_True. grows_tac. Qed.

Lemma grows_getitem_mask df mask : grows (getitem_mask df mask).
Proof. unfold getitem_mask. grows_tac. Qed.

#[export] Hint Resolve grows_copy_column grows_getitem_col grows_take_columns
  grows_getitem_list grows_df_median grows_fillna grows_astype_int
  grows_get_dummies grows_df_copy grows_concat_axis1 grows_eq_True
  grows_getitem_mask : grows.

Section PrepareDataGrows.
Context {sk : Sklearn} {rt : Runtime sk}.

Lemma grows_workout_prepare_data self df :
  grows (WorkoutSuccessPredictor.prepare_data self df).
Proof. unfold WorkoutSuccessPredictor.prepare_data. grows_tac. Qed.

Lemma grows_recovery_prepare_data self df :
  grows (RecoveryTimePredictor.prepare_data self df).
Proof. unfold RecoveryTimePredictor.prepare_data. grows_tac. Qed.

Lemma grows_progression_prepare_data self df :
  grows (WeightProgressionPredictor.prepare_data self df).
Proof. unfold WeightProgressionPredictor.prepare_data. grows_tac. Qed.
End PrepareDataGrows.

(** ** What the pandas operations return *)

Lemma grows_run {A : Type} (m : M Heap A) h r h' :
  grows m -> m h = (r, h') -> extends h h'.
Proof. intros G E. specialize (G h). rewrite E in G. exact G. Qed.

Lemma load_inr l h c h' :
  load l h = (inr c, h') -> nth_error h l = Some c /\ h' = h.
Proof.
  unfold load. destruct (nth_error h l) as [c0 |]; intros E; inversion E; auto.
Qed.

Lemma alloc_inr c h l h' :
  alloc c h = (inr l, h') -> l = length h /\ h' = h ++ [c].
Proof. unfold alloc. intros E. inversion E. auto. Qed.

Lemma nth_error_snoc {A : Type} (h : list A) (c : A) :
  nth_error (h ++ [c]) (length h) = Some c.
Proof. rewrite nth_error_app2, Nat.sub_diag; [reflexivity | lia]. Qed.

Lemma copy_column_inr l h l' h' :
  copy_column l h = (inr l', h') ->
  exists c, nth_error h l = Some c /\ l' = length h /\ h' = h ++ [c].
Proof.
  unfold copy_column. intros E.
  apply bind_inr in E as (c & h1 & E1 & E2).
  apply load_inr in E1 as [E1 ->]. apply alloc_inr in E2 as [-> ->].
  exists c. auto.
Qed.

Lemma lift_result_inr {S A : Type} (r : Result A) (s : S) a s' :
  lift_result r s = (inr a, s') -> r = inr a /\ s' = s.
Proof. unfold lift_result. intros E. inversion E. auto. Qed.

(** [mapM] over the store: a property of each element's result that survives
    growth of the store holds of all results in the final store. *)
Lemma mapM_Forall2 {A B : Type} (f : A -> M Heap B) (Q : A -> B -> Heap -> Prop)
      (h0 : Heap) :
  (forall a, grows (f a)) ->
  (forall a h b h1, extends h0 h -> f a h = (inr b, h1) -> Q a b h1) ->
  (forall a b h h1, extends h h1 -> Q a b h -> Q a b h1) ->
  forall l h bs h',
    extends h0 h -> mapM f l h = (inr bs, h') ->
    Forall2 (fun a b => Q a b h') l bs.
Proof.
  intros G Hf Mono. induction l as [| a t IH]; intros h bs h' Ext E; simpl in E.
  - apply ret_inr in E as [<- _]. constructor.
  - apply bind_inr in E as (b & h1 & E1 & E).
    apply bind_inr in E as (bs' & h2 & E2 & E).
    apply ret_inr in E as [<- <-].
    assert (X1 : extends h h1) by (eapply grows_run; [apply G | exact E1]).
    assert (X2 : extends h1 h2)
      by (eapply grows_run; [apply (grows_mapM f t G) | exact E2]).
    constructor.
    + eapply Mono; [exact X2 |]. eapply Hf; [exact Ext | exact E1].
    + eapply IH; [| exact E2]. eapply extends_trans; eassumption.
Qed.

Lemma assoc_In_names {V : Type} (R : string -> V -> Prop) names (l : list (string * V)) :
  Forall2 (fun n nv => fst nv = n /\ R n (snd nv)) names l ->
  forall name, In name names -> exists v, assoc name l = Some v /\ R name v.
Proof.
  induction 1 as [| n [n' v] names l [Hn HR] F IH]; intros name HIn.
  - destruct HIn.
  - simpl in *. subst n'. destruct (String.eqb_spec n name) as [-> | Hne].
    + exists v. auto.
    + destruct HIn as [-> | HIn]; [congruence | auto].
Qed.

Lemma assoc_Forall2 {V W : Type} (R : string -> V -> W -> Prop)
      (l1 : list (string * V)) (l2 : list (string * W)) :
  Forall2 (fun a b => fst b = fst a /\ R (fst a) (snd a) (snd b)) l1 l2 ->
  forall name v, assoc name l1 = Some v ->
                 exists w, assoc name l2 = Some w /\ R name v w.
Proof.
  induction 1 as [| [n v0] [n' w0] l1 l2 [Hn HR] F IH]; intros name v E.
  - discriminate.
  - simpl in *. subst n'. destruct (String.eqb_spec n name) as [-> | Hne].
    + inversion E; subst. exists w0. auto.
    + auto.
Qed.

Lemma Forall2_labels {V : Type} (P : string -> (string * V) -> Prop) names
      (l : list (string * V)) :
  Forall2 (fun n nv => fst nv = n /\ P n nv) names l -> map fst l = names.
Proof.
  induction 1 as [| n nv names l [Hn _] F IH]; simpl; [reflexivity | congruence].
Qed.

Lemma Forall2_same_labels {V W : Type} (P : (string * V) -> (string * W) -> Prop)
      (l1 : list (string * V)) (l2 : list (string * W)) :
  Forall2 (fun a b => fst b = fst a /\ P a b) l1 l2 -> map fst l2 = map fst l1.
Proof.
  induction 1 as [| a b l1 l2 [Hn _] F IH]; simpl; [reflexivity | congruence].
Qed.

Lemma Forall2_map_labels {A V : Type} (f : A -> string) (P : A -> (string * V) -> Prop)
      (l1 : list A) (l2 : list (string * V)) :
  Forall2 (fun a b => fst b = f a /\ P a b) l1 l2 -> map fst l2 = map f l1.
Proof.
  induction 1 as [| a b l1 l2 [Hn _] F IH]; simpl; [reflexivity | congruence].
Qed.

Lemma Forall2_right {A B : Type} (P : B -> Prop) (R : A -> B -> Prop) l1 l2 :
  Forall2 R l1 l2 -> (forall a b, R a b -> P b) -> Forall P l2.
Proof. induction 1; intros H'; constructor; eauto. Qed.

Lemma take_columns_spec df names h sel h1 :
  take_columns df names h = (inr sel, h1) ->
  Forall2 (fun n nl => fst nl = n /\ copied_from df h h1 n (snd nl)) names sel.
Proof.
  intros E. unfold take_columns in E.
  eapply (mapM_Forall2 _ (fun n nl hh => fst nl = n /\ copied_from df h hh n (snd nl)) h);
    [| | | apply extends_refl | exact E].
  - intros n. destruct (df_lookup n df); grows_tac.
  - intros n hc nl h2 Ext. cbv beta.
    destruct (df_lookup n df) as [l |] eqn:L; intros Ef; [| discriminate].
    apply bind_inr in Ef as (l' & h3 & Ec & Er). apply ret_inr in Er as [<- <-].
    apply copy_column_inr in Ec as (c & Hc & -> & ->). simpl.
    split; [reflexivity |]. split; [now apply extends_length |].
    exists l, c. split; [exact L |]. split.
    + eapply extends_nth; [| exact Hc]. exists [c]. reflexivity.
    + apply nth_error_snoc.
  - intros n nl hc h2 Ext [Hn [Hl (l & c & L & H1 & H2)]].
    split; [exact Hn |]. split; [exact Hl |].
    exists l, c. split; [exact L |]. split; eapply extends_nth; eassumption.
Qed.

Lemma getitem_list_spec df names h sel h1 :
  getitem_list df names h = (inr sel, h1) ->
  Forall2 (fun n nl => fst nl = n /\ copied_from df h h1 n (snd nl)) names sel.
Proof.
  unfold getitem_list. destruct (missing_labels names df); [| discriminate].
  apply take_columns_spec.
Qed.

Lemma df_median_spec df h med h1 :
  df_median df h = (inr med, h1) ->
  Forall2 (fun nl nv =>
             fst nv = fst nl /\
             exists c xs, nth_error h1 (snd nl) = Some c /\
                          column_floats c = Some xs /\ snd nv = nanmedian xs) df med.
Proof.
  intros E. unfold df_median in E.
  eapply (mapM_Forall2 _ (fun nl nv hh =>
            fst nv = fst nl /\
            exists c xs, nth_error hh (snd nl) = Some c /\
                         column_floats c = Some xs /\ snd nv = nanmedian xs) h);
    [| | | apply extends_refl | exact E].
  - intros nl. grows_tac.
  - intros nl hc nv h2 Ext Ef.
    apply bind_inr in Ef as (c & h3 & El & Er). apply load_inr in El as [Hc ->].
    revert Er. destruct (column_floats c) as [xs |] eqn:F; intros Er; [| discriminate].
    apply ret_inr in Er as [<- <-]. simpl. split; [reflexivity |].
    exists c, xs. auto.
  - intros nl nv hc h2 Ext [Hn (c & xs & Hc & F & Hv)].
    split; [exact Hn |]. exists c, xs. split; [eapply extends_nth; eassumption | auto].
Qed.

Lemma fillna_spec df value h X h1 :
  fillna df value h = (inr X, h1) ->
  Forall2 (fun nl nl' =>
             fst nl' = fst nl /\ length h <= snd nl' /\
             exists c c', nth_error h1 (snd nl) = Some c /\
                          nth_error h1 (snd nl') = Some c' /\
                          match assoc (fst nl) value with
                          | Some v => fillna_column c v
                          | None => inr c
                          end = inr c') df X.
Proof.
  intros E. unfold fillna in E.
  eapply (mapM_Forall2 _ (fun nl nl' hh =>
            fst nl' = fst nl /\ length h <= snd nl' /\
            exists c c', nth_error hh (snd nl) = Some c /\
                         nth_error hh (snd nl') = Some c' /\
                         match assoc (fst nl) value with
                         | Some v => fillna_column c v
                         | None => inr c
                         end = inr c') h);
    [| | | apply extends_refl | exact E].
  - intros nl. grows_tac.
  - intros nl hc nl' h2 Ext Ef.
    apply bind_inr in Ef as (c & h3 & El & Ef). apply load_inr in El as [Hc ->].
    apply bind_inr in Ef as (c' & h4 & Ec & Ef). apply lift_result_inr in Ec as [Ec ->].
    apply bind_inr in Ef as (l' & h5 & Ea & Er). apply alloc_inr in Ea as [-> ->].
    apply ret_inr in Er as [<- <-]. simpl.
    split; [reflexivity |]. split; [now apply extends_length |].
    exists c, c'. split; [| split; [apply nth_error_snoc | exact Ec]].
    eapply extends_nth; [| exact Hc]. exists [c']. reflexivity.
  - intros nl nl' hc h2 Ext [Hn [Hl (c & c' & H1 & H2 & Hf)]].
    split; [exact Hn |]. split; [exact Hl |].
    exists c, c'. split; [| split]; [eapply extends_nth; eassumption .. | exact Hf].
Qed.

(** The imputation every [prepare_data] performs,
    [frame[names].fillna(frame[names].median())]: each column of the result
    is the frame's column with its holes filled by the median of that same
    column, taken over all rows of [frame]. *)
Lemma impute_spec frame names h0 sel h1 sel_m h2 med h3 X h4 :
  getitem_list frame names h0 = (inr sel, h1) ->
  getitem_list frame names h1 = (inr sel_m, h2) ->
  df_median sel_m h2 = (inr med, h3) ->
  fillna sel med h3 = (inr X, h4) ->
  map fst X = names /\
  Forall (fun nl => length h0 <= snd nl < length h4) X /\
  forall name l c,
    In name names -> df_lookup name frame = Some l -> nth_error h0 l = Some c ->
    exists l' xs c',
      df_lookup name X = Some l' /\ nth_error h4 l' = Some c' /\
      column_floats c = Some xs /\ fillna_column c (nanmedian xs) = inr c'.
Proof.
  intros E1 E2 E3 E4.
  pose proof (grows_run _ _ _ _ (grows_getitem_list _ _) E1) as X01.
  pose proof (grows_run _ _ _ _ (grows_getitem_list _ _) E2) as X12.
  pose proof (grows_run _ _ _ _ (grows_df_median _) E3) as X23.
  pose proof (grows_run _ _ _ _ (grows_fillna _ _) E4) as X34.
  apply getitem_list_spec in E1. apply getitem_list_spec in E2.
  apply df_median_spec in E3. apply fillna_spec in E4.
  split; [| split].
  - transitivity (map fst sel).
    + exact (Forall2_same_labels _ _ _ E4).
    + exact (Forall2_labels _ _ _ E1).
  - eapply Forall2_right; [exact E4 |]. intros a b (_ & Hl & c & c' & _ & Hc' & _).
    simpl. split.
    + apply extends_length in X01, X12, X23. lia.
    + apply nth_error_Some. congruence.
  - intros name l c HIn L Hc.
    destruct (assoc_In_names _ _ _ E1 name HIn) as (ls & Ls & _ & l1 & c1 & L1 & H1 & Hs).
    destruct (assoc_In_names _ _ _ E2 name HIn) as (lm & Lm & _ & l2 & c2 & L2 & H2 & Hm).
    rewrite L in L1, L2. inversion L1; inversion L2; subst l1 l2. clear L1 L2.
    assert (c1 = c) as ->.
    { pose proof (extends_nth _ _ _ _ X01 Hc). congruence. }
    assert (c2 = c) as ->.
    { pose proof (extends_nth _ _ _ _ (extends_trans _ _ _ X01 X12) Hc). congruence. }
    destruct (assoc_Forall2
                (fun n lm v => exists c xs, nth_error h3 lm = Some c /\
                                            column_floats c = Some xs /\ v = nanmedian xs)
                sel_m med E3 name lm Lm) as (v & Lv & cm & xs & Hcm & F & ->).
    assert (cm = c) as ->.
    { pose proof (extends_nth _ _ _ _ X23 Hm). congruence. }
    destruct (assoc_Forall2
                (fun n ls l' => length h3 <= l' /\
                   exists c c', nth_error h4 ls = Some c /\ nth_error h4 l' = Some c' /\
                                match assoc n med with
                                | Some v => fillna_column c v
                                | None => inr c
                                end = inr c')
                sel X E4 name ls Ls) as (l' & LX & _ & cs & c' & Hcs & Hc' & Hf).
    assert (cs = c) as ->.
    { pose proof (extends_nth _ _ _ _
                    (extends_trans _ _ _ X12 (extends_trans _ _ _ X23 X34)) Hs).
      congruence. }
    rewrite Lv in Hf. exists l', xs, c'. auto.
Qed.

Lemma df_copy_spec df h X h1 :
  df_copy df h = (inr X, h1) ->
  Forall2 (fun nl nl' =>
             fst nl' = fst nl /\ length h <= snd nl' /\
             exists c, nth_error h1 (snd nl) = Some c /\
                       nth_error h1 (snd nl') = Some c) df X.
Proof.
  intros E. unfold df_copy in E.
  eapply (mapM_Forall2 _ (fun nl nl' hh =>
            fst nl' = fst nl /\ length h <= snd nl' /\
            exists c, nth_error hh (snd nl) = Some c /\
                      nth_error hh (snd nl') = Some c) h);
    [| | | apply extends_refl | exact E].
  - intros nl. grows_tac.
  - intros nl hc nl' h2 Ext Ef.
    apply bind_inr in Ef as (l' & h3 & Ec & Er). apply ret_inr in Er as [<- <-].
    apply copy_column_inr in Ec as (c & Hc & -> & ->). simpl.
    split; [reflexivity |]. split; [now apply extends_length |].
    exists c. split; [| apply nth_error_snoc].
    eapply extends_nth; [| exact Hc]. exists [c]. reflexivity.
  - intros nl nl' hc h2 Ext [Hn [Hl (c & H1 & H2)]].
    split; [exact Hn |]. split; [exact Hl |].
    exists c. split; eapply extends_nth; eassumption.
Qed.

Lemma eq_True_inr s h m h1 :
  eq_True s h = (inr m, h1) ->
  exists c, nth_error h s = Some c /\ m = length h /\
            h1 = h ++ [ColBool (eq_True_mask c)].
Proof.
  unfold eq_True. intros E. apply bind_inr in E as (c & h2 & El & Ea).
  apply load_inr in El as [Hc ->]. apply alloc_inr in Ea as [-> ->].
  exists c. auto.
Qed.

Lemma getitem_mask_spec df mask h X h1 :
  getitem_mask df mask h = (inr X, h1) ->
  exists bs,
    nth_error h mask = Some (ColBool bs) /\
    Forall2 (fun nl nl' =>
               fst nl' = fst nl /\ length h <= snd nl' /\
               exists c, nth_error h1 (snd nl) = Some c /\
                         nth_error h1 (snd nl') = Some (select_column bs c)) df X.
Proof.
  intros E. unfold getitem_mask in E.
  apply bind_inr in E as (m & h2 & El & E). apply load_inr in El as [Hm ->].
  destruct m as [| | bs |]; try discriminate.
  exists bs. split; [exact Hm |].
  eapply (mapM_Forall2 _ (fun nl nl' hh =>
            fst nl' = fst nl /\ length h <= snd nl' /\
            exists c, nth_error hh (snd nl) = Some c /\
                      nth_error hh (snd nl') = Some (select_column bs c)) h);
    [| | | apply extends_refl | exact E].
  - intros nl. grows_tac.
  - intros nl hc nl' h3 Ext Ef.
    apply bind_inr in Ef as (c & h4 & El & Ef). apply load_inr in El as [Hc ->].
    revert Ef. destruct (column_length c =? length bs)%nat; intros Ef; [| discriminate].
    apply bind_inr in Ef as (l' & h5 & Ea & Er). apply alloc_inr in Ea as [-> ->].
    apply ret_inr in Er as [<- <-]. simpl.
    split; [reflexivity |]. split; [now apply extends_length |].
    exists c. split; [| apply nth_error_snoc].
    eapply extends_nth; [| exact Hc]. exists [select_column bs c]. reflexivity.
  - intros nl nl' hc h3 Ext [Hn [Hl (c & H1 & H2)]].
    split; [exact Hn |]. split; [exact Hl |].
    exists c. split; eapply extends_nth; eassumption.
Qed.

Lemma astype_int_inr s h y h1 :
  astype_int s h = (inr y, h1) -> y = length h /\ length h1 = S (length h).
Proof.
  unfold astype_int. intros E. apply bind_inr in E as (c & h2 & El & Ea).
  apply load_inr in El as [_ ->].
  destruct c as [xs | zs | bs | ss]; try discriminate;
    [destruct (forallb is_finite xs); [| discriminate] | |];
    apply alloc_inr in Ea as [-> ->]; rewrite length_app; simpl; split; lia.
Qed.

Lemma getitem_col_inr df name h y h1 :
  getitem_col df name h = (inr y, h1) -> df_lookup name df = Some y /\ h1 = h.
Proof.
  unfold getitem_col. destruct (df_lookup name df); intros E; inversion E; auto.
Qed.

Lemma get_dummies_spec s prefix h D h1 :
  get_dummies s prefix h = (inr D, h1) ->
  exists ss,
    nth_error h s = Some (ColObj ss) /\
    Forall2 (fun cat nl =>
               fst nl = (prefix ++ "_" ++ cat)%string /\ length h <= snd nl /\
               nth_error h1 (snd nl) = Some (ColBool (indicator cat ss)))
            (categories ss) D.
Proof.
  intros E. unfold get_dummies in E.
  apply bind_inr in E as (c & h2 & El & E). apply load_inr in El as [Hc ->].
  destruct c as [| | | ss]; try discriminate.
  exists ss. split; [exact Hc |].
  eapply (mapM_Forall2 _ (fun cat nl hh =>
            fst nl = (prefix ++ "_" ++ cat)%string /\ length h <= snd nl /\
            nth_error hh (snd nl) = Some (ColBool (indicator cat ss))) h);
    [| | | apply extends_refl | exact E].
  - intros cat. grows_tac.
  - intros cat hc nl h3 Ext Ef.
    apply bind_inr in Ef as (l & h4 & Ea & Er). apply alloc_inr in Ea as [-> ->].
    apply ret_inr in Er as [<- <-]. simpl.
    split; [reflexivity |]. split; [now apply extends_length | apply nth_error_snoc].
  - intros cat nl hc h3 Ext [Hn [Hl H1]].
    split; [exact Hn |]. split; [exact Hl |]. eapply extends_nth; eassumption.
Qed.

Lemma assoc_In {V : Type} name (l : list (string * V)) v :
  assoc name l = Some v -> In (name, v) l.
Proof.
  induction l as [| [n w] l IH]; simpl; [discriminate |].
  destruct (String.eqb_spec n name) as [-> | Hne]; intros E.
  - inversion E. auto.
  - auto.
Qed.

Lemma assoc_app_found {V : Type} name (l1 l2 : list (string * V)) v :
  assoc name l1 = Some v -> assoc name (l1 ++ l2) = Some v.
Proof.
  induction l1 as [| [n w] l1 IH]; simpl; [discriminate |].
  destruct (String.eqb n name); auto.
Qed.

(** ** What [prepare_data] returns *)

Section PrepareDataSpec.
Context {sk : Sklearn} {rt : Runtime sk}.

Lemma workout_prepare_data_spec self df h X y h' :
  WorkoutSuccessPredictor.prepare_data self df h = (inr (X, y), h') ->
  map fst X = WorkoutSuccessPredictor.feature_names self /\
  fresh_frame h h' X /\
  length h <= y < length h' /\
  forall name, In name (WorkoutSuccessPredictor.feature_names self) ->
               imputed h h' df X name.
Proof.
  unfold WorkoutSuccessPredictor.prepare_data. intros E.
  apply bind_inr in E as (sel & h1 & E1 & E).
  apply bind_inr in E as (sel_m & h2 & E2 & E).
  apply bind_inr in E as (med & h3 & E3 & E).
  apply bind_inr in E as (X0 & h4 & E4 & E).
  apply bind_inr in E as (col & h5 & E5 & E).
  apply bind_inr in E as (y0 & h6 & E6 & E).
  apply ret_inr in E as [E <-]. inversion E; subst X0 y0; clear E.
  apply getitem_col_inr in E5 as [_ ->].
  pose proof (grows_run _ _ _ _ (grows_getitem_list _ _) E1) as X01.
  pose proof (grows_run _ _ _ _ (grows_getitem_list _ _) E2) as X12.
  pose proof (grows_run _ _ _ _ (grows_df_median _) E3) as X23.
  pose proof (grows_run _ _ _ _ (grows_fillna _ _) E4) as X34.
  pose proof (grows_run _ _ _ _ (grows_astype_int _) E6) as X46.
  apply astype_int_inr in E6 as [-> L6].
  destruct (impute_spec _ _ _ _ _ _ _ _ _ _ _ E1 E2 E3 E4) as (Hn & Hf & Hi).
  assert (L04 : length h <= length h4)
    by (apply extends_length in X01, X12, X23, X34; lia).
  split; [exact Hn |]. split; [| split].
  - eapply Forall_impl; [| exact Hf]. intros a Ha. simpl in *. lia.
  - lia.
  - intros name HIn l c L Hc.
    destruct (Hi name l c HIn L Hc) as (l' & xs & c' & LX & Hc' & F & Hfill).
    exists l', xs, c'. split; [exact LX |]. split; [| auto].
    eapply extends_nth; eassumption.
Qed.

Lemma recovery_prepare_data_spec self df h X y h' :
  RecoveryTimePredictor.prepare_data self df h = (inr (X, y), h') ->
  (exists lm ss,
      df_lookup "muscle_group" df = Some lm /\ nth_error h lm = Some (ColObj ss) /\
      map fst X = RecoveryTimePredictor.feature_names self
                  ++ map (fun cat => ("muscle" ++ "_" ++ cat)%string) (categories ss)) /\
  fresh_frame h h' X /\
  df_lookup "actual_recovery_days" df = Some y /\
  forall name, In name (RecoveryTimePredictor.feature_names self) ->
               imputed h h' df X name.
Proof.
  unfold RecoveryTimePredictor.prepare_data. intros E.
  apply bind_inr in E as (col & h0 & E0 & E).
  apply bind_inr in E as (dummies & hd & Ed & E).
  apply bind_inr in E as (sel & h1 & E1 & E).
  apply bind_inr in E as (sel_m & h2 & E2 & E).
  apply bind_inr in E as (med & h3 & E3 & E).
  apply bind_inr in E as (filled & h4 & E4 & E).
  apply bind_inr in E as (X0 & h5 & E5 & E).
  apply bind_inr in E as (y0 & h6 & E6 & E).
  apply ret_inr in E as [E <-]. inversion E; subst X0 y0; clear E.
  apply getitem_col_inr in E0 as [Lm ->].
  apply getitem_col_inr in E6 as [Ly ->].
  pose proof (grows_run _ _ _ _ (grows_get_dummies _ _) Ed) as X0d.
  pose proof (grows_run _ _ _ _ (grows_getitem_list _ _) E1) as Xd1.
  pose proof (grows_run _ _ _ _ (grows_getitem_list _ _) E2) as X12.
  pose proof (grows_run _ _ _ _ (grows_df_median _) E3) as X23.
  pose proof (grows_run _ _ _ _ (grows_fillna _ _) E4) as X34.
  pose proof (grows_run _ _ _ _ (grows_concat_axis1 _) E5) as X45.
  apply get_dummies_spec in Ed as (ss & Hss & Hd).
  destruct (impute_spec _ _ _ _ _ _ _ _ _ _ _ E1 E2 E3 E4) as (Hn & Hf & Hi).
  unfold concat_axis1 in E5. apply df_copy_spec in E5. simpl in E5.
  rewrite app_nil_r in E5.
  assert (L04 : length h <= length h4)
    by (apply extends_length in X0d, Xd1, X12, X23, X34; lia).
  split; [| split; [| split]].
  - exists col, ss. split; [exact Lm |]. split; [exact Hss |].
    transitivity (map fst (filled ++ dummies)).
    + exact (Forall2_same_labels _ _ _ E5).
    + rewrite map_app, Hn. f_equal. exact (Forall2_map_labels _ _ _ _ Hd).
  - eapply Forall2_right; [exact E5 |]. intros a b (_ & Hl & c & _ & Hb). simpl.
    split; [lia |]. apply nth_error_Some. congruence.
  - exact Ly.
  - intros name HIn l c L Hc.
    assert (Hcd : nth_error hd l = Some c) by (eapply extends_nth; eassumption).
    destruct (Hi name l c HIn L Hcd) as (lf & xs & c' & LX & Hc' & F & Hfill).
    destruct (assoc_Forall2
                (fun n lf l' => length h4 <= l' /\
                   exists c, nth_error h5 lf = Some c /\ nth_error h5 l' = Some c)
                _ _ E5 name lf (assoc_app_found _ _ _ _ LX))
      as (l' & LX' & _ & c0 & H1 & H2).
    pose proof (extends_nth _ _ _ _ X45 Hc') as H3.
    exists l', xs, c'. split; [exact LX' |]. split; [congruence | auto].
Qed.

Lemma progression_prepare_data_spec self df h X y h' :
  WeightProgressionPredictor.prepare_data self df h = (inr (X, y), h') ->
  map fst X = WeightProgressionPredictor.feature_names self /\
  fresh_frame h h' X /\
  length h <= y < length h' /\
  exists ls col,
    df_lookup "successful" df = Some ls /\ nth_error h ls = Some col /\
    forall name, In name (WeightProgressionPredictor.feature_names self) ->
                 imputed_on_retained h h' df X (eq_True_mask col) name.
Proof.
  unfold WeightProgressionPredictor.prepare_data. intros E.
  apply bind_inr in E as (col & h0 & E0 & E).
  apply bind_inr in E as (mask & hm & Em & E).
  apply bind_inr in E as (kept & hk & Ek & E).
  apply bind_inr in E as (df_success & hs & Es & E).
  apply bind_inr in E as (sel & h1 & E1 & E).
  apply bind_inr in E as (sel_m & h2 & E2 & E).
  apply bind_inr in E as (med & h3 & E3 & E).
  apply bind_inr in E as (X0 & h4 & E4 & E).
  apply bind_inr in E as (y0 & h5 & E5 & E).
  apply ret_inr in E as [E <-]. inversion E; subst X0 y0; clear E.
  apply getitem_col_inr in E0 as [Ls ->].
  apply getitem_col_inr in E5 as [Ly ->].
  pose proof (grows_run _ _ _ _ (grows_eq_True _) Em) as X0m.
  pose proof (grows_run _ _ _ _ (grows_getitem_mask _ _) Ek) as Xmk.
  pose proof (grows_run _ _ _ _ (grows_df_copy _) Es) as Xks.
  pose proof (grows_run _ _ _ _ (grows_getitem_list _ _) E1) as Xs1.
  pose proof (grows_run _ _ _ _ (grows_getitem_list _ _) E2) as X12.
  pose proof (grows_run _ _ _ _ (grows_df_median _) E3) as X23.
  pose proof (grows_run _ _ _ _ (grows_fillna _ _) E4) as X34.
  apply eq_True_inr in Em as (cs & Hcs & -> & ->).
  apply getitem_mask_spec in Ek as (bs & Hbs & Hk).
  rewrite nth_error_snoc in Hbs. inversion Hbs; subst bs; clear Hbs.
  apply df_copy_spec in Es.
  destruct (impute_spec _ _ _ _ _ _ _ _ _ _ _ E1 E2 E3 E4) as (Hn & Hf & Hi).
  assert (L0s : length h <= length hs)
    by (apply extends_length in X0m, Xmk, Xks; lia).
  split; [exact Hn |]. split; [| split].
  - eapply Forall_impl; [| exact Hf]. intros a Ha. simpl in *. lia.
  - (* the target is a column of [df_success] *)
    assert (Fs : Forall (fun nl => length hk <= snd nl < length hs) df_success).
    { eapply Forall2_right; [exact Es |]. intros a b (_ & Hl & c & _ & Hb). simpl.
      split; [lia |]. apply nth_error_Some. congruence. }
    rewrite Forall_forall in Fs. specialize (Fs _ (assoc_In _ _ _ Ly)). simpl in Fs.
    apply extends_length in X0m, Xmk, Xs1, X12, X23, X34. lia.
  - exists col, cs. split; [exact Ls |]. split; [exact Hcs |].
    intros name HIn l c L Hc.
    destruct (assoc_Forall2
                (fun n l lk => length (h ++ [ColBool (eq_True_mask cs)]) <= lk /\
                   exists c, nth_error hk l = Some c /\
                             nth_error hk lk = Some (select_column (eq_True_mask cs) c))
                _ _ Hk name l L) as (lk & Lk & _ & c1 & H1 & H2).
    assert (c1 = c) as ->.
    { pose proof (extends_nth _ _ _ _ (extends_trans _ _ _ X0m Xmk) Hc). congruence. }
    destruct (assoc_Forall2
                (fun n lk l2 => length hk <= l2 /\
                   exists c, nth_error hs lk = Some c /\ nth_error hs l2 = Some c)
                _ _ Es name lk Lk) as (l2 & L2 & _ & c2 & H3 & H4).
    assert (c2 = select_column (eq_True_mask cs) c) as ->.
    { pose proof (extends_nth _ _ _ _ Xks H2). congruence. }
    exact (Hi name l2 _ HIn L2 H4).
Qed.
End PrepareDataSpec.

(** ** Median imputation (C3) *)

(** C3, as stated, fails for the progression task: the fill value is not the
    median of the input column.  In [progression_frame] the median of
    "previous_weight" over the whole input is 100, which would fill the hole
    of the first row with 100; [prepare_data] fills it with 10, the median of
    the rows it retains. *)
Lemma progression_median_is_not_over_input :
  nanmedian [nan; 10; 100; 200]%float = 100%float /\
  exists X y h' l',
    WeightProgressionPredictor.prepare_data
      (sk := Toy.sklearn) WeightProgressionPredictor.__init__
      progression_frame progression_heap = (inr (X, y), h') /\
    df_lookup "previous_weight" X = Some l' /\
    nth_error h' l' = Some (ColF64 [10; 10]%float) /\
    fillna_column (select_column [true; true; false; false]
                                 (ColF64 [nan; 10; 100; 200]%float))
                  (nanmedian [nan; 10; 100; 200]%float)
    = inr (ColF64 [100; 10]%float).
Proof.
  split; [vm_compute; reflexivity |].
  eexists _, _, _, _. repeat split; vm_compute; reflexivity.
Qed.

(** C3 (amended): in every [prepare_data] each feature column of the returned
    matrix is the column of the frame being prepared with its missing values
    replaced by the median of that whole column, computed before any
    train/test split.  The frame being prepared is the input dataset for the
    workout-success and recovery tasks, and the rows of the input whose
    "successful" cell is true for the progression task. *)
Theorem prepare_data_imputes_median_of_prepared_frame
        {sk : Sklearn} {rt : Runtime sk} :
  (forall self df h X y h',
      WorkoutSuccessPredictor.prepare_data self df h = (inr (X, y), h') ->
      forall name, In name (WorkoutSuccessPredictor.feature_names self) ->
                   imputed h h' df X name) /\
  (forall self df h X y h',
      RecoveryTimePredictor.prepare_data self df h = (inr (X, y), h') ->
      forall name, In name (RecoveryTimePredictor.feature_names self) ->
                   imputed h h' df X name) /\
  (forall self df h X y h',
      WeightProgressionPredictor.prepare_data self df h = (inr (X, y), h') ->
      exists ls col,
        df_lookup "successful" df = Some ls /\ nth_error h ls = Some col /\
        forall name, In name (WeightProgressionPredictor.feature_names self) ->
                     imputed_on_retained h h' df X (eq_True_mask col) name).
Proof.
  split; [| split].
  - intros self df h X y h' E. apply workout_prepare_data_spec in E. tauto.
  - intros self df h X y h' E. apply recovery_prepare_data_spec in E. tauto.
  - intros self df h X y h' E. apply progression_prepare_data_spec in E. tauto.
Qed.

Lemma prepare_data_imputes_median_witness :
  exists X y h',
    RecoveryTimePredictor.prepare_data
      (sk := Toy.sklearn) RecoveryTimePredictor.__init__
      recovery_frame recovery_heap = (inr (X, y), h') /\
    imputed recovery_heap h' recovery_frame X "sleep_quality".
Proof.
  eexists _, _, _. split; [vm_compute; reflexivity |].
  apply (proj1 (proj2 (prepare_data_imputes_median_of_prepared_frame
                         (rt := Toy.runtime)))
           RecoveryTimePredictor.__init__ recovery_frame recovery_heap _ 5).
  - vm_compute. reflexivity.
  - simpl. auto.
Defined.

(** ** [prepare_data] and the caller's dataset (C9) *)

(** C9, as stated, fails for the recovery task: the target it returns is not
    a new value but the caller's own "actual_recovery_days" column, a buffer
    that existed before the call. *)
Lemma recovery_target_is_callers_column :
  exists X y h',
    RecoveryTimePredictor.prepare_data
      (sk := Toy.sklearn) RecoveryTimePredictor.__init__
      recovery_frame recovery_heap = (inr (X, y), h') /\
    df_lookup "actual_recovery_days" recovery_frame = Some y /\
    y < length recovery_heap.
Proof.
  eexists _, _, _. repeat split; vm_compute; reflexivity.
Qed.

(** C9 (amended): whatever a [prepare_data] returns or raises, every buffer
    of the store, hence every column and row of the caller's dataset, is
    afterwards what it was before; the feature matrix it returns consists of
    new buffers, and so does the target of the workout-success and of the
    progression task.  The target of the recovery task is the caller's
    "actual_recovery_days" column itself. *)
Theorem prepare_data_preserves_dataset {sk : Sklearn} {rt : Runtime sk} :
  (forall self df h r h',
      WorkoutSuccessPredictor.prepare_data self df h = (r, h') ->
      (forall l c, nth_error h l = Some c -> nth_error h' l = Some c) /\
      (forall X y, r = inr (X, y) ->
                   fresh_frame h h' X /\ length h <= y < length h')) /\
  (forall self df h r h',
      RecoveryTimePredictor.prepare_data self df h = (r, h') ->
      (forall l c, nth_error h l = Some c -> nth_error h' l = Some c) /\
      (forall X y, r = inr (X, y) ->
                   fresh_frame h h' X /\
                   df_lookup "actual_recovery_days" df = Some y)) /\
  (forall self df h r h',
      WeightProgressionPredictor.prepare_data self df h = (r, h') ->
      (forall l c, nth_error h l = Some c -> nth_error h' l = Some c) /\
      (forall X y, r = inr (X, y) ->
                   fresh_frame h h' X /\ length h <= y < length h')).
Proof.
  split; [| split]; intros self df h r h' E; split.
  - intros l c. apply extends_nth.
    exact (grows_run _ _ _ _ (grows_workout_prepare_data self df) E).
  - intros X y ->. apply workout_prepare_data_spec in E. tauto.
  - intros l c. apply extends_nth.
    exact (grows_run _ _ _ _ (grows_recovery_prepare_data self df) E).
  - intros X y ->. apply recovery_prepare_data_spec in E. tauto.
  - intros l c. apply extends_nth.
    exact (grows_run _ _ _ _ (grows_progression_prepare_data self df) E).
  - intros X y ->. apply progression_prepare_data_spec in E. tauto.
Qed.

Lemma prepare_data_preserves_dataset_witness :
  exists r h',
    WeightProgressionPredictor.prepare_data
      (sk := Toy.sklearn) WeightProgressionPredictor.__init__
      progression_frame progression_heap = (r, h') /\
    forall l c, nth_error progression_heap l = Some c -> nth_error h' l = Some c.
Proof.
  eexists _, _. split; [vm_compute; reflexivity |].
  apply (proj1 (proj2 (proj2 (prepare_data_preserves_dataset (rt := Toy.runtime)))
                 WeightProgressionPredictor.__init__ progression_frame
                 progression_heap _ _ ltac:(vm_compute; reflexivity))).
Defined.

(** ** The decision rule of the classifier (C2) *)

(** C2: whenever the fitted scaler and classifier produce a class-1
    probability [p] for the feature vector, [predict] returns [p] as the
    probability, [will_complete] exactly when [p] is strictly greater than
    0.5, and the confidence [|p - 0.5| * 2]; at [p = 0.5] these are [false]
    and [0].  [predict] leaves the state it runs in as it was. *)
Theorem workout_predict_decision_rule {sk : Sklearn} {rt : Runtime sk}
        {S : Type} (s : S) (self : WorkoutSuccessPredictor.t)
        (features : list float) st f Xs proba row p :
  WorkoutSuccessPredictor.scaler self = Some st ->
  scaler_transform st [features] = inr Xs ->
  fitted (WorkoutSuccessPredictor.model self) = Some f ->
  classifier_predict_proba f Xs = inr proba ->
  nth_error proba 0 = Some row ->
  nth_error row 1 = Some p ->
  exists r,
    WorkoutSuccessPredictor.predict self features s = (inr r, s) /\
    WorkoutSuccessPredictor.probability r = p /\
    (WorkoutSuccessPredictor.will_complete r = true <-> (0.5 <? p)%float = true) /\
    WorkoutSuccessPredictor.confidence r = (PrimFloat.abs (p - 0.5) * 2)%float /\
    (p = 0.5%float ->
     WorkoutSuccessPredictor.will_complete r = false /\
     WorkoutSuccessPredictor.confidence r = 0%float).
Proof.
  intros Hs Ht Hf Hp Hrow Hcol.
  eexists. split.
  - unfold WorkoutSuccessPredictor.predict, transform, predict_proba, index.
    rewrite Hs, Hf. unfold bind, lift_result, ret.
    rewrite Ht, Hp, Hrow, Hcol. reflexivity.
  - simpl. split; [reflexivity |]. split; [reflexivity |]. split; [reflexivity |].
    intros ->. split; vm_compute; reflexivity.
Qed.

Lemma workout_predict_decision_rule_witness :
  exists r,
    WorkoutSuccessPredictor.predict fitted_workout_predictor [7; 3]%float tt = (inr r, tt) /\
    WorkoutSuccessPredictor.probability r = 0.75%float /\
    (WorkoutSuccessPredictor.will_complete r = true <-> (0.5 <? 0.75)%float = true) /\
    WorkoutSuccessPredictor.confidence r = (PrimFloat.abs (0.75 - 0.5) * 2)%float /\
    (0.75%float = 0.5%float ->
     WorkoutSuccessPredictor.will_complete r = false /\
     WorkoutSuccessPredictor.confidence r = 0%float).
Proof.
  apply (workout_predict_decision_rule
           (rt := Toy.runtime) tt fitted_workout_predictor [7; 3]%float
           ([0; 0]%float, [1; 1]%float) (0.75%float, 2)
           [[7; 3]%float] [[0.25; 0.75]%float] [0.25; 0.75]%float 0.75%float);
    vm_compute; reflexivity.
Defined.

(** ** Determinism of training (C4) *)

Section Determinism.
Context {sk : Sklearn} {rt : Runtime sk}.
Variable data_path : string.

Lemma oblivious_same_result {A : Type} (m : M World A) :
  oblivious data_path m -> same_result data_path m.
Proof. intros H w1 w2 Hw. apply (H w1 w2 Hw). Qed.

Lemma oblivious_ret {A : Type} (a : A) : oblivious data_path (ret a).
Proof. intros w1 w2 Hw. simpl. auto. Qed.

Lemma oblivious_raise {A : Type} (e : Exn) : oblivious data_path (@raise World A e).
Proof. intros w1 w2 Hw. simpl. auto. Qed.

Lemma oblivious_lift_result {A : Type} (r : Result A) : oblivious data_path (lift_result r).
Proof. intros w1 w2 Hw. simpl. auto. Qed.

Lemma oblivious_bind {A B : Type} (m : M World A) (k : A -> M World B) :
  oblivious data_path m -> (forall a, oblivious data_path (k a)) -> oblivious data_path (bind m k).
Proof.
  intros Hm Hk w1 w2 Hw. unfold bind. destruct (Hm w1 w2 Hw) as [Hr Hs].
  destruct (m w1) as [[e1 | a1] s1], (m w2) as [[e2 | a2] s2]; simpl in *;
    try discriminate.
  - split; [congruence | exact Hs].
  - inversion Hr; subst. apply Hk. exact Hs.
Qed.

Lemma same_result_bind {A B : Type} (m : M World A) (k : A -> M World B) :
  oblivious data_path m -> (forall a, same_result data_path (k a)) -> same_result data_path (bind m k).
Proof.
  intros Hm Hk w1 w2 Hw. unfold bind. destruct (Hm w1 w2 Hw) as [Hr Hs].
  destruct (m w1) as [[e1 | a1] s1], (m w2) as [[e2 | a2] s2]; simpl in *;
    try discriminate.
  - congruence.
  - inversion Hr; subst. apply Hk. exact Hs.
Qed.

Lemma oblivious_lift_heap {A : Type} (m : M Heap A) : oblivious data_path (lift_heap m).
Proof.
  intros w1 w2 (Hh & Hd & Hf). unfold lift_heap. rewrite Hh.
  destruct (m (heap w2)) as [r h]. simpl. split; [reflexivity |].
  split; [reflexivity | split; assumption].
Qed.

Lemma oblivious_print line : oblivious data_path (print line).
Proof. intros w1 w2 Hw. simpl. split; [reflexivity | exact Hw]. Qed.

(** A draw with a seed does not read the process-wide generator. *)
Lemma oblivious_seeded {A : Type} (seed : Z) (draw : Rng -> Result A * Rng) :
  oblivious data_path (with_random_state (Some seed) draw).
Proof. intros w1 w2 Hw. simpl. auto. Qed.

Lemma oblivious_read_csv : oblivious data_path (read_csv data_path).
Proof.
  intros w1 w2 Hw. pose proof Hw as (Hh & Hd & Hf). unfold read_csv. rewrite Hf.
  destruct (fs_read data_path (files (fs w2))) as [bytes |].
  - destruct (parse_csv bytes) as [e | cols].
    + simpl. split; [reflexivity | exact Hw].
    + apply oblivious_lift_heap. exact Hw.
  - simpl. split; [reflexivity | exact Hw].
Qed.

Lemma parent_exists_dirs path f1 f2 :
  dirs f1 = dirs f2 -> parent_exists path f1 = parent_exists path f2.
Proof. unfold parent_exists. intros ->. reflexivity. Qed.

Create HintDb oblivious.
#[local] Hint Resolve oblivious_ret oblivious_raise oblivious_lift_result
  oblivious_lift_heap oblivious_print oblivious_seeded oblivious_read_csv : oblivious.

Ltac oblivious_step :=
  match goal with
  | |- oblivious _ (bind _ _) => apply oblivious_bind; [| intros ?]
  | |- oblivious _ (match ?x with _ => _ end) => destruct x
  | |- oblivious _ (if ?x then _ else _) => destruct x
  | |- oblivious _ _ => solve [auto with oblivious]
  end.

Ltac oblivious_tac := cbv beta zeta; repeat (oblivious_step; cbv beta zeta).

Lemma oblivious_train_test_split X y test_size seed :
  oblivious data_path (train_test_split X y test_size (Some seed)).
Proof. unfold train_test_split. oblivious_tac. Qed.

Lemma oblivious_fit_transform X : oblivious data_path (fit_transform X).
Proof. unfold fit_transform. oblivious_tac. Qed.

Lemma oblivious_transform scaler X : oblivious data_path (transform scaler X).
Proof. unfold transform. oblivious_tac. Qed.

Lemma oblivious_fit_classifier m X y seed :
  random_state (params m) = Some seed -> oblivious data_path (fit_classifier m X y).
Proof. intros H. unfold fit_classifier. rewrite H. oblivious_tac. Qed.

Lemma oblivious_fit_regressor m X y seed :
  random_state (params m) = Some seed -> oblivious data_path (fit_regressor m X y).
Proof. intros H. unfold fit_regressor. rewrite H. oblivious_tac. Qed.

Lemma oblivious_predict_classes m X : oblivious data_path (predict_classes m X).
Proof. unfold predict_classes. oblivious_tac. Qed.

Lemma oblivious_predict_values m X : oblivious data_path (predict_values m X).
Proof. unfold predict_values. oblivious_tac. Qed.

Lemma oblivious_feature_importances m : oblivious data_path (feature_importances_ m).
Proof. unfold feature_importances_. oblivious_tac. Qed.

Lemma oblivious_importance_frame names imps :
  oblivious data_path (importance_frame names imps).
Proof. unfold importance_frame. oblivious_tac. Qed.

#[local] Hint Resolve oblivious_train_test_split oblivious_fit_transform
  oblivious_transform oblivious_predict_classes oblivious_predict_values
  oblivious_feature_importances oblivious_importance_frame : oblivious.

Lemma oblivious_workout_train self df seed :
  random_state (params (WorkoutSuccessPredictor.model self)) = Some seed ->
  oblivious data_path (WorkoutSuccessPredictor.train self df).
Proof.
  intros H. unfold WorkoutSuccessPredictor.train. oblivious_tac.
  eapply oblivious_fit_classifier. exact H.
Qed.

Lemma oblivious_recovery_train self df seed :
  random_state (params (RecoveryTimePredictor.model self)) = Some seed ->
  oblivious data_path (RecoveryTimePredictor.train self df).
Proof.
  intros H. unfold RecoveryTimePredictor.train. oblivious_tac.
  eapply oblivious_fit_regressor. exact H.
Qed.

Lemma oblivious_progression_train self df seed :
  random_state (params (WeightProgressionPredictor.model self)) = Some seed ->
  oblivious data_path (WeightProgressionPredictor.train self df).
Proof.
  intros H. unfold WeightProgressionPredictor.train. oblivious_tac.
  eapply oblivious_fit_regressor. exact H.
Qed.

(** Writing never fails once the file is open: a dump raises exactly when
    the directory of [path] does not exist. *)
Lemma run_appends_result path chunks w :
  fst (run_fs_ops (map (Append path) chunks) w) = inr tt.
Proof.
  revert w. induction chunks as [| c t IH]; intros w; simpl; [reflexivity |].
  unfold bind, fs_do. simpl. apply IH.
Qed.

Lemma joblib_dump_result value path w :
  fst (joblib_dump value path w) =
  if parent_exists path (fs w) then inr tt else inl (FileNotFoundError path).
Proof.
  unfold joblib_dump, dump_ops. simpl. unfold bind, fs_do. simpl.
  destruct (parent_exists path (fs w)); [| reflexivity].
  apply run_appends_result.
Qed.

Lemma dump_then_print_result value path line w :
  fst ((joblib_dump value path ;;; print line) w) =
  if parent_exists path (fs w) then inr tt else inl (FileNotFoundError path).
Proof.
  pose proof (joblib_dump_result value path w) as H. unfold bind.
  destruct (joblib_dump value path w) as [[e | []] w']; simpl in *.
  - exact H.
  - exact H.
Qed.

Lemma same_result_workout_save self path :
  same_result data_path (WorkoutSuccessPredictor.save self path).
Proof.
  intros w1 w2 (Hh & Hd & Hf). unfold WorkoutSuccessPredictor.save, bind at 1 3, datetime_now.
  rewrite !dump_then_print_result, (parent_exists_dirs _ _ _ Hd). reflexivity.
Qed.

Lemma same_result_recovery_save self path :
  same_result data_path (RecoveryTimePredictor.save self path).
Proof.
  intros w1 w2 (Hh & Hd & Hf). unfold RecoveryTimePredictor.save, bind at 1 3, datetime_now.
  rewrite !dump_then_print_result, (parent_exists_dirs _ _ _ Hd). reflexivity.
Qed.

Lemma same_result_progression_save self path :
  same_result data_path (WeightProgressionPredictor.save self path).
Proof.
  intros w1 w2 (Hh & Hd & Hf). unfold WeightProgressionPredictor.save, bind at 1 3, datetime_now.
  rewrite !dump_then_print_result, (parent_exists_dirs _ _ _ Hd). reflexivity.
Qed.

Lemma same_result_then_ret {A : Type} (m : M World unit) (a : A) :
  same_result data_path m -> same_result data_path (m ;;; ret a).
Proof.
  intros H w1 w2 Hw. specialize (H w1 w2 Hw). unfold bind.
  destruct (m w1) as [[e1 | []] s1], (m w2) as [[e2 | []] s2]; simpl in *;
    congruence.
Qed.
End Determinism.

(** Without a seed the split does read the process-wide generator: the same
    table is split differently from different generator states. *)
Lemma unseeded_split_depends_on_global_rng :
  let X : DataFrame := [("a", 0)] in
  let w (g : Z) : World :=
    @Build_World Toy.sklearn [ColI64 [1; 2; 3; 4; 5]%Z] workout_fs 0 g [] in
  fst (train_test_split (sk := Toy.sklearn) X 0 0.2 None (w 0%Z)) <>
  fst (train_test_split (sk := Toy.sklearn) X 0 0.2 None (w 1%Z)) /\
  fst (train_test_split (sk := Toy.sklearn) X 0 0.2 (Some 42%Z) (w 0%Z)) =
  fst (train_test_split (sk := Toy.sklearn) X 0 0.2 (Some 42%Z) (w 1%Z)).
Proof.
  split; [vm_compute; discriminate | vm_compute; reflexivity].
Qed.

(** C4: for each task, two complete training runs over the same data file
    (from the same store and directories) return the same outcome: the same
    predictor, hence the same fitted scaler state and the same fitted
    estimator, and the same metrics (or the same exception).  The clock, the
    state of the process-wide random generator and the other files may
    differ between the runs: the split and the forest both draw from a
    generator built from the seed 42. *)
Theorem training_runs_are_deterministic {sk : Sklearn} {rt : Runtime sk}
        (data_path : string) (w1 w2 : World) :
  same_inputs data_path w1 w2 ->
  fst (train_workout_success_model data_path w1)
  = fst (train_workout_success_model data_path w2) /\
  fst (train_recovery_model data_path w1)
  = fst (train_recovery_model data_path w2) /\
  fst (train_progression_model data_path w1)
  = fst (train_progression_model data_path w2).
Proof.
  intros Hw. split; [| split]; revert w1 w2 Hw.
  - change (same_result data_path (train_workout_success_model data_path)).
    unfold train_workout_success_model, load_data_from_csv.
    apply same_result_bind; [apply oblivious_print | intros _].
    apply same_result_bind; [apply oblivious_read_csv | intros df].
    cbv zeta.
    apply same_result_bind;
      [apply (oblivious_workout_train _ _ _ 42%Z); reflexivity | intros [metrics p]].
    apply same_result_then_ret, same_result_workout_save.
  - change (same_result data_path (train_recovery_model data_path)).
    unfold train_recovery_model, load_data_from_csv.
    apply same_result_bind; [apply oblivious_print | intros _].
    apply same_result_bind; [apply oblivious_read_csv | intros df].
    cbv zeta.
    apply same_result_bind;
      [apply (oblivious_recovery_train _ _ _ 42%Z); reflexivity | intros [metrics p]].
    apply same_result_then_ret, same_result_recovery_save.
  - change (same_result data_path (train_progression_model data_path)).
    unfold train_progression_model, load_data_from_csv.
    apply same_result_bind; [apply oblivious_print | intros _].
    apply same_result_bind; [apply oblivious_read_csv | intros df].
    cbv zeta.
    apply same_result_bind;
      [apply (oblivious_progression_train _ _ _ 42%Z); reflexivity | intros [metrics p]].
    apply same_result_then_ret, same_result_progression_save.
Qed.

Lemma training_runs_are_deterministic_witness :
  same_inputs "workouts.csv" (Toy.world0 workout_fs) later_world /\
  fst (train_workout_success_model (rt := Toy.runtime) "workouts.csv"
                                   (Toy.world0 workout_fs))
  = fst (train_workout_success_model (rt := Toy.runtime) "workouts.csv" later_world).
Proof.
  split; [repeat split |].
  apply (training_runs_are_deterministic
           (rt := Toy.runtime) "workouts.csv" (Toy.world0 workout_fs) later_world).
  repeat split.
Defined.

(** ** Saving the artifact (C5) *)

Lemma fs_read_write_same path content l :
  fs_read path (fs_write path content l) = Some content.
Proof.
  unfold fs_read. induction l as [| [p c] l IH]; simpl.
  - now rewrite String.eqb_refl.
  - destruct (String.eqb p path) eqn:E; simpl; rewrite E; auto.
Qed.

Lemma last_cons_default {A : Type} (x : A) l d d' :
  last (x :: l) d = last (x :: l) d'.
Proof.
  revert x. induction l as [| y t IH]; intros x; [reflexivity |].
  change (last (y :: t) d = last (y :: t) d'). apply IH.
Qed.

Lemma fs_observable_head ops f : exists tl, fs_observable ops f = f :: tl.
Proof. destruct ops; simpl; eauto. Qed.

Lemma run_fs_ops_observable {sk : Sklearn} (ops : list FsOp) (w : World) :
  fs (snd (run_fs_ops ops w)) = last (fs_observable ops (fs w)) (fs w).
Proof.
  revert w. induction ops as [| op rest IH]; intros w; [reflexivity |].
  simpl run_fs_ops. unfold bind, fs_do. cbn [fs_observable].
  destruct (fs_step op (fs w)) as [e | f'] eqn:E; [reflexivity |].
  rewrite IH. simpl fs.
  destruct (fs_observable_head rest f') as [tl ->].
  change (last (f' :: tl) f' = last (f' :: tl) (fs w)).
  apply last_cons_default.
Qed.

Lemma appends_complete path chunks :
  forall f old,
    fs_read path (files f) = Some old ->
    fs_read path (files (last (fs_observable (map (Append path) chunks) f) f))
    = Some (old ++ concat chunks).
Proof.
  induction chunks as [| c t IH]; intros f old H; simpl.
  - now rewrite app_nil_r.
  - rewrite H.
    set (f' := {| dirs := dirs f; files := fs_write path (old ++ c) (files f) |}).
    assert (H' : fs_read path (files f') = Some (old ++ c))
      by apply fs_read_write_same.
    specialize (IH f' (old ++ c) H'). rewrite <- app_assoc in IH.
    fold f'. destruct (fs_observable_head (map (Append path) t) f') as [tl E].
    rewrite E in *.
    change (fs_read path (files (last (f' :: tl) f)) = Some (old ++ c ++ concat t)).
    rewrite (last_cons_default f' tl f f'). exact IH.
Qed.

(** What [joblib.dump] does to the file system. *)
Lemma joblib_dump_in_place {sk : Sklearn} {rt : Runtime sk} (value : Dict)
      (path : string) (w : World) :
  fs (snd (joblib_dump value path w))
  = last (fs_observable (dump_ops value path) (fs w)) (fs w) /\
  Forall (targets path) (dump_ops value path) /\
  (parent_exists path (fs w) = true ->
   fst (joblib_dump value path w) = inr tt /\
   In {| dirs := dirs (fs w); files := fs_write path [] (files (fs w)) |}
      (fs_observable (dump_ops value path) (fs w)) /\
   fs_read path (files (fs (snd (joblib_dump value path w))))
   = Some (concat (joblib_pickle value))).
Proof.
  split; [apply run_fs_ops_observable | split].
  - unfold dump_ops. constructor; [reflexivity |].
    apply Forall_forall. intros op H. apply in_map_iff in H as (c & <- & _).
    reflexivity.
  - intros Hp. split; [| split].
    + rewrite joblib_dump_result, Hp. reflexivity.
    + unfold dump_ops. cbn [fs_observable fs_step]. rewrite Hp.
      right. destruct (map (Append path) (joblib_pickle value)); left; reflexivity.
    + unfold joblib_dump. rewrite run_fs_ops_observable.
      unfold dump_ops. cbn [fs_observable fs_step]. rewrite Hp.
      set (f' := {| dirs := dirs (fs w); files := fs_write path [] (files (fs w)) |}).
      pose proof (appends_complete path (joblib_pickle value) f' []
                    (fs_read_write_same _ _ _)) as H.
      simpl app in H.
      destruct (fs_observable_head (map (Append path) (joblib_pickle value)) f')
        as [tl E].
      rewrite E in *.
      change (fs_read path (files (last (f' :: tl) (fs w)))
              = Some (concat (joblib_pickle value))).
      rewrite (last_cons_default f' tl (fs w) f'). exact H.
Qed.

(** The body shared by the three [save] methods: read the clock, dump the
    bundle stamped with it, report. *)
Lemma timestamped_dump_in_place {sk : Sklearn} {rt : Runtime sk} (mk : Z -> Dict)
      (path line : string) (w : World) :
  let m := (now <- datetime_now ;; joblib_dump (mk now) path ;;; print line) in
  let value := mk (clock w) in
  fs (snd (m w)) = last (fs_observable (dump_ops value path) (fs w)) (fs w) /\
  Forall (targets path) (dump_ops value path) /\
  (parent_exists path (fs w) = true ->
   fst (m w) = inr tt /\
   In {| dirs := dirs (fs w); files := fs_write path [] (files (fs w)) |}
      (fs_observable (dump_ops value path) (fs w)) /\
   fs_read path (files (fs (snd (m w)))) = Some (concat (joblib_pickle value))).
Proof.
  intros m value. subst m.
  destruct (joblib_dump_in_place value path w) as (H1 & H2 & H3).
  assert (K : fs (snd ((joblib_dump value path ;;; print line) w))
              = fs (snd (joblib_dump value path w))).
  { unfold bind. destruct (joblib_dump value path w) as [[e | []] w']; reflexivity. }
  change ((now <- datetime_now ;; joblib_dump (mk now) path ;;; print line) w)
    with ((joblib_dump value path ;;; print line) w).
  rewrite K. split; [exact H1 |]. split; [exact H2 |].
  intros Hp. destruct (H3 Hp) as (_ & H4 & H5).
  split; [| split; [exact H4 | exact H5]].
  rewrite dump_then_print_result, Hp. reflexivity.
Qed.

(** C5, as stated, fails: while [save] runs, a reader of the destination can
    see an artifact cut off after its first chunk, which is neither the old
    artifact nor the new one. *)
Lemma save_exposes_partial_artifact :
  let self := WorkoutSuccessPredictor.__init__ (sk := Toy.sklearn) in
  let path := WorkoutSuccessPredictor.default_path in
  let value := WorkoutSuccessPredictor.bundle (rt := Toy.runtime) self 0 in
  ~ atomic_write (dump_ops (rt := Toy.runtime) value path) path
      (concat (joblib_pickle (Runtime := Toy.runtime) value)) fs_with_old_artifact.
Proof.
  intros self path value H.
  specialize (H {| dirs := ["models"];
                   files := [(path, list_byte_of_string "model=estimator;")] |}).
  destruct H as [H | H].
  - vm_compute. tauto.
  - vm_compute in H. discriminate.
  - vm_compute in H. discriminate.
Qed.

(** Writing to a temporary file and renaming it onto the destination would
    be atomic in this model: [save] does not do it. *)
Lemma write_then_rename_is_atomic :
  let self := WorkoutSuccessPredictor.__init__ (sk := Toy.sklearn) in
  let path := WorkoutSuccessPredictor.default_path in
  let tmp := (path ++ ".tmp")%string in
  let value := WorkoutSuccessPredictor.bundle (rt := Toy.runtime) self 0 in
  atomic_write (dump_ops (rt := Toy.runtime) value tmp ++ [Rename tmp path]) path
               (concat (joblib_pickle (Runtime := Toy.runtime) value))
               fs_with_old_artifact.
Proof.
  intros self path tmp value f' H. vm_compute in H.
  repeat (destruct H as [<- | H]; [vm_compute; auto |]). destruct H.
Qed.

(** C5 (amended): every [save] hands its bundle to one [joblib.dump] on the
    destination path itself: all file operations target that path, none is a
    rename, and the file system it leaves is the last state of those
    operations.  When the directory of the destination exists, [save]
    returns, the destination then holds the complete serialized bundle, and
    on the way the destination is observable as an empty, truncated file.
    No atomicity is provided. *)
Theorem save_writes_destination_in_place {sk : Sklearn} {rt : Runtime sk}
        (path : string) (w : World) :
  (forall self,
      let value := WorkoutSuccessPredictor.bundle self (clock w) in
      fs (snd (WorkoutSuccessPredictor.save self path w))
      = last (fs_observable (dump_ops value path) (fs w)) (fs w) /\
      Forall (targets path) (dump_ops value path) /\
      (parent_exists path (fs w) = true ->
       fst (WorkoutSuccessPredictor.save self path w) = inr tt /\
       In {| dirs := dirs (fs w); files := fs_write path [] (files (fs w)) |}
          (fs_observable (dump_ops value path) (fs w)) /\
       fs_read path (files (fs (snd (WorkoutSuccessPredictor.save self path w))))
       = Some (concat (joblib_pickle value)))) /\
  (forall self,
      let value := RecoveryTimePredictor.bundle self (clock w) in
      fs (snd (RecoveryTimePredictor.save self path w))
      = last (fs_observable (dump_ops value path) (fs w)) (fs w) /\
      Forall (targets path) (dump_ops value path) /\
      (parent_exists path (fs w) = true ->
       fst (RecoveryTimePredictor.save self path w) = inr tt /\
       In {| dirs := dirs (fs w); files := fs_write path [] (files (fs w)) |}
          (fs_observable (dump_ops value path) (fs w)) /\
       fs_read path (files (fs (snd (RecoveryTimePredictor.save self path w))))
       = Some (concat (joblib_pickle value)))) /\
  (forall self,
      let value := WeightProgressionPredictor.bundle self (clock w) in
      fs (snd (WeightProgressionPredictor.save self path w))
      = last (fs_observable (dump_ops value path) (fs w)) (fs w) /\
      Forall (targets path) (dump_ops value path) /\
      (parent_exists path (fs w) = true ->
       fst (WeightProgressionPredictor.save self path w) = inr tt /\
       In {| dirs := dirs (fs w); files := fs_write path [] (files (fs w)) |}
          (fs_observable (dump_ops value path) (fs w)) /\
       fs_read path (files (fs (snd (WeightProgressionPredictor.save self path w))))
       = Some (concat (joblib_pickle value)))).
Proof.
  split; [| split]; intros self value.
  - exact (timestamped_dump_in_place (WorkoutSuccessPredictor.bundle self) path _ w).
  - exact (timestamped_dump_in_place (RecoveryTimePredictor.bundle self) path _ w).
  - exact (timestamped_dump_in_place (WeightProgressionPredictor.bundle self) path _ w).
Qed.

Lemma save_writes_destination_in_place_witness :
  let self := WorkoutSuccessPredictor.__init__ (sk := Toy.sklearn) in
  let path := WorkoutSuccessPredictor.default_path in
  parent_exists path (fs world_with_old_artifact) = true /\
  fs_read path
          (files (fs (snd (WorkoutSuccessPredictor.save
                             (rt := Toy.runtime) self path world_with_old_artifact))))
  = Some (concat (joblib_pickle
                    (Runtime := Toy.runtime)
                    (WorkoutSuccessPredictor.bundle
                       (rt := Toy.runtime) self (clock world_with_old_artifact)))).
Proof.
  intros self path.
  assert (Hp : parent_exists path (fs world_with_old_artifact) = true)
    by (vm_compute; reflexivity).
  split; [exact Hp |].
  pose proof (proj1 (save_writes_destination_in_place
                       (rt := Toy.runtime) path world_with_old_artifact) self) as T.
  cbv zeta in T. destruct T as (_ & _ & T). exact (proj2 (proj2 (T Hp))).
Defined.

(** ** A failing task in an "all" run (C6) *)

Lemma bind_print {sk : Sklearn} {B : Type} line (k : unit -> M World B) w :
  bind (print line) k w = k tt (snd (print line w)).
Proof. reflexivity. Qed.

Lemma then_ret_inl {S A : Type} (m : M S A) s e s' :
  m s = (inl e, s') -> (m ;;; ret tt) s = (inl e, s').
Proof. apply bind_inl. Qed.

Lemma then_ret_inr {S A : Type} (m : M S A) s a s' :
  m s = (inr a, s') -> (m ;;; ret tt) s = (inr tt, s').
Proof. intros H. unfold bind. rewrite H. reflexivity. Qed.

(** C6, as stated, fails: on a workout log (which has no "muscle_group"
    column) an "all" run trains and saves the first model, raises [KeyError]
    in the second task, and ends there; the third task is never started. *)
Lemma failing_task_ends_the_all_run :
  let r := main (rt := Toy.runtime) (all_args "workouts.csv") (Toy.world0 workout_fs) in
  fst r = inl (KeyError ["muscle_group"]) /\
  In (nl ++ "🤖 Training Recovery Time Predictor...")%string (stdout (snd r)) /\
  ~ In (nl ++ "🤖 Training Weight Progression Predictor...")%string (stdout (snd r)).
Proof.
  vm_compute. split; [reflexivity |]. split.
  - tauto.
  - intros H. repeat (destruct H as [H | H]; [discriminate H |]). exact H.
Qed.

(** C6 (amended): an "all" run executes the three tasks in the order workout
    success, recovery time, weight progression; the first exception one of
    them raises leaves [main] as it is, in the world where it was raised, so
    the tasks after it are not attempted (the interpreter then reports the
    exception and exits with a non-zero status).  When no task raises, all
    three have run and [main] returns. *)
Theorem main_all_stops_at_first_failure {sk : Sklearn} {rt : Runtime sk}
        (data : string) (w : World) :
  let w0 := snd (print (repeat_string "=" 60)
                   (snd (print "FitTrack ML Model Training Pipeline"
                           (snd (print (nl ++ repeat_string "=" 60) w))))) in
  (forall e w1,
      train_workout_success_model data w0 = (inl e, w1) ->
      main (all_args data) w = (inl e, w1)) /\
  (forall r1 w1 e w2,
      train_workout_success_model data w0 = (inr r1, w1) ->
      train_recovery_model data w1 = (inl e, w2) ->
      main (all_args data) w = (inl e, w2)) /\
  (forall r1 w1 r2 w2 e w3,
      train_workout_success_model data w0 = (inr r1, w1) ->
      train_recovery_model data w1 = (inr r2, w2) ->
      train_progression_model data w2 = (inl e, w3) ->
      main (all_args data) w = (inl e, w3)) /\
  (forall r1 w1 r2 w2 r3 w3,
      train_workout_success_model data w0 = (inr r1, w1) ->
      train_recovery_model data w1 = (inr r2, w2) ->
      train_progression_model data w2 = (inr r3, w3) ->
      main (all_args data) w
      = (inr tt,
         snd (print (repeat_string "=" 60 ++ nl)
                (snd (print "✅ Training Complete!"
                        (snd (print (nl ++ repeat_string "=" 60) w3))))))).
Proof.
  intros w0. unfold main, all_args. cbn [args_model args_data choice_eqb orb].
  rewrite bind_print; cbv beta. rewrite bind_print; cbv beta.
  rewrite bind_print; cbv beta. fold w0.
  split; [| split; [| split]].
  - intros e w1 H1. apply bind_inl, then_ret_inl, H1.
  - intros r1 w1 e w2 H1 H2.
    rewrite (bind_step _ _ _ _ _ (then_ret_inr _ _ _ _ H1)).
    apply bind_inl, then_ret_inl, H2.
  - intros r1 w1 r2 w2 e w3 H1 H2 H3.
    rewrite (bind_step _ _ _ _ _ (then_ret_inr _ _ _ _ H1)).
    rewrite (bind_step _ _ _ _ _ (then_ret_inr _ _ _ _ H2)).
    apply bind_inl, then_ret_inl, H3.
  - intros r1 w1 r2 w2 r3 w3 H1 H2 H3.
    rewrite (bind_step _ _ _ _ _ (then_ret_inr _ _ _ _ H1)).
    rewrite (bind_step _ _ _ _ _ (then_ret_inr _ _ _ _ H2)).
    rewrite (bind_step _ _ _ _ _ (then_ret_inr _ _ _ _ H3)).
    reflexivity.
Qed.

Lemma run_pairing {S A : Type} (r : Result A * S) (a : Result A) :
  fst r = a -> r = (a, snd r).
Proof. destruct r. simpl. intros ->. reflexivity. Qed.

Lemma raised_inl {S A : Type} (r : Result A * S) e :
  raised (fst r) = Some e -> r = (inl e, snd r).
Proof. destruct r as [[e' | a] s]; simpl; intros H; inversion H; reflexivity. Qed.

Lemma returned_inr {A : Type} (r : Result A) a :
  returned r = Some a -> r = inr a.
Proof. destruct r as [e | a']; simpl; intros H; inversion H; reflexivity. Qed.

Lemma succeeded_inr {S A : Type} (r : Result A * S) :
  succeeded (fst r) = true -> exists a, r = (inr a, snd r).
Proof. destruct r as [[e | a] s]; simpl; [discriminate | eauto]. Qed.

Lemma main_all_stops_at_first_failure_witness :
  fst (main (rt := Toy.runtime) (all_args "workouts.csv") (Toy.world0 workout_fs))
  = inl (KeyError ["muscle_group"]).
Proof.
  pose proof (main_all_stops_at_first_failure
                (rt := Toy.runtime) "workouts.csv" (Toy.world0 workout_fs)) as T.
  cbv zeta in T. destruct T as (_ & T & _).
  match type of T with
  | forall r1 w1 e w2, ?t1 = _ -> _ =>
      assert (F1 : succeeded (fst t1) = true) by (vm_compute; reflexivity);
      assert (F2 : raised (fst (train_recovery_model (rt := Toy.runtime)
                                                     "workouts.csv" (snd t1)))
                   = Some (KeyError ["muscle_group"])) by (vm_compute; reflexivity)
  end.
  destruct (succeeded_inr _ F1) as [r1 E1].
  exact (f_equal fst (T r1 _ _ _ E1 (raised_inl _ _ F2))).
Defined.

(** ** Training the recovery predictor *)

Ltac inv_bind H :=
  repeat match type of H with
         | bind _ _ _ = (inr _, _) =>
             let a := fresh "a" in
             let s := fresh "s" in
             let E := fresh "E" in
             apply bind_inr in H as (a & s & E & H); cbv beta zeta in H
         | (match ?x with pair _ _ => _ end) _ = _ => destruct x
         end.

Lemma lift_heap_inr {sk : Sklearn} {A : Type} (m : M Heap A) (w : World) a w' :
  lift_heap m w = (inr a, w') ->
  exists h', m (heap w) = (inr a, h') /\ w' = set_heap h' w.
Proof.
  unfold lift_heap. destruct (m (heap w)) as [r h']. intros E. inversion E; subst.
  exists h'. auto.
Qed.

Lemma mapM_length {S A B : Type} (f : A -> M S B) l s bs s' :
  mapM f l s = (inr bs, s') -> length bs = length l.
Proof.
  revert s bs s'. induction l as [| a t IH]; intros s bs s' E; simpl in E.
  - apply ret_inr in E as [<- _]. reflexivity.
  - apply bind_inr in E as (b & s1 & _ & E). apply bind_inr in E as (bs' & s2 & E2 & E).
    apply ret_inr in E as [<- _]. simpl. f_equal. eapply IH. exact E2.
Qed.

(** Every row of the matrix of a frame has one entry per column. *)
Lemma to_matrix_width X h Xm h' :
  to_matrix X h = (inr Xm, h') -> Forall (fun row => length row = length X) Xm.
Proof.
  unfold to_matrix. intros E. apply bind_inr in E as (cols & h1 & E1 & E).
  apply ret_inr in E as [<- _]. apply mapM_length in E1.
  unfold rows_of. apply Forall_forall. intros row H.
  apply in_map_iff in H as (i & <- & _). unfold row_at. rewrite length_map. exact E1.
Qed.

Lemma take_rows_In {A : Type} (l : list A) idx r :
  take_rows l idx = inr r -> Forall (fun a => In a l) r.
Proof.
  revert r. induction idx as [| i t IH]; intros r E; simpl in E.
  - inversion E. constructor.
  - destruct (nth_error l i) as [a |] eqn:N; [| discriminate].
    destruct (take_rows l t) as [e | t']; [discriminate |].
    inversion E; subst. constructor; [eapply nth_error_In; exact N | apply IH; reflexivity].
Qed.

Lemma train_test_split_width {sk : Sklearn} X y test_size seed (w : World)
      X_train X_test y_train y_test w' :
  train_test_split X y test_size seed w = (inr (X_train, X_test, y_train, y_test), w') ->
  Forall (fun row => length row = length X) X_train /\
  Forall (fun row => length row = length X) X_test.
Proof.
  unfold train_test_split. intros E.
  apply bind_inr in E as (Xm & w1 & E1 & E).
  apply bind_inr in E as (yv & w2 & E2 & E).
  destruct (length Xm =? length yv)%nat; [| discriminate].
  apply bind_inr in E as ([tr te] & w3 & E3 & E).
  apply bind_inr in E as (Xtr & w4 & E4 & E).
  apply bind_inr in E as (Xte & w5 & E5 & E).
  apply bind_inr in E as (ytr & w6 & E6 & E).
  apply bind_inr in E as (yte & w7 & E7 & E).
  apply ret_inr in E as [E _]. inversion E; subst.
  apply lift_heap_inr in E1 as (h1 & E1 & _). apply to_matrix_width in E1.
  apply lift_result_inr in E4 as [E4 _]. apply lift_result_inr in E5 as [E5 _].
  apply take_rows_In in E4, E5. rewrite Forall_forall in E1, E4, E5.
  split; apply Forall_forall; intros row H; apply E1; [apply E4 | apply E5]; exact H.
Qed.

Section RecoveryTrain.
Context {sk : Sklearn} {rt : Runtime sk}.

(** What a successful [train] of the recovery predictor leaves in the
    object: the schema fields as they were, and a scaler fitted on a matrix
    with one column per numeric feature and one per muscle group present in
    the data. *)
Lemma recovery_train_spec self df (w : World) metrics self' w' :
  RecoveryTimePredictor.train self df w = (inr (metrics, self'), w') ->
  RecoveryTimePredictor.feature_names self' = RecoveryTimePredictor.feature_names self /\
  RecoveryTimePredictor.muscle_groups self' = RecoveryTimePredictor.muscle_groups self /\
  exists lm ss X_train st,
    df_lookup "muscle_group" df = Some lm /\
    nth_error (heap w) lm = Some (ColObj ss) /\
    scaler_fit X_train = inr st /\
    RecoveryTimePredictor.scaler self' = Some st /\
    Forall (fun row =>
              length row = length (RecoveryTimePredictor.feature_names self)
                           + length (categories ss)) X_train.
Proof.
  unfold RecoveryTimePredictor.train. intros E.
  apply bind_inr in E as ([X y] & w1 & E1 & E).
  apply bind_inr in E as ([[[X_train X_test] y_train] y_test] & w2 & E2 & E).
  apply bind_inr in E as ([X_train_scaled fitted_scaler] & w3 & E3 & E).
  cbv zeta in E. inv_bind E. apply ret_inr in E as [E _].
  inversion E; subst; clear E. cbn.
  split; [reflexivity |]. split; [reflexivity |].
  apply lift_heap_inr in E1 as (h1 & E1 & ->).
  apply recovery_prepare_data_spec in E1 as ((lm & ss & Lm & Hss & Hlab) & _).
  apply train_test_split_width in E2 as [Wtr _].
  unfold fit_transform in E3.
  apply bind_inr in E3 as (st & w4 & F1 & E3).
  apply bind_inr in E3 as (Xs & w5 & F2 & E3).
  apply ret_inr in E3 as [E3 _]. inversion E3; subst; clear E3.
  apply lift_result_inr in F1 as [F1 _].
  exists lm, ss, X_train, st. repeat split; try assumption.
  eapply Forall_impl; [| exact Wtr]. intros row ->.
  rewrite <- (length_map fst X), Hlab, length_app, length_map. reflexivity.
Qed.
End RecoveryTrain.

Lemma recovery_fields_inj {sk : Sklearn} (p q : RecoveryTimePredictor.t) :
  recovery_fields p = recovery_fields q -> p = q.
Proof.
  destruct p as [[pp pf] ps pn pm], q as [[qp qf] qs qn qm].
  unfold recovery_fields. simpl. intros H. inversion H. reflexivity.
Qed.

Lemma recovery_training_example :
  fst (RecoveryTimePredictor.train (rt := Toy.runtime) RecoveryTimePredictor.__init__
                                   recovery_frame recovery_world)
  = inr (recovery_metrics, trained_recovery_predictor).
Proof.
  apply returned_inr.
  assert (F : option_map (fun ms : Metrics * RecoveryTimePredictor.t =>
                            (fst ms, recovery_fields (snd ms)))
                         (returned (fst (RecoveryTimePredictor.train
                                           (rt := Toy.runtime)
                                           RecoveryTimePredictor.__init__
                                           recovery_frame recovery_world)))
              = Some (recovery_metrics, recovery_fields trained_recovery_predictor))
    by (vm_compute; reflexivity).
  revert F.
  generalize (returned (fst (RecoveryTimePredictor.train
                               (rt := Toy.runtime) RecoveryTimePredictor.__init__
                               recovery_frame recovery_world))).
  intros [[m p] |] F; simpl in F; [| discriminate].
  assert (Hm : m = recovery_metrics)
    by (pose proof (f_equal (option_map fst) F) as H; simpl in H; congruence).
  assert (Hp : recovery_fields p = recovery_fields trained_recovery_predictor)
    by (pose proof (f_equal (option_map snd) F) as H; simpl in H; congruence).
  apply recovery_fields_inj in Hp. subst. reflexivity.
Qed.

(** ** Unseen muscle groups at inference (C7) *)

(** C7, as stated, fails: the only encoder of muscle groups,
    [prepare_data], turns a session on the unseen group "arms" into the
    column "muscle_arms" holding 1, not into zeros for the trained columns;
    the resulting vector has five entries where the fitted scaler expects
    six, and [predict] raises [ValueError]. *)
Lemma unseen_muscle_group_is_encoded_and_raises :
  exists X y h' row,
    RecoveryTimePredictor.prepare_data trained_recovery_predictor
                                       recovery_frame arms_session_heap
    = (inr (X, y), h') /\
    map fst X = ["workout_volume"; "workout_intensity"; "sleep_quality";
                 "nutrition_quality"; "muscle_arms"] /\
    to_matrix X h' = (inr [row], h') /\
    row = [100; 7; 3; 4; 1]%float /\
    RecoveryTimePredictor.predict trained_recovery_predictor row tt
    = (inl ValueError, tt).
Proof.
  eexists _, _, _, _. repeat split; vm_compute; reflexivity.
Qed.

(** C7 (amended): [predict] of the recovery task performs no encoding of
    muscle groups: it scales the numeric vector it is given and feeds it to
    the estimator.  Whenever the fitted scaler and estimator accept the
    vector, whatever its indicator entries (all zero included), the
    prediction is returned with [recovery_hours = recovery_days * 24]; an
    error raised by either, as for a vector of another width, is raised by
    [predict]. *)
Theorem recovery_predict_uses_vector_as_given {sk : Sklearn} {rt : Runtime sk}
        {S : Type} (s : S) (self : RecoveryTimePredictor.t)
        (features : list float) st f :
  RecoveryTimePredictor.scaler self = Some st ->
  fitted (RecoveryTimePredictor.model self) = Some f ->
  (forall Xs pred days,
      scaler_transform st [features] = inr Xs ->
      regressor_predict f Xs = inr pred ->
      nth_error pred 0 = Some days ->
      RecoveryTimePredictor.predict self features s
      = (inr {| RecoveryTimePredictor.recovery_days := days;
                RecoveryTimePredictor.recovery_hours := (days * 24)%float |}, s)) /\
  (forall e,
      scaler_transform st [features] = inl e ->
      RecoveryTimePredictor.predict self features s = (inl e, s)) /\
  (forall Xs e,
      scaler_transform st [features] = inr Xs ->
      regressor_predict f Xs = inl e ->
      RecoveryTimePredictor.predict self features s = (inl e, s)).
Proof.
  intros Hs Hf.
  unfold RecoveryTimePredictor.predict, transform, predict_values, index.
  rewrite Hs, Hf. unfold bind, lift_result, ret.
  split; [| split].
  - intros Xs pred days -> -> ->. reflexivity.
  - intros e ->. reflexivity.
  - intros Xs e -> ->. reflexivity.
Qed.

Lemma recovery_predict_uses_vector_as_given_witness :
  RecoveryTimePredictor.predict trained_recovery_predictor
                                [100; 7; 3; 4; 0; 0]%float tt
  = (inr {| RecoveryTimePredictor.recovery_days := 2;
            RecoveryTimePredictor.recovery_hours := 48 |}, tt) /\
  RecoveryTimePredictor.predict trained_recovery_predictor
                                [100; 7; 3; 4; 1]%float tt
  = (inl ValueError, tt).
Proof.
  split.
  - apply (proj1 (recovery_predict_uses_vector_as_given
                    (rt := Toy.runtime) tt trained_recovery_predictor
                    [100; 7; 3; 4; 0; 0]%float _ _ eq_refl eq_refl)
             [[-1 / 3; 0; -3; 1; -1; -1]%float] [2%float] 2%float);
      vm_compute; reflexivity.
  - apply (proj1 (proj2 (recovery_predict_uses_vector_as_given
                           (rt := Toy.runtime) tt trained_recovery_predictor
                           [100; 7; 3; 4; 1]%float _ _ eq_refl eq_refl))).
    vm_compute. reflexivity.
Defined.

(** ** The saved recovery artifact (C8, C10) *)

(** C8, as stated, fails: trained on a log whose muscle groups are "chest"
    and "legs", the predictor saves the six names it was constructed with. *)
Lemma saved_muscle_groups_are_not_those_of_the_data :
  fst (RecoveryTimePredictor.train (rt := Toy.runtime) RecoveryTimePredictor.__init__
                                   recovery_frame recovery_world)
  = inr (recovery_metrics, trained_recovery_predictor) /\
  (forall now,
      dict_get "muscle_groups"
               (RecoveryTimePredictor.bundle (rt := Toy.runtime)
                                             trained_recovery_predictor now)
      = Some (VStrList ["chest"; "back"; "shoulders"; "legs"; "arms"; "core"])) /\
  (exists l ss, df_lookup "muscle_group" recovery_frame = Some l /\
                nth_error (heap recovery_world) l = Some (ColObj ss) /\
                categories ss = ["chest"; "legs"]) /\
  ~ In "back" ["chest"; "legs"].
Proof.
  split; [exact recovery_training_example |].
  split; [intros now; reflexivity |]. split.
  - exists 4%nat, [Some "legs"; Some "chest"; Some "legs"].
    repeat split; vm_compute; reflexivity.
  - intros [H | [H | []]]; discriminate H.
Qed.

(** C8 (amended): the bundle a recovery predictor saves after training has
    the keys model, scaler, feature_names, muscle_groups and trained_at; it
    holds the fitted estimator and scaler, the time of saving, and under
    muscle_groups the fixed list chest, back, shoulders, legs, arms, core,
    whatever muscle groups the training data contains.  [save] writes that
    bundle to the destination. *)
Theorem recovery_artifact_holds_fixed_muscle_groups
        {sk : Sklearn} {rt : Runtime sk} df (w : World) metrics self w' path :
  RecoveryTimePredictor.train RecoveryTimePredictor.__init__ df w
  = (inr (metrics, self), w') ->
  let value := RecoveryTimePredictor.bundle self (clock w') in
  map fst value = ["model"; "scaler"; "feature_names"; "muscle_groups"; "trained_at"] /\
  dict_get "muscle_groups" value
  = Some (VStrList ["chest"; "back"; "shoulders"; "legs"; "arms"; "core"]) /\
  dict_get "model" value = Some (VRegressor (RecoveryTimePredictor.model self)) /\
  dict_get "scaler" value = Some (VScaler (RecoveryTimePredictor.scaler self)) /\
  dict_get "trained_at" value = Some (VStr (isoformat (clock w'))) /\
  fs (snd (RecoveryTimePredictor.save self path w'))
  = last (fs_observable (dump_ops value path) (fs w')) (fs w').
Proof.
  intros E value. apply recovery_train_spec in E as (_ & Hm & _).
  subst value.
  split; [reflexivity |]. split.
  { unfold RecoveryTimePredictor.bundle, dict_get.
    cbn [assoc String.eqb Ascii.eqb Bool.eqb]. rewrite Hm. reflexivity. }
  split; [reflexivity |]. split; [reflexivity |]. split; [reflexivity |].
  exact (proj1 (timestamped_dump_in_place (RecoveryTimePredictor.bundle self) path _ w')).
Qed.

Lemma recovery_artifact_muscle_groups_witness :
  fst (RecoveryTimePredictor.train (rt := Toy.runtime) RecoveryTimePredictor.__init__
                                   recovery_frame recovery_world)
  = inr (recovery_metrics, trained_recovery_predictor) /\
  dict_get "muscle_groups"
           (RecoveryTimePredictor.bundle
              (rt := Toy.runtime) trained_recovery_predictor
              (clock (snd (RecoveryTimePredictor.train
                             (rt := Toy.runtime) RecoveryTimePredictor.__init__
                             recovery_frame recovery_world))))
  = Some (VStrList ["chest"; "back"; "shoulders"; "legs"; "arms"; "core"]).
Proof.
  assert (E : fst (RecoveryTimePredictor.train
                     (rt := Toy.runtime) RecoveryTimePredictor.__init__
                     recovery_frame recovery_world)
              = inr (recovery_metrics, trained_recovery_predictor))
    by exact recovery_training_example.
  split; [exact E |].
  exact (proj1 (proj2 (recovery_artifact_holds_fixed_muscle_groups
                         (rt := Toy.runtime) recovery_frame recovery_world
                         recovery_metrics trained_recovery_predictor _
                         RecoveryTimePredictor.default_path (run_pairing _ _ E)))).
Defined.

(** C10: after any successful training run of the recovery task, the
    [feature_names] entry of the bundle is exactly the four numeric names,
    while the scaler in the same bundle was fitted on a matrix with those
    four columns plus one indicator column per muscle group present in the
    training data. *)
Theorem recovery_artifact_feature_names
        {sk : Sklearn} {rt : Runtime sk} df (w : World) metrics self w' :
  RecoveryTimePredictor.train RecoveryTimePredictor.__init__ df w
  = (inr (metrics, self), w') ->
  (forall now,
      dict_get "feature_names" (RecoveryTimePredictor.bundle self now)
      = Some (VStrList ["workout_volume"; "workout_intensity";
                        "sleep_quality"; "nutrition_quality"])) /\
  exists lm ss X_train st,
    df_lookup "muscle_group" df = Some lm /\
    nth_error (heap w) lm = Some (ColObj ss) /\
    scaler_fit X_train = inr st /\
    (forall now, dict_get "scaler" (RecoveryTimePredictor.bundle self now)
                 = Some (VScaler (Some st))) /\
    Forall (fun row => length row = 4 + length (categories ss)) X_train.
Proof.
  intros E. apply recovery_train_spec in E as (Hn & _ & lm & ss & Xt & st & H1 & H2 & H3 & H4 & H5).
  split.
  - intros now. unfold RecoveryTimePredictor.bundle, dict_get.
    cbn [assoc String.eqb Ascii.eqb Bool.eqb]. rewrite Hn. reflexivity.
  - exists lm, ss, Xt, st. repeat split; try assumption.
    intros now. unfold RecoveryTimePredictor.bundle, dict_get.
    cbn [assoc String.eqb Ascii.eqb Bool.eqb]. rewrite H4. reflexivity.
Qed.

Lemma recovery_artifact_feature_names_witness :
  fst (RecoveryTimePredictor.train (rt := Toy.runtime) RecoveryTimePredictor.__init__
                                   recovery_frame recovery_world)
  = inr (recovery_metrics, trained_recovery_predictor) /\
  forall now,
    dict_get "feature_names"
             (RecoveryTimePredictor.bundle (rt := Toy.runtime)
                                           trained_recovery_predictor now)
    = Some (VStrList ["workout_volume"; "workout_intensity";
                      "sleep_quality"; "nutrition_quality"]).
Proof.
  assert (E : fst (RecoveryTimePredictor.train
                     (rt := Toy.runtime) RecoveryTimePredictor.__init__
                     recovery_frame recovery_world)
              = inr (recovery_metrics, trained_recovery_predictor))
    by exact recovery_training_example.
  split; [exact E |].
  exact (proj1 (recovery_artifact_feature_names
                  (rt := Toy.runtime) recovery_frame recovery_world
                  recovery_metrics trained_recovery_predictor _ (run_pairing _ _ E))).
Defined.

(** ** Scaling the training matrix (C1) *)

Section Standardization.
Import ScalerSpec.
Local Open Scope R_scope.

Lemma total_scaled (m s : R) (l : list R) :
  total (map (fun x => (x - m) / s) l) = (total l - INR (length l) * m) / s.
Proof.
  induction l as [| x t IH].
  - simpl. unfold Rdiv. ring.
  - change (total (map (fun x => (x - m) / s) (x :: t)))
      with ((x - m) / s + total (map (fun x => (x - m) / s) t)).
    change (total (x :: t)) with (x + total t).
    rewrite IH, length_cons, S_INR. unfold Rdiv. ring.
Qed.

Lemma total_squares_scaled (m s : R) (l : list R) :
  total (map (fun y => (y - 0) * (y - 0)) (map (fun x => (x - m) / s) l))
  = total (map (fun x => (x - m) * (x - m)) l) * (/ s * / s).
Proof.
  induction l as [| x t IH].
  - simpl. ring.
  - simpl map. simpl total. simpl in IH. rewrite IH. unfold Rdiv. ring.
Qed.

Lemma total_squares_nonneg (m : R) (l : list R) :
  0 <= total (map (fun x => (x - m) * (x - m)) l).
Proof.
  induction l as [| x t IH]; simpl; [lra |].
  pose proof (Rle_0_sqr (x - m)) as H. unfold Rsqr in H. lra.
Qed.

Lemma total_squares_zero (m : R) (l : list R) :
  total (map (fun x => (x - m) * (x - m)) l) = 0 -> Forall (fun x => x = m) l.
Proof.
  induction l as [| x t IH]; simpl; intros H; [constructor |].
  pose proof (Rle_0_sqr (x - m)) as H1. unfold Rsqr in H1.
  pose proof (total_squares_nonneg m t) as H2.
  constructor.
  - assert (Hx : (x - m) * (x - m) = 0) by lra.
    apply Rmult_integral in Hx. lra.
  - apply IH. lra.
Qed.

Lemma INR_length_pos {A : Type} (l : list A) : l <> [] -> 0 < INR (length l).
Proof.
  destruct l as [| a t]; [congruence |]. intros _. rewrite length_cons.
  apply lt_0_INR. lia.
Qed.

Lemma variance_nonneg (l : list R) : l <> [] -> 0 <= variance l.
Proof.
  intros H. unfold variance, mean. rewrite length_map.
  apply Rmult_le_pos; [apply total_squares_nonneg |].
  apply Rlt_le, Rinv_0_lt_compat, INR_length_pos, H.
Qed.

(** A column standardized with its own mean and a non-zero scale. *)
Lemma mean_scaled (l : list R) (s : R) :
  l <> [] -> mean (map (fun x => (x - mean l) / s) l) = 0.
Proof.
  intros H. pose proof (INR_length_pos l H) as Hn.
  unfold mean at 1. rewrite total_scaled, length_map. unfold mean.
  unfold Rdiv. replace (total l - INR (length l) * (total l * / INR (length l))) with 0.
  - ring.
  - field. lra.
Qed.

Lemma variance_scaled (l : list R) (s : R) :
  l <> [] ->
  variance (map (fun x => (x - mean l) / s) l) = variance l * (/ s * / s).
Proof.
  intros H. unfold variance at 1. rewrite (mean_scaled l s H).
  unfold mean at 1. rewrite total_squares_scaled, !length_map.
  unfold variance.
  set (sq := map (fun x => (x - mean l) * (x - mean l)) l).
  unfold mean. subst sq. rewrite length_map. unfold Rdiv. ring.
Qed.

Lemma std_zero_constant (l : list R) :
  l <> [] -> std l = 0 -> Forall (fun x => x = mean l) l.
Proof.
  intros H Hs. pose proof (INR_length_pos l H) as Hn.
  apply total_squares_zero.
  assert (Hv : variance l = 0)
    by (apply sqrt_eq_0; [apply variance_nonneg, H | exact Hs]).
  unfold variance, mean at 1 in Hv. rewrite length_map in Hv.
  unfold Rdiv in Hv. apply Rmult_integral in Hv as [Hv | Hv]; [exact Hv |].
  pose proof (Rinv_0_lt_compat _ Hn). lra.
Qed.

Lemma constant_std_zero (l : list R) :
  l <> [] -> (forall x y, In x l -> In y l -> x = y) -> std l = 0.
Proof.
  intros H Hc. pose proof (INR_length_pos l H) as Hn.
  destruct l as [| a t]; [congruence |].
  assert (Ha : forall x, In x (a :: t) -> x = a) by (intros x Hx; apply Hc; simpl; auto).
  assert (Ht : forall l', (forall x, In x l' -> x = a) -> total l' = INR (length l') * a).
  { induction l' as [| b l' IH]; intros Hl; [simpl; ring |].
    change (total (b :: l')) with (b + total l').
    rewrite length_cons, S_INR.
    rewrite IH by (intros x Hx; apply Hl; right; exact Hx).
    rewrite (Hl b) by (left; reflexivity). ring. }
  assert (Hm : mean (a :: t) = a).
  { unfold mean. rewrite (Ht _ Ha). field. lra. }
  assert (Hz : forall l', (forall x, In x l' -> x = a) ->
                          total (map (fun x => (x - a) * (x - a)) l') = 0).
  { induction l' as [| b l' IH]; intros Hl; [reflexivity |].
    simpl. rewrite IH by (intros x Hx; apply Hl; right; exact Hx).
    rewrite (Hl b) by (left; reflexivity). ring. }
  unfold std, variance. rewrite Hm. unfold mean. rewrite (Hz _ Ha).
  unfold Rdiv. rewrite Rmult_0_l. apply sqrt_0.
Qed.

Lemma nth_map_seq (f : nat -> R) (n j : nat) :
  (j < n)%nat -> nth j (map f (seq 0 n)) 0 = f j.
Proof.
  intros H. rewrite (nth_indep (map f (seq 0 n)) 0 (f 0%nat)).
  - rewrite map_nth, seq_nth by exact H. reflexivity.
  - rewrite length_map, length_seq. exact H.
Qed.

(** Column [j] of the transformed training matrix is column [j] of the
    training matrix, standardized with its own mean and scale. *)
Lemma column_fit_transform (X : RMatrix) (j : nat) :
  rectangular X -> (j < width X)%nat ->
  column j (fit_transform X)
  = map (fun x => (x - mean (column j X)) / scale_of (column j X)) (column j X).
Proof.
  intros Hr Hj.
  set (F := fun x => (x - mean (column j X)) / scale_of (column j X)).
  unfold fit_transform, transform.
  change (map (fun row => nth j row 0) (map (transform_row (fit X)) X)
          = map F (map (fun row => nth j row 0) X)).
  rewrite !map_map. apply map_ext_in. intros row Hrow. unfold F.
  unfold rectangular in Hr. rewrite Forall_forall in Hr. specialize (Hr row Hrow).
  unfold transform_row, fit. cbn [mean_ scale_].
  set (g := fun xms : R * (R * R) => (fst xms - fst (snd xms)) / snd (snd xms)).
  assert (Hd : g (0, (0, 0)) = 0) by (unfold g; simpl; unfold Rdiv; ring).
  rewrite <- Hd at 1. rewrite map_nth.
  rewrite combine_nth
    by (rewrite length_combine, !length_map, length_seq, Hr, Nat.min_id; reflexivity).
  rewrite combine_nth by (rewrite !length_map; reflexivity).
  unfold g. cbn [fst snd].
  rewrite !nth_map_seq by exact Hj. reflexivity.
Qed.

(** C1: after the scaler is fitted on a non-empty training matrix and
    applied to it, every column of the result has mean 0; it has standard
    deviation 1 unless the column of the training matrix has standard
    deviation 0, which is the case of a constant column, and then the
    scale is taken as 1 and the column of the result is all zero.  Stated
    over the reals, of which the "approximately" of floating point is the
    rounding. *)
Theorem scaled_training_columns_are_standardized (X : RMatrix) (j : nat) :
  X <> [] -> rectangular X -> (j < width X)%nat ->
  mean (column j (fit_transform X)) = 0 /\
  (std (column j X) <> 0 -> std (column j (fit_transform X)) = 1) /\
  (std (column j X) = 0 -> Forall (fun x => x = 0) (column j (fit_transform X))) /\
  ((forall x y, In x (column j X) -> In y (column j X) -> x = y) ->
   std (column j X) = 0).
Proof.
  intros Hne Hr Hj. rewrite (column_fit_transform X j Hr Hj).
  assert (Hc : column j X <> []).
  { unfold column. destruct X; [congruence | discriminate]. }
  split; [apply mean_scaled, Hc |]. split; [| split].
  - intros Hs. unfold std at 1. rewrite (variance_scaled _ _ Hc).
    unfold scale_of. destruct (Req_dec_T (std (column j X)) 0) as [E | _]; [contradiction |].
    assert (Hv : std (column j X) * std (column j X) = variance (column j X))
      by (apply sqrt_sqrt, variance_nonneg, Hc).
    rewrite <- Hv.
    replace (std (column j X) * std (column j X)
             * (/ std (column j X) * / std (column j X))) with 1
      by (field; exact Hs).
    apply sqrt_1.
  - intros Hs. unfold scale_of.
    destruct (Req_dec_T (std (column j X)) 0) as [_ | N]; [| contradiction].
    pose proof (std_zero_constant _ Hc Hs) as Hall.
    apply Forall_forall. intros y Hy. apply in_map_iff in Hy as (x & <- & Hx).
    rewrite Forall_forall in Hall. rewrite (Hall x Hx). unfold Rdiv. ring.
  - apply constant_std_zero, Hc.
Qed.

Lemma scaled_training_columns_witness :
  let X : RMatrix := [[1; 10]; [3; 10]] in
  X <> [] /\ rectangular X /\ (0 < width X)%nat /\
  mean (column 0 (fit_transform X)) = 0.
Proof.
  intros X.
  assert (H1 : X <> []) by discriminate.
  assert (H2 : rectangular X) by (repeat constructor).
  assert (H3 : (0 < width X)%nat) by (simpl; lia).
  split; [exact H1 |]. split; [exact H2 |]. split; [exact H3 |].
  exact (proj1 (scaled_training_columns_are_standardized X 0 H1 H2 H3)).
Defined.
End Standardization.

(** * Further properties of the code *)

(** ** Prediction *)

(** X1: a predictor whose scaler has not been fitted, as every newly
    constructed one, raises [NotFittedError] from [predict] for every feature
    vector, and leaves the state it runs in untouched. *)
Theorem predict_before_training_raises_not_fitted {sk : Sklearn}
        {S : Type} (s : S) (features : list float) :
  (forall self, WorkoutSuccessPredictor.scaler self = None ->
                WorkoutSuccessPredictor.predict self features s = (inl NotFittedError, s)) /\
  (forall self, RecoveryTimePredictor.scaler self = None ->
                RecoveryTimePredictor.predict self features s = (inl NotFittedError, s)) /\
  (forall self, WeightProgressionPredictor.scaler self = None ->
                WeightProgressionPredictor.predict self features s = (inl NotFittedError, s)) /\
  WorkoutSuccessPredictor.predict WorkoutSuccessPredictor.__init__ features s
  = (inl NotFittedError, s) /\
  RecoveryTimePredictor.predict RecoveryTimePredictor.__init__ features s
  = (inl NotFittedError, s) /\
  WeightProgressionPredictor.predict WeightProgressionPredictor.__init__ features s
  = (inl NotFittedError, s).
Proof.
  assert (H1 : forall self, WorkoutSuccessPredictor.scaler self = None ->
                 WorkoutSuccessPredictor.predict self features s = (inl NotFittedError, s)).
  { intros self H. unfold WorkoutSuccessPredictor.predict, transform. rewrite H. reflexivity. }
  assert (H2 : forall self, RecoveryTimePredictor.scaler self = None ->
                 RecoveryTimePredictor.predict self features s = (inl NotFittedError, s)).
  { intros self H. unfold RecoveryTimePredictor.predict, transform. rewrite H. reflexivity. }
  assert (H3 : forall self, WeightProgressionPredictor.scaler self = None ->
                 WeightProgressionPredictor.predict self features s = (inl NotFittedError, s)).
  { intros self H. unfold WeightProgressionPredictor.predict, transform. rewrite H.
    reflexivity. }
  repeat split; auto.
Qed.

Lemma predict_before_training_witness :
  WeightProgressionPredictor.predict
    (sk := Toy.sklearn) WeightProgressionPredictor.__init__ [60; 8; 8; 4]%float tt
  = (inl NotFittedError, tt).
Proof.
  apply (proj1 (proj2 (proj2 (predict_before_training_raises_not_fitted
                                (sk := Toy.sklearn) tt [60; 8; 8; 4]%float)))).
  reflexivity.
Defined.

(** X2: [predict] of the progression task returns the estimator's output as
    the recommended increase and adds it to the first entry of the feature
    vector as given, the previous weight before scaling; errors of the scaler
    or of the estimator are raised by [predict]. *)
Theorem progression_predict_adds_increase_to_previous_weight
        {sk : Sklearn} {S : Type} (s : S)
        (self : WeightProgressionPredictor.t) (features : list float) st f :
  WeightProgressionPredictor.scaler self = Some st ->
  fitted (WeightProgressionPredictor.model self) = Some f ->
  (forall Xs pred increase previous,
      scaler_transform st [features] = inr Xs ->
      regressor_predict f Xs = inr pred ->
      nth_error pred 0 = Some increase ->
      nth_error features 0 = Some previous ->
      WeightProgressionPredictor.predict self features s
      = (inr {| WeightProgressionPredictor.recommended_increase := increase;
                WeightProgressionPredictor.new_weight := (previous + increase)%float |},
         s)) /\
  (forall e,
      scaler_transform st [features] = inl e ->
      WeightProgressionPredictor.predict self features s = (inl e, s)) /\
  (forall Xs e,
      scaler_transform st [features] = inr Xs ->
      regressor_predict f Xs = inl e ->
      WeightProgressionPredictor.predict self features s = (inl e, s)).
Proof.
  intros Hs Hf.
  unfold WeightProgressionPredictor.predict, transform, predict_values, index.
  rewrite Hs, Hf. unfold bind, lift_result, ret.
  split; [| split].
  - intros Xs pred increase previous -> -> -> ->. reflexivity.
  - intros e ->. reflexivity.
  - intros Xs e -> ->. reflexivity.
Qed.

Lemma progression_predict_witness :
  WeightProgressionPredictor.predict fitted_progression_predictor
                                     [60; 8; 8; 4]%float tt
  = (inr {| WeightProgressionPredictor.recommended_increase := 2.5;
            WeightProgressionPredictor.new_weight := 62.5 |}, tt).
Proof.
  apply (proj1 (progression_predict_adds_increase_to_previous_weight
                  (sk := Toy.sklearn) tt fitted_progression_predictor
                  [60; 8; 8; 4]%float _ _ eq_refl eq_refl)
           [[1; 0; 0; 1]%float] [2.5%float] 2.5%float 60%float);
    vm_compute; reflexivity.
Defined.

(** X3: when the fitted classifier knows a single class, so that its
    probability rows have one entry, [predict] of the workout task raises
    [IndexError]: it reads the entry at position 1. *)
Theorem workout_predict_single_class_raises_index_error
        {sk : Sklearn} {S : Type} (s : S)
        (self : WorkoutSuccessPredictor.t) (features : list float) st f Xs proba :
  WorkoutSuccessPredictor.scaler self = Some st ->
  scaler_transform st [features] = inr Xs ->
  fitted (WorkoutSuccessPredictor.model self) = Some f ->
  classifier_predict_proba f Xs = inr proba ->
  single_class_proba proba ->
  WorkoutSuccessPredictor.predict self features s = (inl IndexError, s).
Proof.
  intros Hs Ht Hf Hp (row & Hrow & Hlen).
  unfold WorkoutSuccessPredictor.predict, transform, predict_proba, index.
  rewrite Hs, Hf. unfold bind, lift_result, ret. rewrite Ht, Hp, Hrow.
  destruct (nth_error row 1) as [p |] eqn:N; [| reflexivity].
  assert (1 < length row) by (apply nth_error_Some; congruence). lia.
Qed.

Lemma workout_predict_single_class_witness :
  WorkoutSuccessPredictor.predict one_class_predictor [7; 3]%float tt
  = (inl IndexError, tt).
Proof.
  apply (workout_predict_single_class_raises_index_error
           (sk := one_class_sklearn) tt one_class_predictor [7; 3]%float
           ([0; 0]%float, [1; 1]%float) (1%float, 2) [[7; 3]%float] [[1%float]]);
    try (vm_compute; reflexivity).
  exists [1%float]. split; [reflexivity | simpl; lia].
Defined.

(** ** Missing columns *)

(** X4: a dataset that lacks a column [prepare_data] reads makes it raise
    [KeyError] before anything is allocated.  The workout task names the
    feature columns that are missing, in the order of [feature_names]; the
    recovery task reads "muscle_group" first and the progression task
    "successful" first, so their absence is reported whatever else is
    missing. *)
Theorem prepare_data_missing_column_raises_key_error {sk : Sklearn} {rt : Runtime sk}
        (df : DataFrame) (h : Heap) :
  (forall self,
      missing_labels (WorkoutSuccessPredictor.feature_names self) df <> [] ->
      WorkoutSuccessPredictor.prepare_data self df h
      = (inl (KeyError (missing_labels (WorkoutSuccessPredictor.feature_names self) df)),
         h)) /\
  (forall self,
      df_lookup "muscle_group" df = None ->
      RecoveryTimePredictor.prepare_data self df h
      = (inl (KeyError ["muscle_group"]), h)) /\
  (forall self,
      df_lookup "successful" df = None ->
      WeightProgressionPredictor.prepare_data self df h
      = (inl (KeyError ["successful"]), h)).
Proof.
  split; [| split]; intros self H.
  - unfold WorkoutSuccessPredictor.prepare_data, getitem_list.
    destruct (missing_labels (WorkoutSuccessPredictor.feature_names self) df) as [| m ms];
      [congruence | reflexivity].
  - unfold RecoveryTimePredictor.prepare_data, getitem_col. rewrite H. reflexivity.
  - unfold WeightProgressionPredictor.prepare_data, getitem_col. rewrite H. reflexivity.
Qed.

Lemma prepare_data_missing_column_witness :
  WorkoutSuccessPredictor.prepare_data
    (sk := Toy.sklearn) WorkoutSuccessPredictor.__init__ recovery_frame recovery_heap
  = (inl (KeyError ["sleep_hours"; "calories"; "protein"; "fatigue_score";
                    "days_since_rest"; "planned_volume"; "readiness_score";
                    "injury_risk_score"]), recovery_heap).
Proof.
  apply (proj1 (prepare_data_missing_column_raises_key_error
                  (rt := Toy.runtime) recovery_frame recovery_heap)
           WorkoutSuccessPredictor.__init__).
  vm_compute. discriminate.
Defined.

(** ** What training and saving touch *)

Section Effects.
Context {sk : Sklearn} {rt : Runtime sk}.

Lemma quiet_ret {A : Type} (a : A) : store_and_output_only (ret a).
Proof.
  intros w. simpl. repeat split; [apply extends_refl |].
  exists []. now rewrite app_nil_r.
Qed.

Lemma quiet_raise {A : Type} (e : Exn) : store_and_output_only (@raise World A e).
Proof.
  intros w. simpl. repeat split; [apply extends_refl |].
  exists []. now rewrite app_nil_r.
Qed.

Lemma quiet_lift_result {A : Type} (r : Result A) :
  store_and_output_only (@lift_result World A r).
Proof.
  intros w. simpl. repeat split; [apply extends_refl |].
  exists []. now rewrite app_nil_r.
Qed.

Lemma quiet_bind {A B : Type} (m : M World A) (k : A -> M World B) :
  store_and_output_only m -> (forall a, store_and_output_only (k a)) ->
  store_and_output_only (bind m k).
Proof.
  intros Hm Hk w. unfold bind. specialize (Hm w).
  destruct (m w) as [[e | a] w1]; simpl in *; [exact Hm |].
  destruct Hm as (F1 & C1 & G1 & X1 & l1 & O1).
  destruct (Hk a w1) as (F2 & C2 & G2 & X2 & l2 & O2).
  repeat split; try congruence.
  - eapply extends_trans; eassumption.
  - exists (l1 ++ l2). rewrite O2, O1, app_assoc. reflexivity.
Qed.

Lemma quiet_lift_heap {A : Type} (m : M Heap A) :
  grows m -> store_and_output_only (lift_heap m).
Proof.
  intros G w. unfold lift_heap. specialize (G (heap w)).
  destruct (m (heap w)) as [r h]. simpl in *. repeat split; [exact G |].
  exists []. now rewrite app_nil_r.
Qed.

Lemma quiet_print line : store_and_output_only (print line).
Proof.
  intros w. simpl. repeat split; [apply extends_refl |]. exists [line]. reflexivity.
Qed.

Lemma quiet_seeded {A : Type} (seed : Z) (draw : Rng -> Result A * Rng) :
  store_and_output_only (with_random_state (Some seed) draw).
Proof.
  intros w. simpl. repeat split; [apply extends_refl |].
  exists []. now rewrite app_nil_r.
Qed.

Lemma grows_to_matrix X : grows (to_matrix X).
Proof. unfold to_matrix. grows_tac. Qed.

Lemma grows_series_floats y : grows (series_floats y).
Proof. unfold series_floats. grows_tac. Qed.

Lemma quiet_read_csv path : store_and_output_only (read_csv path).
Proof.
  intros w. unfold read_csv.
  destruct (fs_read path (files (fs w))) as [bytes |]; [| apply quiet_raise].
  destruct (parse_csv bytes) as [e | cols]; [apply (quiet_raise e) |].
  apply quiet_lift_heap. grows_tac.
Qed.

Create HintDb quiet.
#[local] Hint Resolve quiet_ret quiet_raise quiet_lift_result quiet_print quiet_seeded
  quiet_read_csv : quiet.

Ltac quiet_step :=
  match goal with
  | |- store_and_output_only (bind _ _) => apply quiet_bind; [| intros ?]
  | |- store_and_output_only (lift_heap _) => apply quiet_lift_heap
  | |- store_and_output_only (match ?x with _ => _ end) => destruct x
  | |- store_and_output_only (if ?x then _ else _) => destruct x
  | |- store_and_output_only _ => solve [auto with quiet]
  end.

Ltac quiet_tac := cbv beta zeta; repeat (quiet_step; cbv beta zeta).

Lemma quiet_train_test_split X y test_size seed :
  store_and_output_only (train_test_split X y test_size (Some seed)).
Proof.
  unfold train_test_split. quiet_tac;
    [apply grows_to_matrix | apply grows_series_floats].
Qed.

Lemma quiet_fit_transform X : store_and_output_only (fit_transform X).
Proof. unfold fit_transform. quiet_tac. Qed.

Lemma quiet_transform scaler X : store_and_output_only (transform scaler X).
Proof. unfold transform. quiet_tac. Qed.

Lemma quiet_fit_classifier m X y seed :
  random_state (params m) = Some seed -> store_and_output_only (fit_classifier m X y).
Proof. intros H. unfold fit_classifier. rewrite H. quiet_tac. Qed.

Lemma quiet_fit_regressor m X y seed :
  random_state (params m) = Some seed -> store_and_output_only (fit_regressor m X y).
Proof. intros H. unfold fit_regressor. rewrite H. quiet_tac. Qed.

Lemma quiet_predict_classes m X : store_and_output_only (predict_classes m X).
Proof. unfold predict_classes. quiet_tac. Qed.

Lemma quiet_predict_values m X : store_and_output_only (predict_values m X).
Proof. unfold predict_values. quiet_tac. Qed.

Lemma quiet_feature_importances m : store_and_output_only (feature_importances_ m).
Proof. unfold feature_importances_. quiet_tac. Qed.

Lemma quiet_importance_frame names imps :
  store_and_output_only (importance_frame names imps).
Proof. unfold importance_frame. quiet_tac. Qed.

#[local] Hint Resolve quiet_train_test_split quiet_fit_transform quiet_transform
  quiet_predict_classes quiet_predict_values quiet_feature_importances
  quiet_importance_frame : quiet.

Lemma quiet_workout_train self df seed :
  random_state (params (WorkoutSuccessPredictor.model self)) = Some seed ->
  store_and_output_only (WorkoutSuccessPredictor.train self df).
Proof.
  intros H. unfold WorkoutSuccessPredictor.train. quiet_tac.
  - apply grows_workout_prepare_data.
  - eapply quiet_fit_classifier. exact H.
Qed.

Lemma quiet_recovery_train self df seed :
  random_state (params (RecoveryTimePredictor.model self)) = Some seed ->
  store_and_output_only (RecoveryTimePredictor.train self df).
Proof.
  intros H. unfold RecoveryTimePredictor.train. quiet_tac.
  - apply grows_recovery_prepare_data.
  - eapply quiet_fit_regressor. exact H.
Qed.

Lemma quiet_progression_train self df seed :
  random_state (params (WeightProgressionPredictor.model self)) = Some seed ->
  store_and_output_only (WeightProgressionPredictor.train self df).
Proof.
  intros H. unfold WeightProgressionPredictor.train. quiet_tac.
  - apply grows_progression_prepare_data.
  - eapply quiet_fit_regressor. exact H.
Qed.
End Effects.

(** X5: loading the data and training touch nothing but the store and the
    output: whether [train] returns or raises, the file system, the clock
    and numpy's process-wide generator are as before, every buffer that
    existed is still there, and what had been printed is still there.  The
    forest must have been constructed with a seed, as every constructor
    does. *)
Theorem training_touches_only_store_and_output {sk : Sklearn} {rt : Runtime sk} :
  (forall path, store_and_output_only (load_data_from_csv path)) /\
  (forall self df seed,
      random_state (params (WorkoutSuccessPredictor.model self)) = Some seed ->
      store_and_output_only (WorkoutSuccessPredictor.train self df)) /\
  (forall self df seed,
      random_state (params (RecoveryTimePredictor.model self)) = Some seed ->
      store_and_output_only (RecoveryTimePredictor.train self df)) /\
  (forall self df seed,
      random_state (params (WeightProgressionPredictor.model self)) = Some seed ->
      store_and_output_only (WeightProgressionPredictor.train self df)).
Proof.
  split; [| split; [| split]].
  - intros path. apply quiet_read_csv.
  - apply quiet_workout_train.
  - apply quiet_recovery_train.
  - apply quiet_progression_train.
Qed.

Lemma training_touches_only_store_and_output_witness :
  fs (snd (RecoveryTimePredictor.train (rt := Toy.runtime) RecoveryTimePredictor.__init__
                                       recovery_frame recovery_world))
  = fs recovery_world.
Proof.
  exact (proj1 (proj1 (proj2 (proj2 (training_touches_only_store_and_output
                                       (rt := Toy.runtime))))
                  RecoveryTimePredictor.__init__ recovery_frame 42%Z eq_refl
                  recovery_world)).
Defined.

Lemma fs_read_write_other p path content l :
  p <> path -> fs_read p (fs_write path content l) = fs_read p l.
Proof.
  intros Hne. unfold fs_read. induction l as [| [q c] l IH]; simpl.
  - destruct (String.eqb_spec path p); [congruence | reflexivity].
  - destruct (String.eqb_spec q path) as [-> | Hq]; simpl.
    + destruct (String.eqb_spec path p); [congruence | reflexivity].
    + destruct (String.eqb q p); [reflexivity | exact IH].
Qed.

Lemma fs_step_targets path op f f' :
  targets path op -> fs_step op f = inr f' ->
  dirs f' = dirs f /\
  forall p, p <> path -> fs_read p (files f') = fs_read p (files f).
Proof.
  destruct op as [q | q chunk | src dst]; simpl; intros T E; [| | destruct T]; subst q.
  - destruct (parent_exists path f); inversion E; subst; simpl.
    split; [reflexivity |]. intros p Hp. now apply fs_read_write_other.
  - inversion E; subst; simpl.
    split; [reflexivity |]. intros p Hp. now apply fs_read_write_other.
Qed.

Section Saving.
Context {sk : Sklearn} {rt : Runtime sk}.

(** File operations leave the rest of the world alone. *)
Lemma run_fs_ops_world ops (w : World) :
  heap (snd (run_fs_ops ops w)) = heap w /\
  clock (snd (run_fs_ops ops w)) = clock w /\
  global_rng (snd (run_fs_ops ops w)) = global_rng w /\
  stdout (snd (run_fs_ops ops w)) = stdout w.
Proof.
  revert w. induction ops as [| op rest IH]; intros w; simpl; [auto |].
  unfold bind, fs_do. destruct (fs_step op (fs w)) as [e | f']; simpl; [auto |].
  destruct (IH (set_fs f' w)) as (H1 & H2 & H3 & H4). simpl in *. auto.
Qed.

Lemma run_fs_ops_within path ops :
  Forall (targets path) ops -> writes_within [path] (run_fs_ops ops).
Proof.
  induction 1 as [| op rest T F IH]; intros w; simpl.
  - auto.
  - unfold bind, fs_do. destruct (fs_step op (fs w)) as [e | f'] eqn:E; simpl; [auto |].
    destruct (fs_step_targets _ _ _ _ T E) as [D R].
    destruct (IH (set_fs f' w)) as [D' R']. simpl in *.
    split; [congruence |]. intros p Hp. rewrite (R' p Hp). apply R.
    intros ->. apply Hp. left. reflexivity.
Qed.

Lemma dump_ops_target value path : Forall (targets path) (dump_ops value path).
Proof.
  unfold dump_ops. constructor; [reflexivity |].
  apply Forall_forall. intros op H. apply in_map_iff in H as (c & <- & _). reflexivity.
Qed.

Lemma joblib_dump_without_directory value path (w : World) :
  parent_exists path (fs w) = false ->
  joblib_dump value path w = (inl (FileNotFoundError path), w).
Proof.
  intros H. unfold joblib_dump, dump_ops. simpl. unfold bind, fs_do. simpl.
  rewrite H. reflexivity.
Qed.

Lemma stamped_dump_without_directory mk path line (w : World) :
  parent_exists path (fs w) = false ->
  stamped_dump mk path line w = (inl (FileNotFoundError path), w).
Proof.
  intros H. unfold stamped_dump, bind at 1, datetime_now.
  unfold bind. rewrite (joblib_dump_without_directory _ _ _ H). reflexivity.
Qed.

Lemma stamped_dump_world mk path line (w : World) :
  let w' := snd (stamped_dump mk path line w) in
  heap w' = heap w /\ clock w' = clock w /\ global_rng w' = global_rng w /\
  dirs (fs w') = dirs (fs w) /\
  (forall p, p <> path -> fs_read p (files (fs w')) = fs_read p (files (fs w))) /\
  (stdout w' = stdout w \/ stdout w' = stdout w ++ [line]).
Proof.
  unfold stamped_dump, bind at 1, datetime_now. unfold joblib_dump.
  destruct (run_fs_ops_world (dump_ops (mk (clock w)) path) w) as (H1 & H2 & H3 & H4).
  destruct (run_fs_ops_within path _ (dump_ops_target (mk (clock w)) path) w) as [D R].
  unfold bind.
  destruct (run_fs_ops (dump_ops (mk (clock w)) path) w) as [[e | []] w1]; simpl in *.
  - repeat split; auto. intros p Hp. apply R. intros [-> | []]. congruence.
  - repeat split; auto.
    + intros p Hp. apply R. intros [-> | []]. congruence.
    + right. congruence.
Qed.
End Saving.

(** X6: [save] does not create the directory of its destination: when that
    directory does not exist, [save] raises [FileNotFoundError] for the
    destination path and leaves the world as it was; no file is written and
    the confirmation line is not printed. *)
Theorem save_without_directory_raises_file_not_found {sk : Sklearn} {rt : Runtime sk}
        (path : string) (w : World) :
  parent_exists path (fs w) = false ->
  (forall self,
      WorkoutSuccessPredictor.save self path w = (inl (FileNotFoundError path), w)) /\
  (forall self,
      RecoveryTimePredictor.save self path w = (inl (FileNotFoundError path), w)) /\
  (forall self,
      WeightProgressionPredictor.save self path w = (inl (FileNotFoundError path), w)).
Proof.
  intros H. split; [| split]; intros self.
  - exact (stamped_dump_without_directory (WorkoutSuccessPredictor.bundle self) _ _ w H).
  - exact (stamped_dump_without_directory (RecoveryTimePredictor.bundle self) _ _ w H).
  - exact (stamped_dump_without_directory (WeightProgressionPredictor.bundle self) _ _ w H).
Qed.

Lemma save_without_directory_witness :
  parent_exists RecoveryTimePredictor.default_path (fs world_without_models) = false /\
  RecoveryTimePredictor.save (rt := Toy.runtime) trained_recovery_predictor
                             RecoveryTimePredictor.default_path world_without_models
  = (inl (FileNotFoundError RecoveryTimePredictor.default_path), world_without_models).
Proof.
  assert (H : parent_exists RecoveryTimePredictor.default_path (fs world_without_models)
              = false) by reflexivity.
  split; [exact H |].
  exact (proj1 (proj2 (save_without_directory_raises_file_not_found
                         (rt := Toy.runtime) RecoveryTimePredictor.default_path
                         world_without_models H))
           trained_recovery_predictor).
Defined.

(** X7: whether it returns or raises, [save] changes nothing but the file at
    its destination: no directory is created, every other file holds what it
    held, the store, the clock and the process-wide generator are as before,
    and at most the confirmation line is added to the output. *)
Theorem save_changes_only_its_destination {sk : Sklearn} {rt : Runtime sk}
        (path : string) (w : World) :
  let unchanged_but (w' : World) (line : string) :=
    heap w' = heap w /\ clock w' = clock w /\ global_rng w' = global_rng w /\
    dirs (fs w') = dirs (fs w) /\
    (forall p, p <> path -> fs_read p (files (fs w')) = fs_read p (files (fs w))) /\
    (stdout w' = stdout w \/ stdout w' = stdout w ++ [line]) in
  (forall self, unchanged_but (snd (WorkoutSuccessPredictor.save self path w))
                              (nl ++ "✅ Model saved to " ++ path)%string) /\
  (forall self, unchanged_but (snd (RecoveryTimePredictor.save self path w))
                              (nl ++ "✅ Model saved to " ++ path)%string) /\
  (forall self, unchanged_but (snd (WeightProgressionPredictor.save self path w))
                              (nl ++ "✅ Model saved to " ++ path)%string).
Proof.
  intros unchanged_but. subst unchanged_but. cbv beta.
  split; [| split]; intros self.
  - exact (stamped_dump_world (WorkoutSuccessPredictor.bundle self) path _ w).
  - exact (stamped_dump_world (RecoveryTimePredictor.bundle self) path _ w).
  - exact (stamped_dump_world (WeightProgressionPredictor.bundle self) path _ w).
Qed.

(** ** The tasks and the command line driver *)

Section Tasks.
Context {sk : Sklearn} {rt : Runtime sk}.

Lemma quiet_then_fails {A B : Type} (m : M World A) (k : A -> M World B) (w : World) :
  store_and_output_only m ->
  (forall a w', fs w' = fs w -> succeeded (fst (k a w')) = false) ->
  succeeded (fst (bind m k w)) = false.
Proof.
  intros Q K. unfold bind. destruct (Q w) as (F & _).
  destruct (m w) as [[e | a] w1]; simpl in *; [reflexivity | apply K, F].
Qed.

Lemma fails_then {A B : Type} (m : M World A) (k : A -> M World B) (w : World) :
  succeeded (fst (m w)) = false -> succeeded (fst (bind m k w)) = false.
Proof.
  unfold bind. destruct (m w) as [[e | a] w1]; simpl; [reflexivity | discriminate].
Qed.

Lemma no_directory_no_parent path (f : FS) :
  dirname path <> "" -> ~ In (dirname path) (dirs f) -> parent_exists path f = false.
Proof.
  intros Hd Hn. unfold parent_exists.
  destruct (String.eqb_spec (dirname path) "") as [E | _]; [congruence |]. simpl.
  destruct (existsb (String.eqb (dirname path)) (dirs f)) eqn:E; [| reflexivity].
  apply existsb_exists in E as (d & Hin & Hd'). apply String.eqb_eq in Hd'. subst d.
  contradiction.
Qed.

Lemma workout_task_needs_directory data (w : World) :
  ~ In "models" (dirs (fs w)) ->
  succeeded (fst (train_workout_success_model data w)) = false.
Proof.
  intros Hn. unfold train_workout_success_model, load_data_from_csv.
  apply quiet_then_fails; [apply quiet_print | intros _ w1 F1].
  apply quiet_then_fails; [apply quiet_read_csv | intros df w2 F2]. cbv zeta.
  apply quiet_then_fails;
    [apply (quiet_workout_train _ _ 42%Z); reflexivity | intros [metrics p] w3 F3].
  apply fails_then.
  assert (P : parent_exists WorkoutSuccessPredictor.default_path (fs w3) = false).
  { apply no_directory_no_parent; [discriminate |]. rewrite F3, F2, F1. exact Hn. }
  pose proof (stamped_dump_without_directory
                (WorkoutSuccessPredictor.bundle p) _
                (nl ++ "✅ Model saved to " ++ WorkoutSuccessPredictor.default_path)%string w3 P) as E.
  change (WorkoutSuccessPredictor.save p WorkoutSuccessPredictor.default_path w3
          = (inl (FileNotFoundError WorkoutSuccessPredictor.default_path), w3)) in E.
  rewrite E. reflexivity.
Qed.

Lemma recovery_task_needs_directory data (w : World) :
  ~ In "models" (dirs (fs w)) ->
  succeeded (fst (train_recovery_model data w)) = false.
Proof.
  intros Hn. unfold train_recovery_model, load_data_from_csv.
  apply quiet_then_fails; [apply quiet_print | intros _ w1 F1].
  apply quiet_then_fails; [apply quiet_read_csv | intros df w2 F2]. cbv zeta.
  apply quiet_then_fails;
    [apply (quiet_recovery_train _ _ 42%Z); reflexivity | intros [metrics p] w3 F3].
  apply fails_then.
  assert (P : parent_exists RecoveryTimePredictor.default_path (fs w3) = false).
  { apply no_directory_no_parent; [discriminate |]. rewrite F3, F2, F1. exact Hn. }
  pose proof (stamped_dump_without_directory
                (RecoveryTimePredictor.bundle p) _
                (nl ++ "✅ Model saved to " ++ RecoveryTimePredictor.default_path)%string w3 P) as E.
  change (RecoveryTimePredictor.save p RecoveryTimePredictor.default_path w3
          = (inl (FileNotFoundError RecoveryTimePredictor.default_path), w3)) in E.
  rewrite E. reflexivity.
Qed.

Lemma progression_task_needs_directory data (w : World) :
  ~ In "models" (dirs (fs w)) ->
  succeeded (fst (train_progression_model data w)) = false.
Proof.
  intros Hn. unfold train_progression_model, load_data_from_csv.
  apply quiet_then_fails; [apply quiet_print | intros _ w1 F1].
  apply quiet_then_fails; [apply quiet_read_csv | intros df w2 F2]. cbv zeta.
  apply quiet_then_fails;
    [apply (quiet_progression_train _ _ 42%Z); reflexivity | intros [metrics p] w3 F3].
  apply fails_then.
  assert (P : parent_exists WeightProgressionPredictor.default_path (fs w3) = false).
  { apply no_directory_no_parent; [discriminate |]. rewrite F3, F2, F1. exact Hn. }
  pose proof (stamped_dump_without_directory
                (WeightProgressionPredictor.bundle p) _
                (nl ++ "✅ Model saved to " ++ WeightProgressionPredictor.default_path)%string w3 P) as E.
  change (WeightProgressionPredictor.save p WeightProgressionPredictor.default_path w3
          = (inl (FileNotFoundError WeightProgressionPredictor.default_path), w3)) in E.
  rewrite E. reflexivity.
Qed.
End Tasks.

(** X8: nothing in the script creates the [models] directory.  When it does
    not exist no task returns: whatever the data and the library do, each
    task raises (at the latest [FileNotFoundError] from [save], after the
    model has been trained), and so does [main] for every [--model]
    value. *)
Theorem tasks_need_the_models_directory {sk : Sklearn} {rt : Runtime sk}
        (w : World) :
  ~ In "models" (dirs (fs w)) ->
  (forall data, succeeded (fst (train_workout_success_model data w)) = false) /\
  (forall data, succeeded (fst (train_recovery_model data w)) = false) /\
  (forall data, succeeded (fst (train_progression_model data w)) = false) /\
  (forall args, succeeded (fst (main args w)) = false).
Proof.
  intros Hn.
  split; [intros data; now apply workout_task_needs_directory |].
  split; [intros data; now apply recovery_task_needs_directory |].
  split; [intros data; now apply progression_task_needs_directory |].
  intros [c data]. unfold main. cbn [args_model args_data].
  apply quiet_then_fails; [apply quiet_print | intros _ w1 F1].
  apply quiet_then_fails; [apply quiet_print | intros _ w2 F2].
  apply quiet_then_fails; [apply quiet_print | intros _ w3 F3].
  assert (H3 : ~ In "models" (dirs (fs w3))) by (rewrite F3, F2, F1; exact Hn).
  destruct c; cbn [choice_eqb orb].
  - apply fails_then, fails_then. now apply workout_task_needs_directory.
  - rewrite (bind_step _ _ _ tt w3 eq_refl).
    apply fails_then, fails_then. now apply recovery_task_needs_directory.
  - rewrite (bind_step _ _ _ tt w3 eq_refl). rewrite (bind_step _ _ _ tt w3 eq_refl).
    apply fails_then, fails_then. now apply progression_task_needs_directory.
  - apply fails_then, fails_then. now apply workout_task_needs_directory.
Qed.

Lemma tasks_need_the_models_directory_witness :
  ~ In "models" (dirs (fs world_without_models)) /\
  succeeded (fst (train_workout_success_model (rt := Toy.runtime) "workouts.csv"
                                              world_without_models)) = false /\
  raised (fst (train_workout_success_model (rt := Toy.runtime) "workouts.csv"
                                           world_without_models))
  = Some (FileNotFoundError "models/workout_success_model.pkl").
Proof.
  assert (H : ~ In "models" (dirs (fs world_without_models))) by (intros []).
  split; [exact H |]. split.
  - exact (proj1 (tasks_need_the_models_directory
                    (rt := Toy.runtime) world_without_models H) "workouts.csv").
  - vm_compute. reflexivity.
Defined.

(** X9: when the data file does not exist each task raises
    [FileNotFoundError] for its path right after announcing itself: no model
    is trained, nothing is written; [main] raises the same for every
    [--model] value. *)
Theorem missing_data_file_raises_file_not_found {sk : Sklearn} {rt : Runtime sk}
        (data : string) (w : World) :
  fs_read data (files (fs w)) = None ->
  train_workout_success_model data w
  = (inl (FileNotFoundError data),
     snd (print (nl ++ "🤖 Training Workout Success Predictor...") w)) /\
  train_recovery_model data w
  = (inl (FileNotFoundError data),
     snd (print (nl ++ "🤖 Training Recovery Time Predictor...") w)) /\
  train_progression_model data w
  = (inl (FileNotFoundError data),
     snd (print (nl ++ "🤖 Training Weight Progression Predictor...") w)) /\
  (forall c, fst (main {| args_model := c; args_data := data |} w)
             = inl (FileNotFoundError data)) /\
  (forall c, fs (snd (main {| args_model := c; args_data := data |} w)) = fs w).
Proof.
  intros H.
  assert (R : forall line (w0 : World),
             fs w0 = fs w ->
             read_csv data (snd (print line w0))
             = (inl (FileNotFoundError data), snd (print line w0))).
  { intros line w0 F. unfold read_csv. simpl. rewrite F, H. reflexivity. }
  assert (T1 : forall w0 : World, fs w0 = fs w ->
             train_workout_success_model data w0
             = (inl (FileNotFoundError data),
                snd (print (nl ++ "🤖 Training Workout Success Predictor...") w0))).
  { intros w0 F. unfold train_workout_success_model, load_data_from_csv.
    rewrite bind_print. apply bind_inl, R, F. }
  assert (T2 : forall w0 : World, fs w0 = fs w ->
             train_recovery_model data w0
             = (inl (FileNotFoundError data),
                snd (print (nl ++ "🤖 Training Recovery Time Predictor...") w0))).
  { intros w0 F. unfold train_recovery_model, load_data_from_csv.
    rewrite bind_print. apply bind_inl, R, F. }
  assert (T3 : forall w0 : World, fs w0 = fs w ->
             train_progression_model data w0
             = (inl (FileNotFoundError data),
                snd (print (nl ++ "🤖 Training Weight Progression Predictor...") w0))).
  { intros w0 F. unfold train_progression_model, load_data_from_csv.
    rewrite bind_print. apply bind_inl, R, F. }
  split; [apply T1; reflexivity |]. split; [apply T2; reflexivity |].
  split; [apply T3; reflexivity |].
  assert (Hmain : forall c, exists w', main {| args_model := c; args_data := data |} w
                                       = (inl (FileNotFoundError data), w') /\ fs w' = fs w).
  { intros c. unfold main. cbn [args_model args_data].
    rewrite bind_print; cbv beta. rewrite bind_print; cbv beta.
    rewrite bind_print; cbv beta.
    set (w3 := snd (print (repeat_string "=" 60) _)).
    assert (F3 : fs w3 = fs w) by reflexivity. clearbody w3.
    destruct c; cbn [choice_eqb orb].
    - eexists. split; [apply bind_inl, then_ret_inl, T1, F3 | exact F3].
    - rewrite (bind_step _ _ _ tt w3 eq_refl).
      eexists. split; [apply bind_inl, then_ret_inl, T2, F3 | exact F3].
    - rewrite (bind_step _ _ _ tt w3 eq_refl). rewrite (bind_step _ _ _ tt w3 eq_refl).
      eexists. split; [apply bind_inl, then_ret_inl, T3, F3 | exact F3].
    - eexists. split; [apply bind_inl, then_ret_inl, T1, F3 | exact F3]. }
  split; intros c; destruct (Hmain c) as (w' & E & F); rewrite E; simpl; auto.
Qed.

Lemma missing_data_file_witness :
  fs_read "recovery.csv" (files (fs (Toy.world0 workout_fs))) = None /\
  fst (main (rt := Toy.runtime) (all_args "recovery.csv") (Toy.world0 workout_fs))
  = inl (FileNotFoundError "recovery.csv").
Proof.
  assert (H : fs_read "recovery.csv" (files (fs (Toy.world0 workout_fs))) = None)
    by reflexivity.
  split; [exact H |].
  exact (proj1 (proj2 (proj2 (proj2 (missing_data_file_raises_file_not_found
                                       (rt := Toy.runtime) "recovery.csv"
                                       (Toy.world0 workout_fs) H)))) all).
Defined.

Section Confinement.
Context {sk : Sklearn} {rt : Runtime sk}.

Lemma within_of_quiet {A : Type} paths (m : M World A) :
  store_and_output_only m -> writes_within paths m.
Proof. intros Q w. destruct (Q w) as (F & _). rewrite F. auto. Qed.

Lemma within_bind {A B : Type} paths (m : M World A) (k : A -> M World B) :
  writes_within paths m -> (forall a, writes_within paths (k a)) ->
  writes_within paths (bind m k).
Proof.
  intros Hm Hk w. unfold bind. specialize (Hm w).
  destruct (m w) as [[e | a] w1]; simpl in *; [exact Hm |].
  destruct Hm as [D R]. destruct (Hk a w1) as [D' R'].
  split; [congruence |]. intros p Hp. rewrite (R' p Hp). apply R, Hp.
Qed.

Lemma within_stamped_dump paths mk path line :
  In path paths -> writes_within paths (stamped_dump mk path line).
Proof.
  intros Hin w. destruct (stamped_dump_world mk path line w) as (_ & _ & _ & D & R & _).
  split; [exact D |]. intros p Hp. apply R. intros ->. contradiction.
Qed.

Lemma within_workout_task paths data :
  In WorkoutSuccessPredictor.default_path paths ->
  writes_within paths (train_workout_success_model data).
Proof.
  intros Hin. unfold train_workout_success_model, load_data_from_csv.
  apply within_bind; [apply within_of_quiet, quiet_print | intros _].
  apply within_bind; [apply within_of_quiet, quiet_read_csv | intros df]. cbv zeta.
  apply within_bind;
    [apply within_of_quiet, (quiet_workout_train _ _ 42%Z); reflexivity
    | intros [metrics p]].
  apply within_bind; [| intros _; apply within_of_quiet, quiet_ret].
  exact (within_stamped_dump paths (WorkoutSuccessPredictor.bundle p) _ _ Hin).
Qed.

Lemma within_recovery_task paths data :
  In RecoveryTimePredictor.default_path paths ->
  writes_within paths (train_recovery_model data).
Proof.
  intros Hin. unfold train_recovery_model, load_data_from_csv.
  apply within_bind; [apply within_of_quiet, quiet_print | intros _].
  apply within_bind; [apply within_of_quiet, quiet_read_csv | intros df]. cbv zeta.
  apply within_bind;
    [apply within_of_quiet, (quiet_recovery_train _ _ 42%Z); reflexivity
    | intros [metrics p]].
  apply within_bind; [| intros _; apply within_of_quiet, quiet_ret].
  exact (within_stamped_dump paths (RecoveryTimePredictor.bundle p) _ _ Hin).
Qed.

Lemma within_progression_task paths data :
  In WeightProgressionPredictor.default_path paths ->
  writes_within paths (train_progression_model data).
Proof.
  intros Hin. unfold train_progression_model, load_data_from_csv.
  apply within_bind; [apply within_of_quiet, quiet_print | intros _].
  apply within_bind; [apply within_of_quiet, quiet_read_csv | intros df]. cbv zeta.
  apply within_bind;
    [apply within_of_quiet, (quiet_progression_train _ _ 42%Z); reflexivity
    | intros [metrics p]].
  apply within_bind; [| intros _; apply within_of_quiet, quiet_ret].
  exact (within_stamped_dump paths (WeightProgressionPredictor.bundle p) _ _ Hin).
Qed.
End Confinement.

(** X10: a run of the script writes to the artifacts of the tasks that
    [--model] selects and to nothing else: whether it ends normally or with
    an exception, [main] creates no directory and leaves every other file,
    the data file included when it is not one of those paths, with the
    content it had. *)
Theorem main_writes_only_the_selected_artifacts {sk : Sklearn} {rt : Runtime sk}
        (args : Args) :
  writes_within (artifacts_of (args_model args)) (main args).
Proof.
  destruct args as [c data]. unfold main. cbn [args_model args_data].
  repeat (apply within_bind; [apply within_of_quiet, quiet_print | intros _]).
  destruct c; cbn [choice_eqb orb artifacts_of];
    repeat first
      [ apply within_of_quiet, quiet_print
      | apply within_of_quiet, quiet_ret
      | apply within_workout_task; simpl; tauto
      | apply within_recovery_task; simpl; tauto
      | apply within_progression_task; simpl; tauto
      | apply within_bind; [| intros ?] ].
Qed.

(** ** What a training run computes *)

Lemma mapM_reads {A B : Type} (f : A -> M Heap B) :
  (forall a h, snd (f a h) = h) -> forall l h, snd (mapM f l h) = h.
Proof.
  intros Hf. induction l as [| a t IH]; intros h; simpl; [reflexivity |].
  unfold bind. pose proof (Hf a h) as H1. destruct (f a h) as [[e | b] h1]; simpl in *;
    [exact H1 | subst h1].
  pose proof (IH h) as H2. destruct (mapM f t h) as [[e | bs] h2]; simpl in *; exact H2.
Qed.

Lemma load_floats_reads (nl : string * loc) h :
  snd ((c <- load (snd nl) ;;
        match column_floats c with
        | Some xs => ret xs
        | None => raise ValueError
        end) h) = h.
Proof.
  unfold bind, load. destruct (nth_error h (snd nl)) as [c |]; [| reflexivity].
  destruct (column_floats c); reflexivity.
Qed.

(** Reading a frame or a series as numbers allocates nothing. *)
Lemma to_matrix_reads X h : snd (to_matrix X h) = h.
Proof.
  unfold to_matrix, bind.
  pose proof (mapM_reads _ load_floats_reads X h) as H.
  destruct (mapM _ X h) as [[e | cols] h1]; simpl in *; exact H.
Qed.

Lemma series_floats_reads y h : snd (series_floats y h) = h.
Proof. apply (load_floats_reads ("", y)). Qed.

Lemma run_reads {A : Type} (m : M Heap A) h a h' :
  snd (m h) = h -> m h = (inr a, h') -> m h = (inr a, h).
Proof. intros R E. rewrite E in R. simpl in R. now subst h'. Qed.

Lemma seeded_inr {sk : Sklearn} {A : Type} seed (draw : Rng -> Result A * Rng)
      (w : World) a w' :
  with_random_state (Some seed) draw w = (inr a, w') ->
  fst (draw (RandomState seed)) = inr a /\ w' = w.
Proof. unfold with_random_state. intros E. inversion E. auto. Qed.

Lemma print_inr {sk : Sklearn} line (w : World) u w' :
  print line w = (inr u, w') -> heap w' = heap w.
Proof. unfold print. intros E. inversion E. reflexivity. Qed.

(** The partition [train_test_split] returns: the rows of the matrix of [X]
    and the entries of [y] at the positions the splitter deals to each
    side, drawn from a generator made of the seed. *)
Lemma train_test_split_inv {sk : Sklearn} X y test_size seed (w : World)
      X_train X_test y_train y_test w' :
  train_test_split X y test_size (Some seed) w
  = (inr (X_train, X_test, y_train, y_test), w') ->
  heap w' = heap w /\
  exists Xm yv tr te,
    to_matrix X (heap w) = (inr Xm, heap w) /\
    series_floats y (heap w) = (inr yv, heap w) /\
    length Xm = length yv /\
    fst (shuffle_split (RandomState seed) (length Xm) test_size) = inr (tr, te) /\
    take_rows Xm tr = inr X_train /\ take_rows Xm te = inr X_test /\
    take_rows yv tr = inr y_train /\ take_rows yv te = inr y_test.
Proof.
  unfold train_test_split. intros E.
  apply bind_inr in E as (Xm & w1 & E1 & E).
  apply bind_inr in E as (yv & w2 & E2 & E).
  destruct (length Xm =? length yv)%nat eqn:L; [| discriminate].
  apply bind_inr in E as ([tr te] & w3 & E3 & E).
  apply bind_inr in E as (Xtr & w4 & E4 & E).
  apply bind_inr in E as (Xte & w5 & E5 & E).
  apply bind_inr in E as (ytr & w6 & E6 & E).
  apply bind_inr in E as (yte & w7 & E7 & E).
  apply ret_inr in E as [E <-]. inversion E; subst; clear E.
  apply lift_heap_inr in E1 as (h1 & E1 & ->).
  apply (run_reads _ _ _ _ (to_matrix_reads X (heap w))) in E1 as E1'.
  assert (h1 = heap w) as -> by congruence.
  apply lift_heap_inr in E2 as (h2 & E2 & ->). simpl in E2.
  apply (run_reads _ _ _ _ (series_floats_reads y (heap w))) in E2 as E2'.
  assert (h2 = heap w) as -> by congruence.
  apply seeded_inr in E3 as [E3 ->].
  apply lift_result_inr in E4 as [E4 ->]. apply lift_result_inr in E5 as [E5 ->].
  apply lift_result_inr in E6 as [E6 ->]. apply lift_result_inr in E7 as [E7 ->].
  split; [reflexivity |].
  exists Xm, yv, tr, te. apply Nat.eqb_eq in L. repeat split; assumption.
Qed.

Lemma fit_transform_inv {sk : Sklearn} X (w : World) Xs scaler w' :
  fit_transform X w = (inr (Xs, scaler), w') ->
  exists st, scaler_fit X = inr st /\ scaler_transform st X = inr Xs /\
             scaler = Some st /\ w' = w.
Proof.
  unfold fit_transform. intros E.
  apply bind_inr in E as (st & w1 & E1 & E). apply bind_inr in E as (Xs' & w2 & E2 & E).
  apply ret_inr in E as [E <-]. inversion E; subst; clear E.
  apply lift_result_inr in E1 as [E1 ->]. apply lift_result_inr in E2 as [E2 ->].
  exists st. auto.
Qed.

Lemma transform_inv {sk : Sklearn} {S : Type} st X (s : S) Xs s' :
  transform (Some st) X s = (inr Xs, s') -> scaler_transform st X = inr Xs /\ s' = s.
Proof. unfold transform. apply lift_result_inr. Qed.

Lemma fit_classifier_inv {sk : Sklearn} m X y seed (w : World) m' w' :
  random_state (params m) = Some seed ->
  fit_classifier m X y w = (inr m', w') ->
  exists f, fst (classifier_fit (params m) (RandomState seed) X y) = inr f /\
            m' = {| params := params m; fitted := Some f |} /\ w' = w.
Proof.
  intros Hs. unfold fit_classifier. rewrite Hs. intros E.
  apply bind_inr in E as (f & w1 & E1 & E). apply ret_inr in E as [<- <-].
  apply seeded_inr in E1 as [E1 ->]. exists f. auto.
Qed.

Lemma fit_regressor_inv {sk : Sklearn} m X y seed (w : World) m' w' :
  random_state (params m) = Some seed ->
  fit_regressor m X y w = (inr m', w') ->
  exists f, fst (regressor_fit (params m) (RandomState seed) X y) = inr f /\
            m' = {| params := params m; fitted := Some f |} /\ w' = w.
Proof.
  intros Hs. unfold fit_regressor. rewrite Hs. intros E.
  apply bind_inr in E as (f & w1 & E1 & E). apply ret_inr in E as [<- <-].
  apply seeded_inr in E1 as [E1 ->]. exists f. auto.
Qed.

Section TrainRuns.
Context {sk : Sklearn} {rt : Runtime sk}.

(** What a successful [train] of the workout predictor has computed. *)
Lemma workout_train_inv self df seed (w : World) metrics self' w' :
  random_state (params (WorkoutSuccessPredictor.model self)) = Some seed ->
  WorkoutSuccessPredictor.train self df w = (inr (metrics, self'), w') ->
  exists X y h1 Xm yv tr te X_train X_test y_train y_test st Xs Xts f y_pred acc,
    WorkoutSuccessPredictor.prepare_data self df (heap w) = (inr (X, y), h1) /\
    to_matrix X h1 = (inr Xm, h1) /\ series_floats y h1 = (inr yv, h1) /\
    fst (shuffle_split (RandomState 42) (length Xm) 0.2) = inr (tr, te) /\
    take_rows Xm tr = inr X_train /\ take_rows Xm te = inr X_test /\
    take_rows yv tr = inr y_train /\ take_rows yv te = inr y_test /\
    scaler_fit X_train = inr st /\
    scaler_transform st X_train = inr Xs /\ scaler_transform st X_test = inr Xts /\
    fst (classifier_fit (params (WorkoutSuccessPredictor.model self))
                        (RandomState seed) Xs y_train) = inr f /\
    classifier_predict f Xts = inr y_pred /\
    accuracy_score y_test y_pred = inr acc /\
    length (WorkoutSuccessPredictor.feature_names self)
    = length (classifier_feature_importances f) /\
    self' = {| WorkoutSuccessPredictor.model :=
                 {| params := params (WorkoutSuccessPredictor.model self);
                    fitted := Some f |};
               WorkoutSuccessPredictor.scaler := Some st;
               WorkoutSuccessPredictor.feature_names :=
                 WorkoutSuccessPredictor.feature_names self |} /\
    metrics = [("accuracy", MFloat acc);
               ("feature_importance",
                MRecords (fold_right insert_desc []
                            (combine (WorkoutSuccessPredictor.feature_names self)
                                     (classifier_feature_importances f))))].
Proof.
  intros Hseed. unfold WorkoutSuccessPredictor.train. intros E.
  apply bind_inr in E as ([X y] & w1 & E1 & E).
  apply bind_inr in E as ([[[X_train X_test] y_train] y_test] & w2 & E2 & E).
  apply bind_inr in E as ([Xs fitted_scaler] & w3 & E3 & E).
  cbv zeta in E. cbn [WorkoutSuccessPredictor.model WorkoutSuccessPredictor.scaler
                      WorkoutSuccessPredictor.feature_names] in E.
  apply bind_inr in E as (Xts & w4 & E4 & E).
  apply bind_inr in E as (m' & w5 & E5 & E).
  apply bind_inr in E as (y_pred & w6 & E6 & E).
  apply bind_inr in E as (acc & w7 & E7 & E).
  do 7 (apply bind_inr in E as (? & ? & _ & E)).
  apply bind_inr in E as (report & w8 & _ & E).
  apply bind_inr in E as (? & ? & _ & E).
  apply bind_inr in E as (imps & w9 & E8 & E).
  apply bind_inr in E as (importance & w10 & E9 & E).
  do 2 (apply bind_inr in E as (? & ? & _ & E)).
  apply ret_inr in E as [E _]. inversion E; subst metrics self'; clear E.
  apply lift_heap_inr in E1 as (h1 & E1 & ->).
  apply train_test_split_inv in E2
    as (_ & Xm & yv & tr & te & S1 & S2 & _ & S3 & S4 & S5 & S6 & S7).
  apply fit_transform_inv in E3 as (st & F1 & F2 & -> & ->).
  apply transform_inv in E4 as [E4 ->].
  apply (fit_classifier_inv _ _ _ seed) in E5 as (f & E5 & -> & ->); [| exact Hseed].
  unfold predict_classes in E6. cbn [fitted] in E6. apply lift_result_inr in E6 as [E6 ->].
  apply lift_result_inr in E7 as [E7 ->].
  unfold feature_importances_ in E8. cbn [fitted] in E8. apply ret_inr in E8 as [<- _].
  unfold importance_frame in E9.
  destruct (length (WorkoutSuccessPredictor.feature_names self)
            =? length (classifier_feature_importances f))%nat eqn:L; [| discriminate].
  apply ret_inr in E9 as [<- _]. apply Nat.eqb_eq in L.
  simpl in S1, S2.
  exists X, y, h1, Xm, yv, tr, te, X_train, X_test, y_train, y_test, st, Xs, Xts, f,
         y_pred, acc.
  repeat split; assumption.
Qed.
End TrainRuns.

(** ** The listing of feature importances *)

Lemma SFcompare_Lt_swap a b :
  SFcompare a b = Some Lt -> SFcompare b a = Some Gt.
Proof.
  destruct a as [sa | sa | | sa ma ea], b as [sb | sb | | sb mb eb]; simpl;
    try discriminate;
    try (destruct sa; try destruct sb; simpl; intros H; inversion H; reflexivity).
  assert (A : PosDef.Pos.compare_cont Eq mb ma
              = CompOpp (PosDef.Pos.compare_cont Eq ma mb))
    by (symmetry; apply (Pos.compare_cont_antisym ma mb Eq)).
  assert (B : IntDef.Z.compare eb ea = CompOpp (IntDef.Z.compare ea eb))
    by apply Z.compare_antisym.
  rewrite A, B.
  destruct sa, sb; simpl; try discriminate; try reflexivity; intros H; f_equal;
    inversion H as [H1]; clear H;
    destruct (IntDef.Z.compare ea eb); simpl in *; try discriminate; try reflexivity;
    destruct (PosDef.Pos.compare_cont Eq ma mb); simpl in *; try discriminate;
    reflexivity.
Qed.

Lemma SFcompare_Lt_not_nan a b :
  SFcompare a b = Some Lt -> SFcompare a a = Some Eq /\ SFcompare b b = Some Eq.
Proof.
  assert (R : forall s m e, SFcompare (S754_finite s m e) (S754_finite s m e) = Some Eq).
  { intros s m e. simpl.
    assert (A : IntDef.Z.compare e e = Eq) by apply Z.compare_refl.
    assert (B : PosDef.Pos.compare_cont Eq m m = Eq) by apply Pos.compare_refl.
    rewrite A, B. destruct s; reflexivity. }
  destruct a as [sa | sa | | sa ma ea], b as [sb | sb | | sb mb eb];
    try (simpl; discriminate); intros _; split;
    try apply R; try reflexivity; try (destruct sa; reflexivity);
    try (destruct sb; reflexivity).
Qed.

Lemma ltb_asym (x y : float) : (x <? y)%float = true -> (y <? x)%float = false.
Proof.
  rewrite !ltb_spec. unfold SFltb.
  destruct (SFcompare (Prim2SF x) (Prim2SF y)) as [[| |] |] eqn:C; try discriminate.
  intros _. rewrite (SFcompare_Lt_swap _ _ C). reflexivity.
Qed.

Lemma ltb_not_nan (x y : float) :
  (x <? y)%float = true -> is_nan x = false /\ is_nan y = false.
Proof.
  rewrite ltb_spec. unfold SFltb, is_nan. rewrite !eqb_spec. unfold SFeqb.
  destruct (SFcompare (Prim2SF x) (Prim2SF y)) as [[| |] |] eqn:C; try discriminate.
  intros _. destruct (SFcompare_Lt_not_nan _ _ C) as [-> ->]. auto.
Qed.

Lemma ranks_below_asym a b : ranks_below a b = true -> ranks_below b a = false.
Proof.
  unfold ranks_below. intros H. apply orb_true_iff in H as [H | H].
  - rewrite (ltb_asym _ _ H). destruct (ltb_not_nan _ _ H) as [_ ->]. reflexivity.
  - apply andb_true_iff in H as [Ha Hb]. apply negb_true_iff in Hb. rewrite Hb.
    destruct (b <? a)%float eqn:L; [| reflexivity].
    destruct (ltb_not_nan _ _ L) as [_ Hn]. congruence.
Qed.

Lemma insert_desc_perm x l : Permutation (x :: l) (insert_desc x l).
Proof.
  induction l as [| y t IH]; simpl; [apply Permutation_refl |].
  destruct ((snd x <? snd y)%float || is_nan (snd x) && negb (is_nan (snd y))).
  - eapply perm_trans; [apply perm_swap | apply perm_skip, IH].
  - apply Permutation_refl.
Qed.

Lemma sort_desc_perm l : Permutation l (fold_right insert_desc [] l).
Proof.
  induction l as [| x t IH]; simpl; [constructor |].
  eapply perm_trans; [apply perm_skip, IH | apply insert_desc_perm].
Qed.

Lemma insert_desc_sorted x l :
  Sorted (fun a b => ranks_below (snd a) (snd b) = false) l ->
  Sorted (fun a b => ranks_below (snd a) (snd b) = false) (insert_desc x l).
Proof.
  induction 1 as [| y t St IH Hd]; simpl; [repeat constructor |].
  change ((snd x <? snd y)%float || is_nan (snd x) && negb (is_nan (snd y)))
    with (ranks_below (snd x) (snd y)).
  destruct (ranks_below (snd x) (snd y)) eqn:R.
  - constructor; [exact IH |].
    destruct t as [| z t']; simpl.
    + constructor. now apply ranks_below_asym.
    + change ((snd x <? snd z)%float || is_nan (snd x) && negb (is_nan (snd z)))
        with (ranks_below (snd x) (snd z)).
      destruct (ranks_below (snd x) (snd z)); constructor.
      * inversion Hd; assumption.
      * now apply ranks_below_asym.
  - constructor; [constructor; assumption | constructor; exact R].
Qed.

Lemma sort_desc_sorted l :
  Sorted (fun a b => ranks_below (snd a) (snd b) = false) (fold_right insert_desc [] l).
Proof.
  induction l as [| x t IH]; simpl; [constructor | apply insert_desc_sorted, IH].
Qed.

Lemma map_fst_combine {A B : Type} (l1 : list A) (l2 : list B) :
  length l1 = length l2 -> map fst (combine l1 l2) = l1.
Proof.
  revert l2. induction l1 as [| a t IH]; intros [| b l2] H; simpl in *;
    try reflexivity; try discriminate.
  f_equal. apply IH. now inversion H.
Qed.

Section RegressorRuns.
Context {sk : Sklearn} {rt : Runtime sk}.

Lemma recovery_train_inv self df seed (w : World) metrics self' w' :
  random_state (params (RecoveryTimePredictor.model self)) = Some seed ->
  RecoveryTimePredictor.train self df w = (inr (metrics, self'), w') ->
  exists X y h1 Xm yv tr te X_train X_test y_train y_test st Xs Xts f y_pred mse r2,
    RecoveryTimePredictor.prepare_data self df (heap w) = (inr (X, y), h1) /\
    to_matrix X h1 = (inr Xm, h1) /\ series_floats y h1 = (inr yv, h1) /\
    fst (shuffle_split (RandomState 42) (length Xm) 0.2) = inr (tr, te) /\
    take_rows Xm tr = inr X_train /\ take_rows Xm te = inr X_test /\
    take_rows yv tr = inr y_train /\ take_rows yv te = inr y_test /\
    scaler_fit X_train = inr st /\
    scaler_transform st X_train = inr Xs /\ scaler_transform st X_test = inr Xts /\
    fst (regressor_fit (params (RecoveryTimePredictor.model self))
                       (RandomState seed) Xs y_train) = inr f /\
    regressor_predict f Xts = inr y_pred /\
    mean_squared_error y_test y_pred = inr mse /\
    r2_score y_test y_pred = inr r2 /\
    self' = {| RecoveryTimePredictor.model :=
                 {| params := params (RecoveryTimePredictor.model self);
                    fitted := Some f |};
               RecoveryTimePredictor.scaler := Some st;
               RecoveryTimePredictor.feature_names :=
                 RecoveryTimePredictor.feature_names self;
               RecoveryTimePredictor.muscle_groups :=
                 RecoveryTimePredictor.muscle_groups self |} /\
    metrics = [("r2_score", MFloat r2); ("rmse", MFloat (PrimFloat.sqrt mse))].
Proof.
  intros Hseed. unfold RecoveryTimePredictor.train. intros E.
  apply bind_inr in E as ([X y] & w1 & E1 & E).
  apply bind_inr in E as ([[[X_train X_test] y_train] y_test] & w2 & E2 & E).
  apply bind_inr in E as ([Xs fitted_scaler] & w3 & E3 & E).
  cbv zeta in E. cbn [RecoveryTimePredictor.model RecoveryTimePredictor.scaler
                      RecoveryTimePredictor.feature_names
                      RecoveryTimePredictor.muscle_groups] in E.
  apply bind_inr in E as (Xts & w4 & E4 & E).
  apply bind_inr in E as (m' & w5 & E5 & E).
  apply bind_inr in E as (y_pred & w6 & E6 & E).
  apply bind_inr in E as (mse & w7 & E7 & E).
  apply bind_inr in E as (r2 & w8 & E8 & E).
  do 6 (apply bind_inr in E as (? & ? & _ & E)).
  apply ret_inr in E as [E _]. inversion E; subst metrics self'; clear E.
  apply lift_heap_inr in E1 as (h1 & E1 & ->).
  apply train_test_split_inv in E2
    as (_ & Xm & yv & tr & te & S1 & S2 & _ & S3 & S4 & S5 & S6 & S7).
  apply fit_transform_inv in E3 as (st & F1 & F2 & -> & ->).
  apply transform_inv in E4 as [E4 ->].
  apply (fit_regressor_inv _ _ _ seed) in E5 as (f & E5 & -> & ->); [| exact Hseed].
  unfold predict_values in E6. cbn [fitted] in E6. apply lift_result_inr in E6 as [E6 ->].
  apply lift_result_inr in E7 as [E7 ->]. apply lift_result_inr in E8 as [E8 ->].
  simpl in S1, S2.
  exists X, y, h1, Xm, yv, tr, te, X_train, X_test, y_train, y_test, st, Xs, Xts, f,
         y_pred, mse, r2.
  repeat split; assumption.
Qed.

Lemma progression_train_inv self df seed (w : World) metrics self' w' :
  random_state (params (WeightProgressionPredictor.model self)) = Some seed ->
  WeightProgressionPredictor.train self df w = (inr (metrics, self'), w') ->
  exists X y h1 Xm yv tr te X_train X_test y_train y_test st Xs Xts f y_pred mse r2,
    WeightProgressionPredictor.prepare_data self df (heap w) = (inr (X, y), h1) /\
    to_matrix X h1 = (inr Xm, h1) /\ series_floats y h1 = (inr yv, h1) /\
    fst (shuffle_split (RandomState 42) (length Xm) 0.2) = inr (tr, te) /\
    take_rows Xm tr = inr X_train /\ take_rows Xm te = inr X_test /\
    take_rows yv tr = inr y_train /\ take_rows yv te = inr y_test /\
    scaler_fit X_train = inr st /\
    scaler_transform st X_train = inr Xs /\ scaler_transform st X_test = inr Xts /\
    fst (regressor_fit (params (WeightProgressionPredictor.model self))
                       (RandomState seed) Xs y_train) = inr f /\
    regressor_predict f Xts = inr y_pred /\
    mean_squared_error y_test y_pred = inr mse /\
    r2_score y_test y_pred = inr r2 /\
    self' = {| WeightProgressionPredictor.model :=
                 {| params := params (WeightProgressionPredictor.model self);
                    fitted := Some f |};
               WeightProgressionPredictor.scaler := Some st;
               WeightProgressionPredictor.feature_names :=
                 WeightProgressionPredictor.feature_names self |} /\
    metrics = [("r2_score", MFloat r2); ("rmse", MFloat (PrimFloat.sqrt mse))].
Proof.
  intros Hseed. unfold WeightProgressionPredictor.train. intros E.
  apply bind_inr in E as ([X y] & w1 & E1 & E).
  apply bind_inr in E as ([[[X_train X_test] y_train] y_test] & w2 & E2 & E).
  apply bind_inr in E as ([Xs fitted_scaler] & w3 & E3 & E).
  cbv zeta in E. cbn [WeightProgressionPredictor.model WeightProgressionPredictor.scaler
                      WeightProgressionPredictor.feature_names] in E.
  apply bind_inr in E as (Xts & w4 & E4 & E).
  apply bind_inr in E as (m' & w5 & E5 & E).
  apply bind_inr in E as (y_pred & w6 & E6 & E).
  apply bind_inr in E as (mse & w7 & E7 & E).
  apply bind_inr in E as (r2 & w8 & E8 & E).
  do 6 (apply bind_inr in E as (? & ? & _ & E)).
  apply ret_inr in E as [E _]. inversion E; subst metrics self'; clear E.
  apply lift_heap_inr in E1 as (h1 & E1 & ->).
  apply train_test_split_inv in E2
    as (_ & Xm & yv & tr & te & S1 & S2 & _ & S3 & S4 & S5 & S6 & S7).
  apply fit_transform_inv in E3 as (st & F1 & F2 & -> & ->).
  apply transform_inv in E4 as [E4 ->].
  apply (fit_regressor_inv _ _ _ seed) in E5 as (f & E5 & -> & ->); [| exact Hseed].
  unfold predict_values in E6. cbn [fitted] in E6. apply lift_result_inr in E6 as [E6 ->].
  apply lift_result_inr in E7 as [E7 ->]. apply lift_result_inr in E8 as [E8 ->].
  simpl in S1, S2.
  exists X, y, h1, Xm, yv, tr, te, X_train, X_test, y_train, y_test, st, Xs, Xts, f,
         y_pred, mse, r2.
  repeat split; assumption.
Qed.
End RegressorRuns.

(** X11: a successful [train] of the workout task keeps the test rows apart:
    the scaler is fitted on the training rows alone, the forest (drawing from
    a generator made of its seed) is fitted on the scaled training rows and
    their labels, and the accuracy it reports compares the test labels with
    the predictions for the test rows, scaled by the scaler of the training
    rows.  The object afterwards holds that scaler and that forest, with the
    constructor's parameters and feature names. *)
Theorem workout_train_keeps_test_rows_apart {sk : Sklearn} {rt : Runtime sk}
        self df seed (w : World) metrics self' w' :
  random_state (params (WorkoutSuccessPredictor.model self)) = Some seed ->
  WorkoutSuccessPredictor.train self df w = (inr (metrics, self'), w') ->
  exists X y h1 X_train X_test y_train y_test st Xs Xts f y_pred acc,
    WorkoutSuccessPredictor.prepare_data self df (heap w) = (inr (X, y), h1) /\
    partition_of X y h1 42 0.2 X_train X_test y_train y_test /\
    scaler_fit X_train = inr st /\
    scaler_transform st X_train = inr Xs /\ scaler_transform st X_test = inr Xts /\
    fst (classifier_fit (params (WorkoutSuccessPredictor.model self))
                        (RandomState seed) Xs y_train) = inr f /\
    classifier_predict f Xts = inr y_pred /\
    accuracy_score y_test y_pred = inr acc /\
    assoc "accuracy" metrics = Some (MFloat acc) /\
    WorkoutSuccessPredictor.scaler self' = Some st /\
    fitted (WorkoutSuccessPredictor.model self') = Some f /\
    params (WorkoutSuccessPredictor.model self')
    = params (WorkoutSuccessPredictor.model self) /\
    WorkoutSuccessPredictor.feature_names self'
    = WorkoutSuccessPredictor.feature_names self.
Proof.
  intros Hseed E.
  destruct (workout_train_inv _ _ _ _ _ _ _ Hseed E)
    as (X & y & h1 & Xm & yv & tr & te & X_train & X_test & y_train & y_test & st & Xs
        & Xts & f & y_pred & acc & H1 & H2 & H3 & H4 & H5 & H6 & H7 & H8 & H9 & H10
        & H11 & H12 & H13 & H14 & _ & -> & ->).
  exists X, y, h1, X_train, X_test, y_train, y_test, st, Xs, Xts, f, y_pred, acc.
  repeat split; try assumption.
  exists Xm, yv, tr, te. repeat split; assumption.
Qed.

Lemma workout_train_keeps_test_rows_apart_witness :
  exists metrics self' w' st f,
    WorkoutSuccessPredictor.train (rt := Toy.runtime) WorkoutSuccessPredictor.__init__
                                  workout_frame workout_world
    = (inr (metrics, self'), w') /\
    WorkoutSuccessPredictor.scaler self' = Some st /\
    fitted (WorkoutSuccessPredictor.model self') = Some f.
Proof.
  assert (F : succeeded (fst (WorkoutSuccessPredictor.train
                                (rt := Toy.runtime) WorkoutSuccessPredictor.__init__
                                workout_frame workout_world)) = true)
    by (vm_compute; reflexivity).
  destruct (succeeded_inr _ F) as [[metrics self'] E].
  destruct (workout_train_keeps_test_rows_apart
              (rt := Toy.runtime) WorkoutSuccessPredictor.__init__ workout_frame 42%Z
              workout_world metrics self' _ eq_refl E)
    as (X & y & h1 & X_train & X_test & y_train & y_test & st & Xs & Xts & f & y_pred
        & acc & _ & _ & _ & _ & _ & _ & _ & _ & _ & Hs & Hf & _).
  exists metrics, self'. eexists. exists st, f. split; [exact E | auto].
Defined.

(** X12: the feature-importance records a successful [train] of the workout
    task returns pair every feature name with the importance the forest
    gives it, each name once, listed by descending importance (no record is
    followed by one of greater importance, missing importances come last). *)
Theorem workout_train_lists_each_feature_by_importance {sk : Sklearn} {rt : Runtime sk}
        self df seed (w : World) metrics self' w' :
  random_state (params (WorkoutSuccessPredictor.model self)) = Some seed ->
  WorkoutSuccessPredictor.train self df w = (inr (metrics, self'), w') ->
  exists f importance,
    fitted (WorkoutSuccessPredictor.model self') = Some f /\
    assoc "feature_importance" metrics = Some (MRecords importance) /\
    Permutation importance
                (combine (WorkoutSuccessPredictor.feature_names self)
                         (classifier_feature_importances f)) /\
    Permutation (map fst importance) (WorkoutSuccessPredictor.feature_names self) /\
    Sorted (fun a b => ranks_below (snd a) (snd b) = false) importance.
Proof.
  intros Hseed E.
  destruct (workout_train_inv _ _ _ _ _ _ _ Hseed E)
    as (X & y & h1 & Xm & yv & tr & te & X_train & X_test & y_train & y_test & st & Xs
        & Xts & f & y_pred & acc & _ & _ & _ & _ & _ & _ & _ & _ & _ & _ & _ & _ & _ & _
        & L & -> & ->).
  exists f, (fold_right insert_desc []
               (combine (WorkoutSuccessPredictor.feature_names self)
                        (classifier_feature_importances f))).
  split; [reflexivity |]. split; [reflexivity |].
  assert (P : Permutation
                (fold_right insert_desc []
                   (combine (WorkoutSuccessPredictor.feature_names self)
                            (classifier_feature_importances f)))
                (combine (WorkoutSuccessPredictor.feature_names self)
                         (classifier_feature_importances f)))
    by (apply Permutation_sym, sort_desc_perm).
  split; [exact P |]. split; [| apply sort_desc_sorted].
  apply (Permutation_map fst) in P. rewrite (map_fst_combine _ _ L) in P. exact P.
Qed.

Lemma workout_train_lists_each_feature_witness :
  exists metrics self' w' importance,
    WorkoutSuccessPredictor.train (rt := Toy.runtime) WorkoutSuccessPredictor.__init__
                                  workout_frame workout_world
    = (inr (metrics, self'), w') /\
    assoc "feature_importance" metrics = Some (MRecords importance) /\
    Permutation (map fst importance)
                (WorkoutSuccessPredictor.feature_names
                   (sk := Toy.sklearn) WorkoutSuccessPredictor.__init__).
Proof.
  assert (F : succeeded (fst (WorkoutSuccessPredictor.train
                                (rt := Toy.runtime) WorkoutSuccessPredictor.__init__
                                workout_frame workout_world)) = true)
    by (vm_compute; reflexivity).
  destruct (succeeded_inr _ F) as [[metrics self'] E].
  destruct (workout_train_lists_each_feature_by_importance
              (rt := Toy.runtime) WorkoutSuccessPredictor.__init__ workout_frame 42%Z
              workout_world metrics self' _ eq_refl E)
    as (f & importance & _ & Hm & _ & Hp & _).
  exists metrics, self'. eexists. exists importance. split; [exact E | auto].
Defined.

(** X13: a successful [train] of the recovery and of the progression task
    keeps the test rows apart in the same way: scaler fitted on the training
    rows alone, forest fitted on the scaled training rows and their targets,
    and both metrics computed from the test targets and the predictions for
    the scaled test rows.  The value under "rmse" is the square root of the
    mean squared error; the object afterwards holds that scaler and forest,
    its other fields unchanged. *)
Theorem regressor_train_keeps_test_rows_apart {sk : Sklearn} {rt : Runtime sk}
        (df : DataFrame) (seed : Z) (w : World) (metrics : Metrics) (w' : World) :
  (forall self self',
      random_state (params (RecoveryTimePredictor.model self)) = Some seed ->
      RecoveryTimePredictor.train self df w = (inr (metrics, self'), w') ->
      exists X y h1 X_train X_test y_train y_test st Xs Xts f y_pred mse r2,
        RecoveryTimePredictor.prepare_data self df (heap w) = (inr (X, y), h1) /\
        partition_of X y h1 42 0.2 X_train X_test y_train y_test /\
        scaler_fit X_train = inr st /\
        scaler_transform st X_train = inr Xs /\ scaler_transform st X_test = inr Xts /\
        fst (regressor_fit (params (RecoveryTimePredictor.model self))
                           (RandomState seed) Xs y_train) = inr f /\
        regressor_predict f Xts = inr y_pred /\
        mean_squared_error y_test y_pred = inr mse /\
        r2_score y_test y_pred = inr r2 /\
        metrics = [("r2_score", MFloat r2); ("rmse", MFloat (PrimFloat.sqrt mse))] /\
        RecoveryTimePredictor.scaler self' = Some st /\
        fitted (RecoveryTimePredictor.model self') = Some f /\
        params (RecoveryTimePredictor.model self')
        = params (RecoveryTimePredictor.model self)) /\
  (forall self self',
      random_state (params (WeightProgressionPredictor.model self)) = Some seed ->
      WeightProgressionPredictor.train self df w = (inr (metrics, self'), w') ->
      exists X y h1 X_train X_test y_train y_test st Xs Xts f y_pred mse r2,
        WeightProgressionPredictor.prepare_data self df (heap w) = (inr (X, y), h1) /\
        partition_of X y h1 42 0.2 X_train X_test y_train y_test /\
        scaler_fit X_train = inr st /\
        scaler_transform st X_train = inr Xs /\ scaler_transform st X_test = inr Xts /\
        fst (regressor_fit (params (WeightProgressionPredictor.model self))
                           (RandomState seed) Xs y_train) = inr f /\
        regressor_predict f Xts = inr y_pred /\
        mean_squared_error y_test y_pred = inr mse /\
        r2_score y_test y_pred = inr r2 /\
        metrics = [("r2_score", MFloat r2); ("rmse", MFloat (PrimFloat.sqrt mse))] /\
        WeightProgressionPredictor.scaler self' = Some st /\
        fitted (WeightProgressionPredictor.model self') = Some f /\
        params (WeightProgressionPredictor.model self')
        = params (WeightProgressionPredictor.model self) /\
        WeightProgressionPredictor.feature_names self'
        = WeightProgressionPredictor.feature_names self).
Proof.
  split; intros self self' Hseed E.
  - destruct (recovery_train_inv _ _ _ _ _ _ _ Hseed E)
      as (X & y & h1 & Xm & yv & tr & te & X_train & X_test & y_train & y_test & st & Xs
          & Xts & f & y_pred & mse & r2 & H1 & H2 & H3 & H4 & H5 & H6 & H7 & H8 & H9
          & H10 & H11 & H12 & H13 & H14 & H15 & -> & ->).
    exists X, y, h1, X_train, X_test, y_train, y_test, st, Xs, Xts, f, y_pred, mse, r2.
    repeat split; try assumption.
    exists Xm, yv, tr, te. repeat split; assumption.
  - destruct (progression_train_inv _ _ _ _ _ _ _ Hseed E)
      as (X & y & h1 & Xm & yv & tr & te & X_train & X_test & y_train & y_test & st & Xs
          & Xts & f & y_pred & mse & r2 & H1 & H2 & H3 & H4 & H5 & H6 & H7 & H8 & H9
          & H10 & H11 & H12 & H13 & H14 & H15 & -> & ->).
    exists X, y, h1, X_train, X_test, y_train, y_test, st, Xs, Xts, f, y_pred, mse, r2.
    repeat split; try assumption.
    exists Xm, yv, tr, te. repeat split; assumption.
Qed.

Lemma regressor_train_keeps_test_rows_apart_witness :
  exists metrics self' w' mse,
    WeightProgressionPredictor.train (rt := Toy.runtime)
                                     WeightProgressionPredictor.__init__
                                     progression_frame progression_world
    = (inr (metrics, self'), w') /\
    assoc "rmse" metrics = Some (MFloat (PrimFloat.sqrt mse)).
Proof.
  assert (F : succeeded (fst (WeightProgressionPredictor.train
                                (rt := Toy.runtime) WeightProgressionPredictor.__init__
                                progression_frame progression_world)) = true)
    by (vm_compute; reflexivity).
  destruct (succeeded_inr _ F) as [[metrics self'] E].
  destruct (proj2 (regressor_train_keeps_test_rows_apart
                     (rt := Toy.runtime) progression_frame 42%Z progression_world
                     metrics _)
              WeightProgressionPredictor.__init__ self' eq_refl E)
    as (X & y & h1 & X_train & X_test & y_train & y_test & st & Xs & Xts & f & y_pred
        & mse & r2 & _ & _ & _ & _ & _ & _ & _ & _ & _ & Hm & _).
  exists metrics, self'. eexists. exists mse. split; [exact E |].
  rewrite Hm. reflexivity.
Defined.

(** ** When [prepare_data] returns *)

Lemma mapM_succeeds {A B : Type} (f : A -> M Heap B) (l : list A) (h : Heap) :
  (forall a, grows (f a)) ->
  (forall a h1, In a l -> extends h h1 -> exists b h2, f a h1 = (inr b, h2)) ->
  exists bs h', mapM f l h = (inr bs, h').
Proof.
  intros G. revert h. induction l as [| a t IH]; intros h Hf; simpl.
  - eexists _, _. reflexivity.
  - destruct (Hf a h (or_introl eq_refl) (extends_refl h)) as (b & h1 & E1).
    assert (X1 : extends h h1) by (eapply grows_run; [apply G | exact E1]).
    destruct (IH h1) as (bs & h2 & E2).
    { intros a' h' Hin Ext. apply Hf; [right; exact Hin |].
      eapply extends_trans; eassumption. }
    exists (b :: bs), h2. unfold bind. rewrite E1, E2. reflexivity.
Qed.

Lemma Forall2_In_r {A B : Type} (R : A -> B -> Prop) l1 l2 b :
  Forall2 R l1 l2 -> In b l2 -> exists a, In a l1 /\ R a b.
Proof.
  induction 1 as [| a0 b0 l1 l2 H0 F IH]; intros Hin; [destruct Hin |].
  destruct Hin as [-> | Hin].
  - exists a0. split; [left; reflexivity | exact H0].
  - destruct (IH Hin) as (a & Ha & HR). exists a. split; [right; exact Ha | exact HR].
Qed.

Lemma missing_labels_nil names df :
  (forall n, In n names -> exists l, df_lookup n df = Some l) ->
  missing_labels names df = [].
Proof.
  intros H. unfold missing_labels. induction names as [| n t IH]; simpl; [reflexivity |].
  destruct (H n (or_introl eq_refl)) as (l & ->). apply IH.
  intros n' Hin. apply H. right. exact Hin.
Qed.

Lemma getitem_list_succeeds df names h :
  (forall n, In n names -> numeric_in h df n) ->
  exists sel h1, getitem_list df names h = (inr sel, h1).
Proof.
  intros H. unfold getitem_list. rewrite missing_labels_nil.
  - unfold take_columns. apply mapM_succeeds.
    + intros n. destruct (df_lookup n df); grows_tac.
    + intros n h1 Hin Ext. destruct (H n Hin) as (l & c & xs & L & Hc & _).
      cbv beta. rewrite L. unfold bind, copy_column, bind, load.
      rewrite (extends_nth _ _ _ _ Ext Hc). simpl. eexists _, _. reflexivity.
  - intros n Hin. destruct (H n Hin) as (l & _ & _ & L & _). eauto.
Qed.

(** The columns of [frame[names]] hold numbers when those of [frame] do. *)
Lemma getitem_list_numeric df names h (sel : DataFrame) h1 :
  (forall n, In n names -> numeric_in h df n) ->
  getitem_list df names h = (inr sel, h1) ->
  forall nl : string * loc,
    In nl sel ->
    exists c xs, nth_error h1 (snd nl) = Some c /\ column_floats c = Some xs.
Proof.
  intros H E nl Hin.
  pose proof (grows_run _ _ _ _ (grows_getitem_list _ _) E) as Ext.
  apply getitem_list_spec in E.
  destruct (Forall2_In_r _ _ _ _ E Hin) as (n & Hn & _ & _ & l & c & L & H1 & H2).
  destruct (H n Hn) as (l0 & c0 & xs & L0 & Hc0 & F).
  rewrite L in L0. inversion L0; subst l0.
  pose proof (extends_nth _ _ _ _ Ext Hc0) as H3.
  exists c, xs. split; [exact H2 | congruence].
Qed.

Lemma df_median_succeeds (sel : DataFrame) (h : Heap) :
  (forall nl : string * loc, In nl sel ->
              exists c xs, nth_error h (snd nl) = Some c /\ column_floats c = Some xs) ->
  exists med, df_median sel h = (inr med, h).
Proof.
  intros H. unfold df_median.
  induction sel as [| nl t IH]; simpl; [eexists; reflexivity |].
  destruct (H nl (or_introl eq_refl)) as (c & xs & Hc & F).
  destruct IH as (med & E); [intros nl' Hin; apply H; right; exact Hin |].
  assert (E0 : (c <- load (snd nl) ;;
                match column_floats c with
                | Some xs => ret (fst nl, nanmedian xs)
                | None => raise TypeError
                end) h = (inr (fst nl, nanmedian xs), h)).
  { unfold bind, load. rewrite Hc, F. reflexivity. }
  rewrite (bind_step _ _ _ _ _ E0), (bind_step _ _ _ _ _ E).
  eexists. reflexivity.
Qed.

Lemma fillna_succeeds (sel : DataFrame) value (h : Heap) :
  (forall nl : string * loc, In nl sel ->
              exists c xs, nth_error h (snd nl) = Some c /\ column_floats c = Some xs) ->
  exists X h', fillna sel value h = (inr X, h').
Proof.
  intros H. unfold fillna. apply mapM_succeeds.
  - intros nl. grows_tac.
  - intros nl h1 Hin Ext. destruct (H nl Hin) as (c & xs & Hc & F).
    cbv beta. unfold bind, load. rewrite (extends_nth _ _ _ _ Ext Hc).
    assert (R : exists c', match assoc (fst nl) value with
                           | Some v => fillna_column c v
                           | None => inr c
                           end = inr c').
    { destruct (assoc (fst nl) value) as [v |]; [| eauto].
      destruct c; simpl in *; eauto; discriminate. }
    destruct R as (c' & ->). simpl. eexists _, _. reflexivity.
Qed.

(** The imputation [frame[names].fillna(frame[names].median())] returns
    whenever the named columns of [frame] exist and hold numbers. *)
Lemma impute_succeeds frame names h :
  (forall n, In n names -> numeric_in h frame n) ->
  exists sel h1 sel_m h2 med X h4,
    getitem_list frame names h = (inr sel, h1) /\
    getitem_list frame names h1 = (inr sel_m, h2) /\
    df_median sel_m h2 = (inr med, h2) /\
    fillna sel med h2 = (inr X, h4).
Proof.
  intros H.
  destruct (getitem_list_succeeds frame names h H) as (sel & h1 & E1).
  pose proof (grows_run _ _ _ _ (grows_getitem_list _ _) E1) as X01.
  assert (H1 : forall n, In n names -> numeric_in h1 frame n).
  { intros n Hin. destruct (H n Hin) as (l & c & xs & L & Hc & F).
    exists l, c, xs. split; [exact L |]. split; [| exact F].
    eapply extends_nth; eassumption. }
  destruct (getitem_list_succeeds frame names h1 H1) as (sel_m & h2 & E2).
  pose proof (grows_run _ _ _ _ (grows_getitem_list _ _) E2) as X12.
  destruct (df_median_succeeds sel_m h2 (getitem_list_numeric _ _ _ _ _ H1 E2))
    as (med & E3).
  destruct (fillna_succeeds sel med h2) as (X & h4 & E4).
  { intros nl Hin.
    destruct (getitem_list_numeric _ _ _ _ _ H E1 nl Hin) as (c & xs & Hc & F).
    exists c, xs. split; [eapply extends_nth; eassumption | exact F]. }
  exists sel, h1, sel_m, h2, med, X, h4. auto.
Qed.

Lemma astype_int_result s h c :
  nth_error h s = Some c ->
  (castable c = true -> exists y h', astype_int s h = (inr y, h')) /\
  (castable c = false -> astype_int s h = (inl ValueError, h)).
Proof.
  intros Hc. unfold astype_int, bind, load. rewrite Hc.
  destruct c as [xs | zs | bs | ss]; simpl; split; intros K; try discriminate;
    try (eexists _, _; reflexivity); try reflexivity.
  - rewrite K. eexists _, _. reflexivity.
  - rewrite K. reflexivity.
Qed.

Section PrepareDataReturns.
Context {sk : Sklearn} {rt : Runtime sk}.

Lemma workout_prepare_data_result self df h l c :
  (forall n, In n (WorkoutSuccessPredictor.feature_names self) -> numeric_in h df n) ->
  df_lookup "workout_completed" df = Some l ->
  nth_error h l = Some c ->
  (castable c = true ->
   exists X y h', WorkoutSuccessPredictor.prepare_data self df h = (inr (X, y), h')) /\
  (castable c = false ->
   exists h', WorkoutSuccessPredictor.prepare_data self df h = (inl ValueError, h')).
Proof.
  intros H L Hc.
  destruct (impute_succeeds df _ h H) as (sel & h1 & sel_m & h2 & med & X & h4
                                          & E1 & E2 & E3 & E4).
  pose proof (grows_run _ _ _ _ (grows_getitem_list _ _) E1) as X01.
  pose proof (grows_run _ _ _ _ (grows_getitem_list _ _) E2) as X12.
  pose proof (grows_run _ _ _ _ (grows_fillna _ _) E4) as X24.
  assert (Hc4 : nth_error h4 l = Some c).
  { eapply extends_nth; [| exact Hc].
    eapply extends_trans; [exact X01 |]. eapply extends_trans; eassumption. }
  destruct (astype_int_result l h4 c Hc4) as [Ok Ko].
  unfold WorkoutSuccessPredictor.prepare_data.
  rewrite (bind_step _ _ _ _ _ E1), (bind_step _ _ _ _ _ E2), (bind_step _ _ _ _ _ E3),
    (bind_step _ _ _ _ _ E4).
  unfold getitem_col. rewrite L. rewrite (bind_step _ _ _ l h4 eq_refl).
  split; intros K.
  - destruct (Ok K) as (y & h' & E6). rewrite (bind_step _ _ _ _ _ E6).
    eexists _, _, _. reflexivity.
  - exists h4. apply bind_inl, Ko, K.
Qed.
End PrepareDataReturns.

Lemma get_dummies_succeeds s prefix h ss :
  nth_error h s = Some (ColObj ss) ->
  exists D h', get_dummies s prefix h = (inr D, h').
Proof.
  intros Hs. unfold get_dummies.
  assert (E0 : load s h = (inr (ColObj ss), h)) by (unfold load; rewrite Hs; reflexivity).
  rewrite (bind_step _ _ _ _ _ E0). apply mapM_succeeds.
  - intros cat. grows_tac.
  - intros cat h1 _ _. cbv beta. unfold bind, alloc, ret. eexists _, _. reflexivity.
Qed.

Lemma df_copy_succeeds (df : DataFrame) (h : Heap) :
  (forall nl : string * loc, In nl df -> exists c, nth_error h (snd nl) = Some c) ->
  exists X h', df_copy df h = (inr X, h').
Proof.
  intros H. unfold df_copy. apply mapM_succeeds.
  - intros nl. grows_tac.
  - intros nl h1 Hin Ext. destruct (H nl Hin) as (c & Hc). cbv beta.
    unfold bind, copy_column, bind, load. rewrite (extends_nth _ _ _ _ Ext Hc). simpl.
    eexists _, _. reflexivity.
Qed.

Lemma eq_True_mask_length c : length (eq_True_mask c) = column_length c.
Proof. destruct c; simpl; rewrite ?length_map; reflexivity. Qed.

Lemma column_floats_select mask c xs :
  column_floats c = Some xs -> exists xs', column_floats (select_column mask c) = Some xs'.
Proof. destruct c; simpl; intros H; try discriminate; eauto. Qed.

Lemma getitem_mask_succeeds (df : DataFrame) mask (h : Heap) bs :
  nth_error h mask = Some (ColBool bs) ->
  rows_in h df (length bs) ->
  exists kept h', getitem_mask df mask h = (inr kept, h').
Proof.
  intros Hm R. unfold getitem_mask.
  assert (E0 : load mask h = (inr (ColBool bs), h))
    by (unfold load; rewrite Hm; reflexivity).
  rewrite (bind_step _ _ _ _ _ E0). apply mapM_succeeds.
  - intros nl. grows_tac.
  - intros nl h1 Hin Ext. unfold rows_in in R. rewrite Forall_forall in R.
    destruct (R nl Hin) as (c & Hc & Hl). cbv beta.
    unfold bind at 1, load. rewrite (extends_nth _ _ _ _ Ext Hc), Hl, Nat.eqb_refl.
    unfold bind, alloc, ret. eexists _, _. reflexivity.
Qed.

Section RegressorPrepareDataReturns.
Context {sk : Sklearn} {rt : Runtime sk}.

Lemma recovery_prepare_data_returns self df h lm ss ly :
  df_lookup "muscle_group" df = Some lm ->
  nth_error h lm = Some (ColObj ss) ->
  (forall n, In n (RecoveryTimePredictor.feature_names self) -> numeric_in h df n) ->
  df_lookup "actual_recovery_days" df = Some ly ->
  exists X h', RecoveryTimePredictor.prepare_data self df h = (inr (X, ly), h').
Proof.
  intros Lm Hm H Ly.
  destruct (get_dummies_succeeds lm "muscle" h ss Hm) as (D & hd & Ed).
  pose proof (grows_run _ _ _ _ (grows_get_dummies _ _) Ed) as X0d.
  assert (Hd : forall n, In n (RecoveryTimePredictor.feature_names self) ->
                         numeric_in hd df n).
  { intros n Hin. destruct (H n Hin) as (l & c & xs & L & Hc & F).
    exists l, c, xs. split; [exact L |]. split; [| exact F].
    eapply extends_nth; eassumption. }
  destruct (impute_succeeds df _ hd Hd) as (sel & h1 & sel_m & h2 & med & filled & h4
                                            & E1 & E2 & E3 & E4).
  pose proof (grows_run _ _ _ _ (grows_getitem_list _ _) E1) as Xd1.
  pose proof (grows_run _ _ _ _ (grows_getitem_list _ _) E2) as X12.
  pose proof (grows_run _ _ _ _ (grows_fillna _ _) E4) as X24.
  destruct (df_copy_succeeds (concat [filled; D]) h4) as (X & h5 & E5).
  { simpl. rewrite app_nil_r. intros nl Hin. apply in_app_or in Hin as [Hin | Hin].
    - apply fillna_spec in E4.
      destruct (Forall2_In_r _ _ _ _ E4 Hin) as (a & _ & _ & _ & c & c' & _ & Hc' & _).
      eauto.
    - apply get_dummies_spec in Ed as (ss' & _ & Fd).
      destruct (Forall2_In_r _ _ _ _ Fd Hin) as (cat & _ & _ & _ & Hc).
      eexists. eapply extends_nth; [| exact Hc].
      eapply extends_trans; [exact Xd1 |]. eapply extends_trans; eassumption. }
  unfold RecoveryTimePredictor.prepare_data, getitem_col. rewrite Lm, Ly.
  rewrite (bind_step _ _ _ lm h eq_refl), (bind_step _ _ _ _ _ Ed),
    (bind_step _ _ _ _ _ E1), (bind_step _ _ _ _ _ E2), (bind_step _ _ _ _ _ E3),
    (bind_step _ _ _ _ _ E4).
  unfold concat_axis1. rewrite (bind_step _ _ _ _ _ E5).
  eexists _, _. reflexivity.
Qed.

Lemma progression_prepare_data_returns self df h ls cs lw :
  df_lookup "successful" df = Some ls ->
  nth_error h ls = Some cs ->
  rows_in h df (column_length cs) ->
  (forall n, In n (WeightProgressionPredictor.feature_names self) -> numeric_in h df n) ->
  df_lookup "weight_increase" df = Some lw ->
  exists X y h', WeightProgressionPredictor.prepare_data self df h = (inr (X, y), h').
Proof.
  intros Ls Hs R H Lw.
  set (bs := eq_True_mask cs).
  set (hm := h ++ [ColBool bs]).
  assert (Em : eq_True ls h = (inr (length h), hm)).
  { unfold eq_True, bind, load, alloc. rewrite Hs. reflexivity. }
  assert (X0m : extends h hm) by (exists [ColBool bs]; reflexivity).
  destruct (getitem_mask_succeeds df (length h) hm bs) as (kept & hk & Ek).
  { apply nth_error_snoc. }
  { unfold bs. rewrite eq_True_mask_length. unfold rows_in in *.
    eapply Forall_impl; [| exact R]. intros nl (c & Hc & Hl). exists c.
    split; [eapply extends_nth; eassumption | exact Hl]. }
  pose proof (grows_run _ _ _ _ (grows_getitem_mask _ _) Ek) as Xmk.
  pose proof Ek as Sk. apply getitem_mask_spec in Sk as (bs' & Hbs & Hk).
  unfold hm in Hbs. rewrite nth_error_snoc in Hbs. inversion Hbs; subst bs'; clear Hbs.
  destruct (df_copy_succeeds kept hk) as (df_success & hs & Es).
  { intros nl Hin.
    destruct (Forall2_In_r _ _ _ _ Hk Hin) as (a & _ & _ & _ & c & _ & Hc). eauto. }
  pose proof (grows_run _ _ _ _ (grows_df_copy _) Es) as Xks.
  pose proof Es as Ss. apply df_copy_spec in Ss.
  assert (Look : forall name l c,
             df_lookup name df = Some l -> nth_error h l = Some c ->
             exists l2, df_lookup name df_success = Some l2 /\
                        nth_error hs l2 = Some (select_column bs c)).
  { intros name l c L Hc.
    destruct (assoc_Forall2
                (fun n l lk => length hm <= lk /\
                   exists c, nth_error hk l = Some c /\
                             nth_error hk lk = Some (select_column bs c))
                _ _ Hk name l L) as (lk & Lk & _ & c1 & H1 & H2).
    assert (c1 = c) as ->.
    { pose proof (extends_nth _ _ _ _ (extends_trans _ _ _ X0m Xmk) Hc). congruence. }
    destruct (assoc_Forall2
                (fun n lk l2 => length hk <= l2 /\
                   exists c, nth_error hs lk = Some c /\ nth_error hs l2 = Some c)
                _ _ Ss name lk Lk) as (l2 & L2 & _ & c2 & H3 & H4).
    assert (c2 = select_column bs c) as ->.
    { pose proof (extends_nth _ _ _ _ Xks H2). congruence. }
    exists l2. auto. }
  assert (Hn : forall n, In n (WeightProgressionPredictor.feature_names self) ->
                         numeric_in hs df_success n).
  { intros n Hin. destruct (H n Hin) as (l & c & xs & L & Hc & F).
    destruct (Look n l c L Hc) as (l2 & L2 & H2).
    destruct (column_floats_select bs c xs F) as (xs' & F').
    exists l2, (select_column bs c), xs'. auto. }
  destruct (impute_succeeds df_success _ hs Hn) as (sel & h1 & sel_m & h2 & med & X & h4
                                                    & E1 & E2 & E3 & E4).
  assert (Ly : exists y, df_lookup "weight_increase" df_success = Some y).
  { unfold rows_in in R. rewrite Forall_forall in R.
    destruct (R _ (assoc_In _ _ _ Lw)) as (c & Hc & _). simpl in Hc.
    destruct (Look _ _ _ Lw Hc) as (l2 & L2 & _). eauto. }
  destruct Ly as (y & Ly).
  unfold WeightProgressionPredictor.prepare_data, getitem_col. rewrite Ls.
  rewrite (bind_step _ _ _ ls h eq_refl), (bind_step _ _ _ _ _ Em),
    (bind_step _ _ _ _ _ Ek), (bind_step _ _ _ _ _ Es), (bind_step _ _ _ _ _ E1),
    (bind_step _ _ _ _ _ E2), (bind_step _ _ _ _ _ E3), (bind_step _ _ _ _ _ E4).
  rewrite Ly. eexists _, _, _. reflexivity.
Qed.
End RegressorPrepareDataReturns.

Ltac numeric_columns :=
  let n := fresh "n" in
  let Hin := fresh "Hin" in
  intros n Hin; simpl in Hin;
  repeat (destruct Hin as [<- | Hin];
          [eexists _, _, _; split; [reflexivity | split; reflexivity] |]);
  destruct Hin.

(** X14: [prepare_data] returns, rather than raising, on every dataset that
    has the columns it reads with usable content: the feature columns hold
    numbers (with or without missing values); for the workout task the
    outcome column can be cast to integers; for the recovery task the muscle
    group is a column of labels and the target column exists; for the
    progression task all columns have as many cells as "successful" and the
    target column exists. *)
Theorem prepare_data_returns_on_a_well_formed_dataset {sk : Sklearn} {rt : Runtime sk}
        (df : DataFrame) (h : Heap) :
  (forall self l c,
      (forall n, In n (WorkoutSuccessPredictor.feature_names self) ->
                 numeric_in h df n) ->
      df_lookup "workout_completed" df = Some l ->
      nth_error h l = Some c -> castable c = true ->
      exists X y h',
        WorkoutSuccessPredictor.prepare_data self df h = (inr (X, y), h')) /\
  (forall self lm ss ly,
      df_lookup "muscle_group" df = Some lm ->
      nth_error h lm = Some (ColObj ss) ->
      (forall n, In n (RecoveryTimePredictor.feature_names self) -> numeric_in h df n) ->
      df_lookup "actual_recovery_days" df = Some ly ->
      exists X h',
        RecoveryTimePredictor.prepare_data self df h = (inr (X, ly), h')) /\
  (forall self ls cs lw,
      df_lookup "successful" df = Some ls ->
      nth_error h ls = Some cs ->
      rows_in h df (column_length cs) ->
      (forall n, In n (WeightProgressionPredictor.feature_names self) ->
                 numeric_in h df n) ->
      df_lookup "weight_increase" df = Some lw ->
      exists X y h',
        WeightProgressionPredictor.prepare_data self df h = (inr (X, y), h')).
Proof.
  split; [| split].
  - intros self l c H L Hc K.
    exact (proj1 (workout_prepare_data_result self df h l c H L Hc) K).
  - intros self lm ss ly. apply recovery_prepare_data_returns.
  - intros self ls cs lw. apply progression_prepare_data_returns.
Qed.

Lemma prepare_data_returns_witness :
  exists X y h',
    WeightProgressionPredictor.prepare_data
      (sk := Toy.sklearn) WeightProgressionPredictor.__init__
      progression_frame progression_heap = (inr (X, y), h').
Proof.
  apply (proj2 (proj2 (prepare_data_returns_on_a_well_formed_dataset
                         (rt := Toy.runtime) progression_frame progression_heap))
           WeightProgressionPredictor.__init__ 4
           (ColBool [true; true; false; false]) 5).
  - reflexivity.
  - reflexivity.
  - unfold rows_in, progression_frame, progression_heap.
    repeat (constructor; [eexists; split; reflexivity |]). constructor.
  - numeric_columns.
  - reflexivity.
Defined.

(** X15: when the features are usable but the outcome column of the workout
    log is a float column with a missing (or infinite) value, [prepare_data]
    raises [ValueError]: the cast to integers fails, after the features have
    been imputed. *)
Theorem workout_outcome_with_missing_value_raises_value_error
        {sk : Sklearn} {rt : Runtime sk} self (df : DataFrame) (h : Heap) l xs :
  (forall n, In n (WorkoutSuccessPredictor.feature_names self) -> numeric_in h df n) ->
  df_lookup "workout_completed" df = Some l ->
  nth_error h l = Some (ColF64 xs) ->
  forallb is_finite xs = false ->
  exists h', WorkoutSuccessPredictor.prepare_data self df h = (inl ValueError, h').
Proof.
  intros H L Hc K.
  exact (proj2 (workout_prepare_data_result self df h l (ColF64 xs) H L Hc) K).
Qed.

Lemma workout_outcome_with_missing_value_witness :
  exists h',
    WorkoutSuccessPredictor.prepare_data
      (sk := Toy.sklearn) WorkoutSuccessPredictor.__init__
      workout_frame workout_heap_missing_outcome = (inl ValueError, h').
Proof.
  apply (workout_outcome_with_missing_value_raises_value_error
           (rt := Toy.runtime) WorkoutSuccessPredictor.__init__
           workout_frame workout_heap_missing_outcome 9 [1; nan; 1; 0; 1]%float).
  - numeric_columns.
  - reflexivity.
  - reflexivity.
  - reflexivity.
Defined.

(** ** A feature that was never recorded *)

Lemma nanmedian_without_values xs : forallb is_nan xs = true -> nanmedian xs = nan.
Proof.
  intros H. unfold nanmedian.
  assert (E : filter (fun x => negb (is_nan x)) xs = []).
  { induction xs as [| x t IH]; simpl in *; [reflexivity |].
    apply andb_true_iff in H as [Hx Ht]. rewrite Hx. simpl. apply IH, Ht. }
  rewrite E. reflexivity.
Qed.

Lemma fill_without_values xs c' :
  forallb is_nan xs = true ->
  fillna_column (ColF64 xs) (nanmedian xs) = inr c' ->
  exists xs', c' = ColF64 xs' /\ length xs' = length xs /\ forallb is_nan xs' = true.
Proof.
  intros H E. rewrite (nanmedian_without_values xs H) in E. simpl in E.
  inversion E; subst c'; clear E.
  exists (map (fill_cell nan) xs). split; [reflexivity |]. split; [apply length_map |].
  induction xs as [| x t IH]; simpl in *; [reflexivity |].
  apply andb_true_iff in H as [Hx Ht]. unfold fill_cell at 1. rewrite Hx.
  change (is_nan nan) with true. simpl. apply IH, Ht.
Qed.

(** X16: a feature column that holds no value at all is not imputed: the
    median of nothing is NaN, so in the feature matrix a [prepare_data]
    returns the column is as long as before and still entirely missing.  For
    the progression task the same holds when the feature is missing in every
    retained row. *)
Theorem feature_without_values_stays_missing {sk : Sklearn} {rt : Runtime sk}
        (df : DataFrame) (h : Heap) (X : DataFrame) (y : Series) (h' : Heap)
        (name : string) (l : loc) (xs : list float) :
  df_lookup name df = Some l ->
  nth_error h l = Some (ColF64 xs) ->
  (forall self,
      WorkoutSuccessPredictor.prepare_data self df h = (inr (X, y), h') ->
      In name (WorkoutSuccessPredictor.feature_names self) ->
      forallb is_nan xs = true ->
      exists l' xs', df_lookup name X = Some l' /\ nth_error h' l' = Some (ColF64 xs') /\
                     length xs' = length xs /\ forallb is_nan xs' = true) /\
  (forall self,
      RecoveryTimePredictor.prepare_data self df h = (inr (X, y), h') ->
      In name (RecoveryTimePredictor.feature_names self) ->
      forallb is_nan xs = true ->
      exists l' xs', df_lookup name X = Some l' /\ nth_error h' l' = Some (ColF64 xs') /\
                     length xs' = length xs /\ forallb is_nan xs' = true) /\
  (forall self ls col,
      WeightProgressionPredictor.prepare_data self df h = (inr (X, y), h') ->
      In name (WeightProgressionPredictor.feature_names self) ->
      df_lookup "successful" df = Some ls -> nth_error h ls = Some col ->
      forallb is_nan (select (eq_True_mask col) xs) = true ->
      exists l' xs', df_lookup name X = Some l' /\ nth_error h' l' = Some (ColF64 xs') /\
                     length xs' = length (select (eq_True_mask col) xs) /\
                     forallb is_nan xs' = true).
Proof.
  intros L Hc. split; [| split].
  - intros self E Hin Hn.
    apply workout_prepare_data_spec in E as (_ & _ & _ & Hi).
    destruct (Hi name Hin l _ L Hc) as (l' & xs0 & c' & LX & Hc' & F & Hf).
    simpl in F. inversion F; subst xs0.
    destruct (fill_without_values xs c' Hn Hf) as (xs' & -> & Hl & Hn').
    exists l', xs'. auto.
  - intros self E Hin Hn.
    apply recovery_prepare_data_spec in E as (_ & _ & _ & Hi).
    destruct (Hi name Hin l _ L Hc) as (l' & xs0 & c' & LX & Hc' & F & Hf).
    simpl in F. inversion F; subst xs0.
    destruct (fill_without_values xs c' Hn Hf) as (xs' & -> & Hl & Hn').
    exists l', xs'. auto.
  - intros self ls col E Hin Ls Hcol Hn.
    apply progression_prepare_data_spec in E
      as (_ & _ & _ & ls' & col' & Ls' & Hcol' & Hi).
    rewrite Ls in Ls'. inversion Ls'; subst ls'. rewrite Hcol in Hcol'.
    inversion Hcol'; subst col'.
    destruct (Hi name Hin l _ L Hc) as (l' & xs0 & c' & LX & Hc' & F & Hf).
    simpl in F, Hf. inversion F; subst xs0.
    destruct (fill_without_values _ c' Hn Hf) as (xs' & -> & Hl & Hn').
    exists l', xs'. auto.
Qed.

Lemma feature_without_values_witness :
  exists X y h' l' xs',
    RecoveryTimePredictor.prepare_data
      (sk := Toy.sklearn) RecoveryTimePredictor.__init__
      recovery_frame recovery_heap_no_sleep = (inr (X, y), h') /\
    df_lookup "sleep_quality" X = Some l' /\ nth_error h' l' = Some (ColF64 xs') /\
    length xs' = 3 /\ forallb is_nan xs' = true.
Proof.
  assert (F : succeeded (fst (RecoveryTimePredictor.prepare_data
                                (sk := Toy.sklearn) RecoveryTimePredictor.__init__
                                recovery_frame recovery_heap_no_sleep)) = true)
    by (vm_compute; reflexivity).
  destruct (succeeded_inr _ F) as [[X y] E].
  destruct (proj1 (proj2 (feature_without_values_stays_missing
                            (rt := Toy.runtime) recovery_frame recovery_heap_no_sleep
                            X y _ "sleep_quality" 2 [nan; nan; nan]%float
                            eq_refl eq_refl))
              RecoveryTimePredictor.__init__ E)
    as (l' & xs' & H1 & H2 & H3 & H4).
  - simpl. auto.
  - reflexivity.
  - exists X, y. eexists. exists l', xs'. split; [exact E | auto].
Defined.

(** ** Features and target stay aligned *)

Lemma some_eq {A : Type} (o : option A) x y : o = Some x -> o = Some y -> x = y.
Proof. congruence. Qed.

Lemma rows_in_extends h h' df n : extends h h' -> rows_in h df n -> rows_in h' df n.
Proof.
  intros Ext R. unfold rows_in in *. eapply Forall_impl; [| exact R].
  intros nl (c & Hc & Hl). exists c. split; [eapply extends_nth; eassumption | exact Hl].
Qed.

Lemma rows_in_lookup h df n name l :
  rows_in h df n -> df_lookup name df = Some l ->
  exists c, nth_error h l = Some c /\ column_length c = n.
Proof.
  intros R L. unfold rows_in in R. rewrite Forall_forall in R.
  exact (R _ (assoc_In _ _ _ L)).
Qed.

Lemma fillna_column_length c v c' :
  fillna_column c v = inr c' -> column_length c' = column_length c.
Proof.
  destruct c as [xs | zs | bs | ss]; simpl; intros E.
  - inversion E. simpl. apply length_map.
  - inversion E. reflexivity.
  - inversion E. reflexivity.
  - destruct (forallb _ ss); inversion E. reflexivity.
Qed.

Lemma impute_rows frame names h0 sel h1 sel_m h2 med h3 X h4 n :
  getitem_list frame names h0 = (inr sel, h1) ->
  getitem_list frame names h1 = (inr sel_m, h2) ->
  df_median sel_m h2 = (inr med, h3) ->
  fillna sel med h3 = (inr X, h4) ->
  rows_in h0 frame n -> rows_in h4 X n.
Proof.
  intros E1 E2 E3 E4 R.
  pose proof (grows_run _ _ _ _ (grows_getitem_list _ _) E1) as X01.
  pose proof (grows_run _ _ _ _ (grows_getitem_list _ _) E2) as X12.
  pose proof (grows_run _ _ _ _ (grows_df_median _) E3) as X23.
  pose proof (grows_run _ _ _ _ (grows_fillna _ _) E4) as X34.
  apply getitem_list_spec in E1. apply fillna_spec in E4.
  unfold rows_in. apply Forall_forall. intros nl' Hin.
  destruct (Forall2_In_r _ _ _ _ E4 Hin) as (nl & Hnl & _ & _ & c & c' & Hc & Hc' & Hf).
  destruct (Forall2_In_r _ _ _ _ E1 Hnl) as (name & _ & _ & _ & l & c0 & L & H1 & H2).
  destruct (rows_in_lookup _ _ _ _ _ R L) as (c1 & Hc1 & Hl).
  assert (c0 = c1) as -> by (pose proof (extends_nth _ _ _ _ X01 Hc1); congruence).
  assert (c = c1) as ->.
  { exact (some_eq _ _ _ Hc
             (extends_nth _ _ _ _
                (extends_trans _ _ _ X12 (extends_trans _ _ _ X23 X34)) H2)). }
  exists c'. split; [exact Hc' |]. rewrite <- Hl.
  destruct (assoc (fst nl) med) as [v |].
  - eapply fillna_column_length. exact Hf.
  - inversion Hf. reflexivity.
Qed.

Lemma astype_int_column s h y h1 :
  astype_int s h = (inr y, h1) ->
  exists c c', nth_error h s = Some c /\ nth_error h1 y = Some c' /\
               column_length c' = column_length c.
Proof.
  unfold astype_int. intros E. apply bind_inr in E as (c & h2 & El & Ea).
  apply load_inr in El as [Hc ->].
  destruct c as [xs | zs | bs | ss]; try discriminate;
    [destruct (forallb is_finite xs); [| discriminate] | |];
    apply alloc_inr in Ea as [-> ->]; eexists _, _;
    (split; [exact Hc | split; [apply nth_error_snoc | simpl; rewrite ?length_map; reflexivity]]).
Qed.

Lemma select_length {A : Type} (mask : list bool) (l : list A) :
  length l = length mask -> length (select mask l) = length (filter (fun b => b) mask).
Proof.
  revert l. induction mask as [| b t IH]; intros [| x l] H; simpl in *;
    try reflexivity; try discriminate.
  destruct b; simpl; [f_equal |]; apply IH; now inversion H.
Qed.

Lemma select_column_length mask c :
  column_length c = length mask ->
  column_length (select_column mask c) = length (filter (fun b => b) mask).
Proof. destruct c; simpl; apply select_length. Qed.

Section Alignment.
Context {sk : Sklearn} {rt : Runtime sk}.

Lemma workout_prepare_data_rows self df h X y h' n :
  WorkoutSuccessPredictor.prepare_data self df h = (inr (X, y), h') ->
  rows_in h df n ->
  rows_in h' X n /\ exists c, nth_error h' y = Some c /\ column_length c = n.
Proof.
  unfold WorkoutSuccessPredictor.prepare_data. intros E R.
  apply bind_inr in E as (sel & h1 & E1 & E).
  apply bind_inr in E as (sel_m & h2 & E2 & E).
  apply bind_inr in E as (med & h3 & E3 & E).
  apply bind_inr in E as (X0 & h4 & E4 & E).
  apply bind_inr in E as (col & h5 & E5 & E).
  apply bind_inr in E as (y0 & h6 & E6 & E).
  apply ret_inr in E as [E <-]. inversion E; subst X0 y0; clear E.
  apply getitem_col_inr in E5 as [Ly ->].
  pose proof (grows_run _ _ _ _ (grows_getitem_list _ _) E1) as X01.
  pose proof (grows_run _ _ _ _ (grows_getitem_list _ _) E2) as X12.
  pose proof (grows_run _ _ _ _ (grows_df_median _) E3) as X23.
  pose proof (grows_run _ _ _ _ (grows_fillna _ _) E4) as X34.
  pose proof (grows_run _ _ _ _ (grows_astype_int _) E6) as X46.
  pose proof (impute_rows _ _ _ _ _ _ _ _ _ _ _ n E1 E2 E3 E4 R) as RX.
  split; [eapply rows_in_extends; eassumption |].
  apply astype_int_column in E6 as (c & c' & Hc & Hc' & Hl).
  destruct (rows_in_lookup _ _ _ _ _ R Ly) as (c0 & Hc0 & Hl0).
  assert (c = c0) as ->.
  { pose proof (extends_nth _ _ _ _
                  (extends_trans _ _ _ X01
                     (extends_trans _ _ _ X12 (extends_trans _ _ _ X23 X34))) Hc0).
    congruence. }
  exists c'. split; [exact Hc' | congruence].
Qed.

Lemma recovery_prepare_data_rows self df h X y h' n :
  RecoveryTimePredictor.prepare_data self df h = (inr (X, y), h') ->
  rows_in h df n ->
  rows_in h' X n /\ exists c, nth_error h' y = Some c /\ column_length c = n.
Proof.
  unfold RecoveryTimePredictor.prepare_data. intros E R.
  apply bind_inr in E as (col & h0 & E0 & E).
  apply bind_inr in E as (dummies & hd & Ed & E).
  apply bind_inr in E as (sel & h1 & E1 & E).
  apply bind_inr in E as (sel_m & h2 & E2 & E).
  apply bind_inr in E as (med & h3 & E3 & E).
  apply bind_inr in E as (filled & h4 & E4 & E).
  apply bind_inr in E as (X0 & h5 & E5 & E).
  apply bind_inr in E as (y0 & h6 & E6 & E).
  apply ret_inr in E as [E <-]. inversion E; subst X0 y0; clear E.
  apply getitem_col_inr in E0 as [Lm ->].
  apply getitem_col_inr in E6 as [Ly ->].
  pose proof (grows_run _ _ _ _ (grows_get_dummies _ _) Ed) as X0d.
  pose proof (grows_run _ _ _ _ (grows_getitem_list _ _) E1) as Xd1.
  pose proof (grows_run _ _ _ _ (grows_getitem_list _ _) E2) as X12.
  pose proof (grows_run _ _ _ _ (grows_df_median _) E3) as X23.
  pose proof (grows_run _ _ _ _ (grows_fillna _ _) E4) as X34.
  pose proof (grows_run _ _ _ _ (grows_concat_axis1 _) E5) as X45.
  assert (Xd4 : extends hd h4).
  { eapply extends_trans; [exact Xd1 |]. eapply extends_trans; [exact X12 |].
    eapply extends_trans; eassumption. }
  pose proof (impute_rows _ _ _ _ _ _ _ _ _ _ _ n E1 E2 E3 E4
                (rows_in_extends _ _ _ _ X0d R)) as RF.
  apply get_dummies_spec in Ed as (ss & Hss & Hd).
  destruct (rows_in_lookup _ _ _ _ _ R Lm) as (cm & Hcm & Hlm).
  rewrite Hss in Hcm. inversion Hcm; subst cm; clear Hcm. simpl in Hlm.
  unfold concat_axis1 in E5. apply df_copy_spec in E5. simpl in E5.
  rewrite app_nil_r in E5.
  split.
  - unfold rows_in. apply Forall_forall. intros nl' Hin.
    destruct (Forall2_In_r _ _ _ _ E5 Hin) as (nl & Hnl & _ & _ & c & Hc & Hc').
    exists c. split; [exact Hc' |].
    apply in_app_or in Hnl as [Hnl | Hnl].
    + unfold rows_in in RF. rewrite Forall_forall in RF.
      destruct (RF nl Hnl) as (c0 & Hc0 & Hl0).
      rewrite <- Hl0. f_equal. exact (some_eq _ _ _ Hc (extends_nth _ _ _ _ X45 Hc0)).
    + destruct (Forall2_In_r _ _ _ _ Hd Hnl) as (cat & _ & _ & _ & Hi).
      pose proof (extends_nth _ _ _ _ (extends_trans _ _ _ Xd4 X45) Hi) as Hi'.
      assert (c = ColBool (indicator cat ss)) as -> by exact (some_eq _ _ _ Hc Hi').
      simpl. unfold indicator. rewrite length_map. exact Hlm.
  - destruct (rows_in_lookup _ _ _ _ _ R Ly) as (c & Hc & Hl).
    exists c. split; [| exact Hl].
    eapply extends_nth; [| exact Hc].
    eapply extends_trans; [exact X0d |]. eapply extends_trans; eassumption.
Qed.

Lemma progression_prepare_data_rows self df h X y h' n ls cs :
  WeightProgressionPredictor.prepare_data self df h = (inr (X, y), h') ->
  rows_in h df n ->
  df_lookup "successful" df = Some ls -> nth_error h ls = Some cs ->
  let kept := length (filter (fun b => b) (eq_True_mask cs)) in
  rows_in h' X kept /\ exists c, nth_error h' y = Some c /\ column_length c = kept.
Proof.
  unfold WeightProgressionPredictor.prepare_data. intros E R Ls Hs.
  set (kept := length (filter (fun b => b) (eq_True_mask cs))).
  apply bind_inr in E as (col & h0 & E0 & E).
  apply bind_inr in E as (mask & hm & Em & E).
  apply bind_inr in E as (keptf & hk & Ek & E).
  apply bind_inr in E as (df_success & hs & Es & E).
  apply bind_inr in E as (sel & h1 & E1 & E).
  apply bind_inr in E as (sel_m & h2 & E2 & E).
  apply bind_inr in E as (med & h3 & E3 & E).
  apply bind_inr in E as (X0 & h4 & E4 & E).
  apply bind_inr in E as (y0 & h5 & E5 & E).
  apply ret_inr in E as [E <-]. inversion E; subst X0 y0; clear E.
  apply getitem_col_inr in E0 as [Ls' ->]. rewrite Ls in Ls'. inversion Ls'; subst col.
  apply getitem_col_inr in E5 as [Ly ->].
  pose proof (grows_run _ _ _ _ (grows_eq_True _) Em) as X0m.
  pose proof (grows_run _ _ _ _ (grows_getitem_mask _ _) Ek) as Xmk.
  pose proof (grows_run _ _ _ _ (grows_df_copy _) Es) as Xks.
  pose proof (grows_run _ _ _ _ (grows_getitem_list _ _) E1) as Xs1.
  pose proof (grows_run _ _ _ _ (grows_getitem_list _ _) E2) as X12.
  pose proof (grows_run _ _ _ _ (grows_df_median _) E3) as X23.
  pose proof (grows_run _ _ _ _ (grows_fillna _ _) E4) as X34.
  apply eq_True_inr in Em as (cs' & Hcs & -> & ->).
  rewrite Hs in Hcs. inversion Hcs; subst cs'; clear Hcs.
  apply getitem_mask_spec in Ek as (bs & Hbs & Hk).
  rewrite nth_error_snoc in Hbs. inversion Hbs; subst bs; clear Hbs.
  apply df_copy_spec in Es.
  destruct (rows_in_lookup _ _ _ _ _ R Ls) as (c0 & Hc0 & Hn).
  rewrite Hs in Hc0. inversion Hc0; subst c0; clear Hc0.
  assert (RS : rows_in hs df_success kept).
  { unfold rows_in. apply Forall_forall. intros nl2 Hin2.
    destruct (Forall2_In_r _ _ _ _ Es Hin2) as (nlk & Hink & _ & _ & c & Hc & Hc2).
    destruct (Forall2_In_r _ _ _ _ Hk Hink) as (nl & Hin & _ & _ & c1 & Hc1 & Hck).
    exists c. split; [exact Hc2 |].
    pose proof (extends_nth _ _ _ _ Xks Hck) as Hck'.
    assert (c = select_column (eq_True_mask cs) c1) as ->
      by exact (some_eq _ _ _ Hc Hck').
    unfold rows_in in R. rewrite Forall_forall in R.
    destruct (R nl Hin) as (c2 & Hc2' & Hl2).
    pose proof (extends_nth _ _ _ _ (extends_trans _ _ _ X0m Xmk) Hc2') as Hc2''.
    assert (c1 = c2) as -> by exact (some_eq _ _ _ Hc1 Hc2'').
    apply select_column_length. rewrite eq_True_mask_length. congruence. }
  pose proof (impute_rows _ _ _ _ _ _ _ _ _ _ _ kept E1 E2 E3 E4 RS) as RX.
  split; [exact RX |].
  destruct (rows_in_lookup _ _ _ _ _ RS Ly) as (c & Hc & Hl).
  exists c. split; [| exact Hl].
  eapply extends_nth; [| exact Hc].
  eapply extends_trans; [exact Xs1 |]. eapply extends_trans; [exact X12 |].
  eapply extends_trans; eassumption.
Qed.
End Alignment.

(** X17: [prepare_data] keeps features and target aligned.  On a dataset
    whose columns all have [n] cells, every column of the feature matrix and
    the target it returns have [n] cells for the workout and the recovery
    task (the indicator columns included); for the progression task they
    have as many cells as there are rows whose "successful" cell equals
    [True]. *)
Theorem prepare_data_keeps_features_and_target_aligned {sk : Sklearn} {rt : Runtime sk}
        (df : DataFrame) (h : Heap) (X : DataFrame) (y : Series) (h' : Heap) (n : nat) :
  rows_in h df n ->
  (forall self,
      WorkoutSuccessPredictor.prepare_data self df h = (inr (X, y), h') ->
      rows_in h' X n /\ exists c, nth_error h' y = Some c /\ column_length c = n) /\
  (forall self,
      RecoveryTimePredictor.prepare_data self df h = (inr (X, y), h') ->
      rows_in h' X n /\ exists c, nth_error h' y = Some c /\ column_length c = n) /\
  (forall self ls cs,
      WeightProgressionPredictor.prepare_data self df h = (inr (X, y), h') ->
      df_lookup "successful" df = Some ls -> nth_error h ls = Some cs ->
      rows_in h' X (length (filter (fun b => b) (eq_True_mask cs))) /\
      exists c, nth_error h' y = Some c /\
                column_length c = length (filter (fun b => b) (eq_True_mask cs))).
Proof.
  intros R. split; [| split].
  - intros self E. exact (workout_prepare_data_rows self df h X y h' n E R).
  - intros self E. exact (recovery_prepare_data_rows self df h X y h' n E R).
  - intros self ls cs E Ls Hs.
    exact (progression_prepare_data_rows self df h X y h' n ls cs E R Ls Hs).
Qed.

Lemma prepare_data_alignment_witness :
  exists X y h',
    WeightProgressionPredictor.prepare_data
      (sk := Toy.sklearn) WeightProgressionPredictor.__init__
      progression_frame progression_heap = (inr (X, y), h') /\
    rows_in h' X 2 /\ exists c, nth_error h' y = Some c /\ column_length c = 2.
Proof.
  assert (F : succeeded (fst (WeightProgressionPredictor.prepare_data
                                (sk := Toy.sklearn) WeightProgressionPredictor.__init__
                                progression_frame progression_heap)) = true)
    by (vm_compute; reflexivity).
  destruct (succeeded_inr _ F) as [[X y] E].
  exists X, y. eexists. split; [exact E |].
  apply (proj2 (proj2 (prepare_data_keeps_features_and_target_aligned
                         (rt := Toy.runtime) progression_frame progression_heap
                         X y _ 4
                         ltac:(unfold rows_in, progression_frame, progression_heap;
                               repeat (constructor; [eexists; split; reflexivity |]);
                               constructor)))
           WeightProgressionPredictor.__init__ 4 (ColBool [true; true; false; false])
           E eq_refl eq_refl).
Defined.

(** ** A data file without a required column *)

Lemma assoc_none_labels {V W : Type} name (l1 : list (string * V)) (l2 : list (string * W)) :
  map fst l1 = map fst l2 -> assoc name l1 = None -> assoc name l2 = None.
Proof.
  revert l2. induction l1 as [| [n v] l1 IH]; intros [| [n' w] l2] H; simpl in *;
    try discriminate; [reflexivity |].
  inversion H; subst n'. destruct (String.eqb n name); [discriminate | apply IH; assumption].
Qed.

Lemma missing_labels_In name names df :
  In name names -> df_lookup name df = None -> In name (missing_labels names df).
Proof.
  intros Hin L. unfold missing_labels. apply filter_In. split; [exact Hin |].
  rewrite L. reflexivity.
Qed.

Section MissingColumn.
Context {sk : Sklearn} {rt : Runtime sk}.

(** Reading a file that parses gives a frame with the parsed labels and
    touches nothing but the store. *)
Lemma read_csv_parsed path (w : World) bytes cols :
  fs_read path (files (fs w)) = Some bytes ->
  parse_csv bytes = inr cols ->
  exists df w', read_csv path w = (inr df, w') /\ map fst df = map fst cols /\
                fs w' = fs w.
Proof.
  intros Hf Hp. unfold read_csv. rewrite Hf, Hp. unfold lift_heap.
  set (f := fun nc : string * Column => l <- alloc (snd nc) ;; ret (fst nc, l)).
  assert (S : forall l h, exists df h', mapM f l h = (inr df, h') /\
                                        map fst df = map fst l).
  { induction l as [| nc t IH]; intros h; simpl.
    - eexists _, _. split; reflexivity.
    - destruct (IH (h ++ [snd nc])) as (df & h' & E & Hl).
      exists ((fst nc, length h) :: df), h'. unfold bind at 1. unfold f at 1.
      unfold bind at 1, alloc, ret. unfold bind. rewrite E. simpl.
      split; [reflexivity | f_equal; exact Hl]. }
  destruct (S cols (heap w)) as (df & h' & E & Hl). rewrite E.
  exists df, (set_heap h' w). auto.
Qed.

End MissingColumn.

(** X18: a data file that parses but lacks a column the task reads makes the
    task raise [KeyError] naming it, before any model is fitted; nothing is
    saved: the file system is as before.  For the workout task this holds of
    every feature column, for the recovery task of "muscle_group" and for the
    progression task of "successful". *)
Theorem data_file_without_a_column_raises_key_error {sk : Sklearn} {rt : Runtime sk}
        (data : string) (w : World) bytes cols :
  fs_read data (files (fs w)) = Some bytes ->
  parse_csv bytes = inr cols ->
  (forall name,
      In name (WorkoutSuccessPredictor.feature_names WorkoutSuccessPredictor.__init__) ->
      assoc name cols = None ->
      exists missing w',
        train_workout_success_model data w = (inl (KeyError missing), w') /\
        In name missing /\ fs w' = fs w) /\
  (assoc "muscle_group" cols = None ->
   exists w', train_recovery_model data w = (inl (KeyError ["muscle_group"]), w') /\
              fs w' = fs w) /\
  (assoc "successful" cols = None ->
   exists w', train_progression_model data w = (inl (KeyError ["successful"]), w') /\
              fs w' = fs w).
Proof.
  intros Hf Hp.
  assert (R : forall line, exists df w1,
               read_csv data (snd (print line w)) = (inr df, w1) /\
               map fst df = map fst cols /\ fs w1 = fs w).
  { intros line. apply (read_csv_parsed data (snd (print line w)) bytes cols); assumption. }
  split; [| split].
  - intros name Hin Hn.
    destruct (R (nl ++ "🤖 Training Workout Success Predictor...")%string)
      as (df & w1 & E & Hl & F1).
    assert (L : df_lookup name df = None)
      by (apply (assoc_none_labels name cols df); [symmetry; exact Hl | exact Hn]).
    pose proof (missing_labels_In _ _ _ Hin L) as Hm.
    assert (Hne : missing_labels
                    (WorkoutSuccessPredictor.feature_names WorkoutSuccessPredictor.__init__)
                    df <> [])
      by (intros H0; rewrite H0 in Hm; destruct Hm).
    assert (P : WorkoutSuccessPredictor.prepare_data WorkoutSuccessPredictor.__init__ df
                                                     (heap w1)
                = (inl (KeyError (missing_labels
                                    (WorkoutSuccessPredictor.feature_names
                                       WorkoutSuccessPredictor.__init__) df)), heap w1)).
    { unfold WorkoutSuccessPredictor.prepare_data, getitem_list.
      destruct (missing_labels _ df) as [| m ms]; [congruence | reflexivity]. }
    unfold train_workout_success_model, load_data_from_csv.
    rewrite bind_print, (bind_step _ _ _ _ _ E). cbv zeta.
    eexists _, (set_heap (heap w1) w1). split; [| split; [exact Hm | exact F1]].
    apply bind_inl. unfold WorkoutSuccessPredictor.train. apply bind_inl.
    unfold lift_heap. rewrite P. reflexivity.
  - intros Hn.
    destruct (R (nl ++ "🤖 Training Recovery Time Predictor...")%string)
      as (df & w1 & E & Hl & F1).
    assert (L : df_lookup "muscle_group" df = None)
      by (apply (assoc_none_labels _ cols df); [symmetry; exact Hl | exact Hn]).
    assert (P : RecoveryTimePredictor.prepare_data RecoveryTimePredictor.__init__ df
                                                   (heap w1)
                = (inl (KeyError ["muscle_group"]), heap w1)).
    { unfold RecoveryTimePredictor.prepare_data, getitem_col. rewrite L. reflexivity. }
    unfold train_recovery_model, load_data_from_csv.
    rewrite bind_print, (bind_step _ _ _ _ _ E). cbv zeta.
    exists (set_heap (heap w1) w1). split; [| exact F1].
    apply bind_inl. unfold RecoveryTimePredictor.train. apply bind_inl.
    unfold lift_heap. rewrite P. reflexivity.
  - intros Hn.
    destruct (R (nl ++ "🤖 Training Weight Progression Predictor...")%string)
      as (df & w1 & E & Hl & F1).
    assert (L : df_lookup "successful" df = None)
      by (apply (assoc_none_labels _ cols df); [symmetry; exact Hl | exact Hn]).
    assert (P : WeightProgressionPredictor.prepare_data
                  WeightProgressionPredictor.__init__ df (heap w1)
                = (inl (KeyError ["successful"]), heap w1)).
    { unfold WeightProgressionPredictor.prepare_data, getitem_col. rewrite L.
      reflexivity. }
    unfold train_progression_model, load_data_from_csv.
    rewrite bind_print, (bind_step _ _ _ _ _ E). cbv zeta.
    exists (set_heap (heap w1) w1). split; [| exact F1].
    apply bind_inl. unfold WeightProgressionPredictor.train. apply bind_inl.
    unfold lift_heap. rewrite P. reflexivity.
Qed.

Lemma data_file_without_a_column_witness :
  exists w',
    train_recovery_model (rt := Toy.runtime) "workouts.csv" (Toy.world0 workout_fs)
    = (inl (KeyError ["muscle_group"]), w') /\
    fs w' = workout_fs.
Proof.
  assert (P : exists cols, parse_csv (Runtime := Toy.runtime) workout_csv = inr cols /\
                           assoc "muscle_group" cols = None).
  { eexists. split; [vm_compute; reflexivity | vm_compute; reflexivity]. }
  destruct P as (cols & Hp & Hn).
  exact (proj1 (proj2 (data_file_without_a_column_raises_key_error
                         (rt := Toy.runtime) "workouts.csv" (Toy.world0 workout_fs)
                         workout_csv cols eq_refl Hp)) Hn).
Defined.

(** ** What a task leaves on disk *)

Section TaskArtifacts.
Context {sk : Sklearn} {rt : Runtime sk}.

Lemma quiet_run {A : Type} (m : M World A) (w : World) r w' :
  store_and_output_only m -> m w = (r, w') -> fs w' = fs w /\ clock w' = clock w.
Proof. intros Q E. destruct (Q w) as (F & C & _). rewrite E in F, C. auto. Qed.

(** A stamped dump that returns has written the complete bundle, stamped
    with the time at which it ran. *)
Lemma stamped_dump_returns mk path line (w w' : World) :
  stamped_dump mk path line w = (inr tt, w') ->
  fs_read path (files (fs w')) = Some (concat (joblib_pickle (mk (clock w)))).
Proof.
  intros E.
  destruct (parent_exists path (fs w)) eqn:P.
  - pose proof (timestamped_dump_in_place mk path line w) as T. cbv zeta in T.
    destruct T as (_ & _ & T). destruct (T P) as (_ & _ & T3).
    unfold stamped_dump in E. rewrite E in T3. exact T3.
  - rewrite (stamped_dump_without_directory mk path line w P) in E. discriminate.
Qed.

Lemma workout_task_artifact data (w : World) p metrics w' :
  train_workout_success_model data w = (inr (p, metrics), w') ->
  fs_read WorkoutSuccessPredictor.default_path (files (fs w'))
  = Some (concat (joblib_pickle (WorkoutSuccessPredictor.bundle p (clock w)))).
Proof.
  unfold train_workout_success_model, load_data_from_csv. intros E.
  apply bind_inr in E as (u & w1 & E1 & E).
  apply bind_inr in E as (df & w2 & E2 & E). cbv zeta in E.
  apply bind_inr in E as ([metrics' p'] & w3 & E3 & E).
  apply bind_inr in E as ([] & w4 & E4 & E).
  apply ret_inr in E as [E <-]. inversion E; subst p' metrics'; clear E.
  destruct (quiet_run _ _ _ _ (quiet_print _) E1) as [_ C1].
  destruct (quiet_run _ _ _ _ (quiet_read_csv _) E2) as [_ C2].
  destruct (quiet_run _ _ _ _ (quiet_workout_train WorkoutSuccessPredictor.__init__ df 42%Z eq_refl) E3) as [_ C3].
  rewrite <- C1, <- C2, <- C3.
  exact (stamped_dump_returns (WorkoutSuccessPredictor.bundle p) _ _ w3 w4 E4).
Qed.

Lemma recovery_task_artifact data (w : World) p metrics w' :
  train_recovery_model data w = (inr (p, metrics), w') ->
  fs_read RecoveryTimePredictor.default_path (files (fs w'))
  = Some (concat (joblib_pickle (RecoveryTimePredictor.bundle p (clock w)))).
Proof.
  unfold train_recovery_model, load_data_from_csv. intros E.
  apply bind_inr in E as (u & w1 & E1 & E).
  apply bind_inr in E as (df & w2 & E2 & E). cbv zeta in E.
  apply bind_inr in E as ([metrics' p'] & w3 & E3 & E).
  apply bind_inr in E as ([] & w4 & E4 & E).
  apply ret_inr in E as [E <-]. inversion E; subst p' metrics'; clear E.
  destruct (quiet_run _ _ _ _ (quiet_print _) E1) as [_ C1].
  destruct (quiet_run _ _ _ _ (quiet_read_csv _) E2) as [_ C2].
  destruct (quiet_run _ _ _ _ (quiet_recovery_train RecoveryTimePredictor.__init__ df 42%Z eq_refl) E3) as [_ C3].
  rewrite <- C1, <- C2, <- C3.
  exact (stamped_dump_returns (RecoveryTimePredictor.bundle p) _ _ w3 w4 E4).
Qed.

Lemma progression_task_artifact data (w : World) p metrics w' :
  train_progression_model data w = (inr (p, metrics), w') ->
  fs_read WeightProgressionPredictor.default_path (files (fs w'))
  = Some (concat (joblib_pickle (WeightProgressionPredictor.bundle p (clock w)))).
Proof.
  unfold train_progression_model, load_data_from_csv. intros E.
  apply bind_inr in E as (u & w1 & E1 & E).
  apply bind_inr in E as (df & w2 & E2 & E). cbv zeta in E.
  apply bind_inr in E as ([metrics' p'] & w3 & E3 & E).
  apply bind_inr in E as ([] & w4 & E4 & E).
  apply ret_inr in E as [E <-]. inversion E; subst p' metrics'; clear E.
  destruct (quiet_run _ _ _ _ (quiet_print _) E1) as [_ C1].
  destruct (quiet_run _ _ _ _ (quiet_read_csv _) E2) as [_ C2].
  destruct (quiet_run _ _ _ _ (quiet_progression_train WeightProgressionPredictor.__init__ df 42%Z eq_refl) E3) as [_ C3].
  rewrite <- C1, <- C2, <- C3.
  exact (stamped_dump_returns (WeightProgressionPredictor.bundle p) _ _ w3 w4 E4).
Qed.
End TaskArtifacts.

(** X19: a task that returns has saved the predictor it returns: the file at
    the default path of its class then holds the complete serialization of
    the bundle of that predictor (the fitted forest and scaler among its
    entries), stamped with the time of the run. *)
Theorem task_saves_the_predictor_it_returns {sk : Sklearn} {rt : Runtime sk}
        (data : string) (w w' : World) (metrics : Metrics) :
  (forall p,
      train_workout_success_model data w = (inr (p, metrics), w') ->
      fs_read "models/workout_success_model.pkl" (files (fs w'))
      = Some (concat (joblib_pickle (WorkoutSuccessPredictor.bundle p (clock w))))) /\
  (forall p,
      train_recovery_model data w = (inr (p, metrics), w') ->
      fs_read "models/recovery_time_model.pkl" (files (fs w'))
      = Some (concat (joblib_pickle (RecoveryTimePredictor.bundle p (clock w))))) /\
  (forall p,
      train_progression_model data w = (inr (p, metrics), w') ->
      fs_read "models/weight_progression_model.pkl" (files (fs w'))
      = Some (concat (joblib_pickle (WeightProgressionPredictor.bundle p (clock w))))).
Proof.
  split; [| split]; intros p E.
  - exact (workout_task_artifact data w p metrics w' E).
  - exact (recovery_task_artifact data w p metrics w' E).
  - exact (progression_task_artifact data w p metrics w' E).
Qed.

Lemma task_saves_the_predictor_witness :
  exists p metrics w',
    train_workout_success_model (rt := Toy.runtime) "workouts.csv" (Toy.world0 workout_fs)
    = (inr (p, metrics), w') /\
    fs_read "models/workout_success_model.pkl" (files (fs w'))
    = Some (concat (joblib_pickle (Runtime := Toy.runtime)
                      (WorkoutSuccessPredictor.bundle (rt := Toy.runtime) p 0))).
Proof.
  assert (F : succeeded (fst (train_workout_success_model
                                (rt := Toy.runtime) "workouts.csv"
                                (Toy.world0 workout_fs))) = true)
    by (vm_compute; reflexivity).
  destruct (succeeded_inr _ F) as [[p metrics] E].
  exists p, metrics. eexists. split; [exact E |].
  exact (proj1 (task_saves_the_predictor_it_returns
                  (rt := Toy.runtime) "workouts.csv" (Toy.world0 workout_fs) _ metrics)
           p E).
Defined.

(** X20: with a single task selected, the main block runs that task and no
    other, between its opening and closing lines: an exception of the task
    leaves the block as it is, in the world where it was raised, and when the
    task returns the block prints its closing lines and returns. *)
Theorem main_runs_exactly_the_selected_task {sk : Sklearn} {rt : Runtime sk}
        (data : string) (w : World) :
  let w0 := snd (print (repeat_string "=" 60)
                   (snd (print "FitTrack ML Model Training Pipeline"
                           (snd (print (nl ++ repeat_string "=" 60) w))))) in
  let closing (w1 : World) :=
    snd (print (repeat_string "=" 60 ++ nl)
           (snd (print "✅ Training Complete!"
                   (snd (print (nl ++ repeat_string "=" 60) w1))))) in
  (forall e w1, train_workout_success_model data w0 = (inl e, w1) ->
                main {| args_model := workout_success; args_data := data |} w
                = (inl e, w1)) /\
  (forall r w1, train_workout_success_model data w0 = (inr r, w1) ->
                main {| args_model := workout_success; args_data := data |} w
                = (inr tt, closing w1)) /\
  (forall e w1, train_recovery_model data w0 = (inl e, w1) ->
                main {| args_model := recovery_time; args_data := data |} w
                = (inl e, w1)) /\
  (forall r w1, train_recovery_model data w0 = (inr r, w1) ->
                main {| args_model := recovery_time; args_data := data |} w
                = (inr tt, closing w1)) /\
  (forall e w1, train_progression_model data w0 = (inl e, w1) ->
                main {| args_model := weight_progression; args_data := data |} w
                = (inl e, w1)) /\
  (forall r w1, train_progression_model data w0 = (inr r, w1) ->
                main {| args_model := weight_progression; args_data := data |} w
                = (inr tt, closing w1)).
Proof.
  intros w0 closing. unfold main. cbn [args_model args_data choice_eqb orb].
  rewrite !bind_print. fold w0.
  repeat split.
  - intros e w1 H. apply bind_inl, then_ret_inl, H.
  - intros r w1 H. rewrite (bind_step _ _ _ _ _ (then_ret_inr _ _ _ _ H)). reflexivity.
  - intros e w1 H. rewrite (bind_step _ _ _ tt w0 eq_refl).
    apply bind_inl, then_ret_inl, H.
  - intros r w1 H. rewrite (bind_step _ _ _ tt w0 eq_refl).
    rewrite (bind_step _ _ _ _ _ (then_ret_inr _ _ _ _ H)). reflexivity.
  - intros e w1 H. rewrite (bind_step _ _ _ tt w0 eq_refl).
    rewrite (bind_step _ _ _ tt w0 eq_refl). apply bind_inl, then_ret_inl, H.
  - intros r w1 H. rewrite (bind_step _ _ _ tt w0 eq_refl).
    rewrite (bind_step _ _ _ tt w0 eq_refl).
    rewrite (bind_step _ _ _ _ _ (then_ret_inr _ _ _ _ H)). reflexivity.
Qed.

Lemma main_runs_exactly_the_selected_task_witness :
  fst (main (rt := Toy.runtime)
            {| args_model := recovery_time; args_data := "workouts.csv" |}
            (Toy.world0 workout_fs))
  = inl (KeyError ["muscle_group"]).
Proof.
  pose proof (main_runs_exactly_the_selected_task
                (rt := Toy.runtime) "workouts.csv" (Toy.world0 workout_fs)) as T.
  cbv zeta in T. destruct T as (_ & _ & T & _).
  match type of T with
  | forall e w1, ?t = _ -> _ =>
      assert (F : raised (fst t) = Some (KeyError ["muscle_group"]))
        by (vm_compute; reflexivity)
  end.
  exact (f_equal fst (T _ _ (raised_inl _ _ F))).
Defined.
